(** * Hevy / Strava adapter servers: the recent-activity aggregator and the
      API client, embedded from [src/hevy_mcp/server.py] and
      [src/stravamcpserver/server.py]; further on, the tools of the
      Strava and coach servers over their client libraries
      ([src/mymcpserver/server.py]) and the token bootstrap
      ([src/stravamcpserver/strava_auth.py]).

    Conventions of the embedding.
    - A Python exception is a value of [exn]; code that may raise returns a
      [result].  Code that talks to the network runs in the monad [M], which
      threads the log of the HTTP requests sent so far.
    - The process environment ([os.environ]), the clock and the remote
      server are inputs: section variables here, binders once a section is
      closed.
    - JSON bodies are read at the shape of the data model: a key a record
      may lack is an [option] field, read as the code reads it, through
      [.get] with a default.
    - Python [float]s stand as the rationals they denote ([Q]), rounding
      and the non-finite values left out; the module [Volume] has the
      volume accumulator on IEEE 754 doubles, as the interpreter computes
      it.
    - Library functions whose text is not part of the repository
      ([datetime.fromisoformat], [json.dumps], [json.loads]) are section
      variables. *)

From Stdlib Require Import List ZArith QArith Bool String Ascii Lia.
From Stdlib Require Import Permutation Sorted.
From Stdlib Require Import DecimalString DecimalPos DecimalZ.
From Stdlib Require Import Floats.
Import ListNotations.

#[local] Set Warnings "-register-all".

(** A decimal literal of [float_scope] is the double nearest to it, as a
    literal of Python is. *)
#[local] Set Warnings "-inexact-float".

#[local] Open Scope string_scope.
#[local] Open Scope Z_scope.
#[local] Open Scope list_scope.

Infix "+++" := String.append (right associativity, at level 60).

(* ------------------------------------------------------------------ *)
(** ** Exceptions and results *)

Inductive exn : Type :=
| ValueError (msg : string)
| TypeError (msg : string)
| OverflowError (msg : string)
| HTTPStatusError (status : Z) (body : string)
| TransportError (msg : string)
| JSONDecodeError (msg : string).

Inductive result (A : Type) : Type :=
| Ok (a : A)
| Raise (e : exn).

Arguments Ok {A} a.
Arguments Raise {A} e.

Definition rbind {A B : Type} (r : result A) (k : A -> result B) : result B :=
  match r with
  | Ok a => k a
  | Raise e => Raise e
  end.

Notation "'let?' x ':=' r 'in' k" := (rbind r (fun x => k))
  (at level 10, x name, r at level 100, k at level 200).

(* ------------------------------------------------------------------ *)
(** ** Python builtins used by the source *)

(** [d.get(key, default)] on a key the record may lack. *)
Definition get_or {A : Type} (field : option A) (default : A) : A :=
  match field with
  | Some v => v
  | None => default
  end.

(** Truth value of a [str]: the empty string is falsy. *)
Definition truthy_str (s : string) : bool :=
  match s with
  | EmptyString => false
  | String _ _ => true
  end.

(** Truth value of a [list]: the empty list is falsy. *)
Definition truthy_list {A : Type} (l : list A) : bool :=
  match l with
  | [] => false
  | _ :: _ => true
  end.

(** [s.replace(old, new)] for a one-character [old]: every occurrence. *)
Fixpoint str_replace (old : ascii) (new : string) (s : string) : string :=
  match s with
  | EmptyString => EmptyString
  | String c rest =>
      if Ascii.eqb c old then new +++ str_replace old new rest
      else String c (str_replace old new rest)
  end.

(** [s[:n]]. *)
Definition str_prefix (n : nat) (s : string) : string := substring 0 n s.

(** [range(lo, hi)]. *)
Definition range (lo hi : Z) : list Z :=
  map (fun i => lo + Z.of_nat i) (seq 0 (Z.to_nat (hi - lo))).

(* ------------------------------------------------------------------ *)
(** ** [datetime] *)

(** A [datetime] is its wall-clock reading, in microseconds since
    0001-01-01T00:00:00, and its UTC offset in microseconds; a naive
    value has no offset. *)
Record datetime : Type := mk_datetime {
  wall : Z;
  utcoffset : option Z
}.

Definition us_per_day : Z := 86400 * 1000000.

(** [datetime.max] is 9999-12-31T23:59:59.999999: day 3652058 after
    [datetime.min]. *)
Definition datetime_max_wall : Z := 3652059 * us_per_day - 1.

Definition timedelta_max_days : Z := 999999999.

(** [timedelta(days=days)], in microseconds. *)
Definition timedelta_days (days : Z) : result Z :=
  if (Z.abs days <=? timedelta_max_days)
  then Ok (days * us_per_day)
  else Raise (OverflowError "days out of range for timedelta").

(** [dt - delta]: arithmetic on the wall clock, the offset kept. *)
Definition datetime_sub (dt : datetime) (delta : Z) : result datetime :=
  let w := wall dt - delta in
  if (0 <=? w) && (w <=? datetime_max_wall)
  then Ok (mk_datetime w (utcoffset dt))
  else Raise (OverflowError "date value out of range").

(** The instant an aware value denotes. *)
Definition instant (w off : Z) : Z := w - off.

(** Ordering of two [datetime]s: aware values compare as instants, naive
    ones as wall clocks, and a naive value against an aware one raises. *)
Definition datetime_compare (a b : datetime) : result comparison :=
  match utcoffset a, utcoffset b with
  | Some oa, Some ob => Ok (instant (wall a) oa ?= instant (wall b) ob)
  | None, None => Ok (wall a ?= wall b)
  | _, _ => Raise (TypeError "can't compare offset-naive and offset-aware datetimes")
  end.

Definition datetime_ge (a b : datetime) : result bool :=
  let? c := datetime_compare a b in
  Ok (match c with Lt => false | _ => true end).

Definition datetime_lt (a b : datetime) : result bool :=
  let? c := datetime_compare a b in
  Ok (match c with Lt => true | _ => false end).

(* ------------------------------------------------------------------ *)
(** ** Data model of the workouts endpoint *)

Record SetEntry : Type := mk_set {
  weight_kg : option Q;
  reps : option Z
}.

Record ExerciseEntry : Type := mk_exercise {
  ex_title : option string;
  ex_sets : option (list SetEntry)
}.

Record Workout : Type := mk_workout {
  title : option string;
  start_time : option string;
  exercises : option (list ExerciseEntry)
}.

(** The body of [GET /workouts]: a dict that may hold the key
    ["workouts"]. *)
Record WorkoutsPage : Type := mk_page {
  workouts : option (list Workout)
}.

(* ------------------------------------------------------------------ *)
(** ** The scan of one page (lines 446-456 of [analyze_recent_workouts]) *)

(** What the loop body does with one record: [all_workouts.append(w)],
    [break], or go on to the next record. *)
Inductive verdict : Type := Keep | Stop | Skip.

Section Scan.

(** [datetime.fromisoformat]. *)
Variable fromisoformat : string -> result datetime.

Variable cutoff : datetime.

(** The body of the [try]. *)
Definition classify (start : string) : result verdict :=
  let? wdate := fromisoformat (str_replace "Z" "+00:00" start) in
  let? ge := datetime_ge wdate cutoff in
  if ge then Ok Keep
  else
    let? lt := datetime_lt wdate cutoff in
    if lt then Ok Stop else Ok Skip.

(** The body of [for w in workouts], with [except Exception: continue]. *)
Definition examine (w : Workout) : verdict :=
  let start := get_or (start_time w) EmptyString in
  if truthy_str start then
    match classify start with
    | Ok v => v
    | Raise _ => Skip
    end
  else Skip.

(** [for w in workouts: ...], from the records not yet visited; the flag
    says whether the loop was left by [break] (so its [else] is not
    run). *)
Fixpoint scan_page (ws : list Workout) (all_workouts : list Workout)
  : list Workout * bool :=
  match ws with
  | [] => (all_workouts, false)
  | w :: rest =>
      match examine w with
      | Keep => scan_page rest (all_workouts ++ [w])
      | Stop => (all_workouts, true)
      | Skip => scan_page rest all_workouts
      end
  end.

(** The records the loop keeps, and those that stop it. *)
Definition keeps (w : Workout) : bool :=
  match examine w with Keep => true | _ => false end.

Definition stops (w : Workout) : bool :=
  match examine w with Stop => true | _ => false end.

(** A page the loop walks to its end: it has a record and none stops
    the scan. *)
Definition unbroken (ws : list Workout) : bool :=
  truthy_list ws && negb (existsb stops ws).

End Scan.

(* ------------------------------------------------------------------ *)
(** ** JSON documents *)

(** A value [json.loads] returns: [None], a [bool], an [int], a [float],
    a [str], a [list], or a [dict] in insertion order. *)
Inductive json : Type :=
| JNull
| JBool (b : bool)
| JInt (n : Z)
| JFloat (x : Q)
| JStr (s : string)
| JList (items : list json)
| JDict (members : list (string * json)).

(* ------------------------------------------------------------------ *)
(** ** HTTP: requests, responses and the request log *)

Inductive verb : Type := GET | POST | PUT | DELETE.

(** [httpx.Client(base_url=..., headers=..., timeout=...)]. *)
Record Client : Type := mk_client {
  base_url : string;
  headers : list (string * string);
  timeout : option Z
}.

Record request : Type := mk_request {
  via : Client;
  method : verb;
  path : string;
  params : option (list (string * Z));
  body : option json
}.

Record response : Type := mk_response {
  status_code : Z;
  content : string
}.

(** A computation that may send requests: it extends the log of the
    requests sent so far and returns or raises. *)
Definition M (A : Type) : Type := list request -> result A * list request.

Definition ret {A : Type} (a : A) : M A := fun log => (Ok a, log).

Definition throw {A : Type} (e : exn) : M A := fun log => (Raise e, log).

Definition lift {A : Type} (r : result A) : M A := fun log => (r, log).

Definition bind {A B : Type} (c : M A) (k : A -> M B) : M B :=
  fun log =>
    match c log with
    | (Ok a, log') => k a log'
    | (Raise e, log') => (Raise e, log')
    end.

Notation "x <- c ;; k" := (bind c (fun x => k))
  (at level 61, c at next level, right associativity).

(** A computation started on an empty log. *)
Definition run {A : Type} (c : M A) : result A * list request := c [].

(** [httpx.Response.is_success] and [raise_for_status]: any status
    outside 200..299 raises [HTTPStatusError], which holds the response. *)
Definition is_success (r : response) : bool :=
  (200 <=? status_code r) && (status_code r <=? 299).

Definition raise_for_status (r : response) : result response :=
  if is_success r then Ok r
  else Raise (HTTPStatusError (status_code r) (content r)).

(** Truth value of [response.content]. *)
Definition has_content (r : response) : bool := truthy_str (content r).

(* ------------------------------------------------------------------ *)
(** ** The Hevy API client (lines 18-71) *)

Definition BASE_URL : string := "https://api.hevyapp.com/v1".

Definition missing_key_message : string :=
  "HEVY_API_KEY environment variable is not set. " +++
  "Get your key at https://hevy.com/settings?developer".

Section ApiClient.

(** [os.environ]. *)
Variable environ : string -> option string.

(** The remote end: what a request sent on the wire comes back as, a
    response or a transport failure. *)
Variable wire : request -> result response.

Definition get_client : result Client :=
  let api_key := environ "HEVY_API_KEY" in
  if negb (truthy_str (get_or api_key EmptyString)) then
    Raise (ValueError missing_key_message)
  else
    Ok (mk_client BASE_URL
          [("api-key", get_or api_key EmptyString);
           ("Content-Type", "application/json");
           ("Accept", "application/json")]
          (Some 30)).

(** [client.get(...)], [client.post(...)], ...: the request goes on the
    wire and on the log. *)
Definition send (req : request) : M response :=
  fun log => (wire req, log ++ [req]).

Section Verbs.

(** [response.json()], read at the shape [A] the caller expects. *)
Variable A : Type.
Variable loads : string -> result A.

Definition response_json (r : response) : result A := loads (content r).

Definition api_get (p : string) (q : option (list (string * Z))) : M A :=
  client <- lift get_client ;;
  response <- send (mk_request client GET p q None) ;;
  _ <- lift (raise_for_status response) ;;
  lift (response_json response).

Definition api_post (p : string) (data : json) : M A :=
  client <- lift get_client ;;
  response <- send (mk_request client POST p None (Some data)) ;;
  _ <- lift (raise_for_status response) ;;
  lift (response_json response).

Definition api_put (p : string) (data : json) : M A :=
  client <- lift get_client ;;
  response <- send (mk_request client PUT p None (Some data)) ;;
  _ <- lift (raise_for_status response) ;;
  lift (response_json response).

End Verbs.

(** [api_delete] returns a JSON document: the parsed body, or the dict
    [{"success": True}] when the body is empty. *)
Definition success_marker : json := JDict [("success", JBool true)].

Definition api_delete (loads : string -> result json) (p : string) : M json :=
  client <- lift get_client ;;
  response <- send (mk_request client DELETE p None None) ;;
  _ <- lift (raise_for_status response) ;;
  if has_content response then lift (response_json json loads response)
  else ret success_marker.

End ApiClient.

(* ------------------------------------------------------------------ *)
(** ** More builtins: [str(int)], number formatting, [dict], [sorted] *)

Definition newline : string := String (ascii_of_nat 10) EmptyString.

(** A text with no line break in it. *)
Definition single_line (s : string) : Prop :=
  forall c : ascii, In c (list_ascii_of_string s) -> c <> ascii_of_nat 10.

(** [str(n)] for an [int]. *)
Definition str_of_Z (n : Z) : string := NilZero.string_of_int (Z.to_int n).

(** Rounding to the nearest integer, ties to the even one, of a
    non-negative rational [a / d]. *)
Definition round_half_even (a : Z) (d : Z) : Z :=
  let fl := a / d in
  let r := a mod d in
  if 2 * r <? d then fl
  else if d <? 2 * r then fl + 1
  else if Z.even fl then fl else fl + 1.

(** The thousands separators of the [,] format option, on digits given
    least significant first; [n] counts the digits of the current group. *)
Fixpoint commas_rev (ds : list ascii) (n : nat) : list ascii :=
  match ds with
  | [] => []
  | d :: rest =>
      match n with
      | 3%nat => ","%char :: d :: commas_rev rest 1
      | _ => d :: commas_rev rest (S n)
      end
  end.

Definition group_thousands (digits : string) : string :=
  string_of_list_ascii
    (rev (commas_rev (rev (list_ascii_of_string digits)) 0)).

(** [f"{x:,.1f}"]. *)
Definition format_comma_1f (x : Q) : string :=
  let tenths := round_half_even (Z.abs (Qnum x) * 10) (Zpos (Qden x)) in
  (if Qnum x <? 0 then "-" else EmptyString) +++
  group_thousands (str_of_Z (tenths / 10)) +++ "." +++ str_of_Z (tenths mod 10).

(** A [dict] with [str] keys, as the list of its items in insertion
    order. *)
Definition dict (V : Type) : Type := list (string * V).

Fixpoint dict_lookup {V : Type} (d : dict V) (k : string) : option V :=
  match d with
  | [] => None
  | (k', v) :: rest => if String.eqb k' k then Some v else dict_lookup rest k
  end.

(** [d.get(k, default)]. *)
Definition dict_get {V : Type} (d : dict V) (k : string) (default : V) : V :=
  get_or (dict_lookup d k) default.

(** [d[k] = v]: a key already there keeps its place, a new one goes
    last. *)
Fixpoint dict_set {V : Type} (d : dict V) (k : string) (v : V) : dict V :=
  match d with
  | [] => [(k, v)]
  | (k', v') :: rest =>
      if String.eqb k' k then (k', v) :: rest
      else (k', v') :: dict_set rest k v
  end.

(** [sorted(l, key=key)]: the stable sort by ascending key.  An element
    goes in front of the first one whose key is not smaller, so elements
    of equal keys keep the order they came in. *)
Fixpoint insert_by {A : Type} (key : A -> Z) (x : A) (l : list A) : list A :=
  match l with
  | [] => [x]
  | y :: rest =>
      if key x <=? key y then x :: y :: rest
      else y :: insert_by key x rest
  end.

Definition sorted {A : Type} (key : A -> Z) (l : list A) : list A :=
  fold_right (insert_by key) [] l.

(** How a stable sort leaves two elements [a], [b] with [a] in front:
    by ascending key, and in their former order [R] when the keys are
    equal. *)
Definition stable_order {A : Type} (key : A -> Z) (R : A -> A -> Prop)
  (a b : A) : Prop :=
  key a <= key b /\ (key a = key b -> R a b).

(* ------------------------------------------------------------------ *)
(** ** The summary (lines 461-503 of [analyze_recent_workouts]) *)

(** The three accumulators of the loop at lines 472-484. *)
Record totals : Type := mk_totals {
  total_sets : Z;
  total_volume_kg : Q;
  exercise_counts : dict Z
}.

(** [x or 0]. *)
Definition or0_Q (x : option Q) : Q :=
  match x with
  | Some q => if Qeq_bool q 0 then 0%Q else q
  | None => 0%Q
  end.

Definition or0_Z (x : option Z) : Z :=
  match x with
  | Some n => if n =? 0 then 0 else n
  | None => 0
  end.

(** [kg * reps] for one set, as a rational; [Volume.count_set] has the
    product and the sum in double precision. *)
Definition set_volume (s : SetEntry) : Q :=
  let kg := or0_Q (weight_kg s) in
  let r := or0_Z (reps s) in
  (kg * inject_Z r)%Q.

(** The body of [for s in ex.get("sets", [])]. *)
Definition count_set (t : totals) (s : SetEntry) : totals :=
  mk_totals (total_sets t + 1)
            (total_volume_kg t + set_volume s)%Q
            (exercise_counts t).

(** The body of [for ex in exercises]. *)
Definition count_exercise (t : totals) (ex : ExerciseEntry) : totals :=
  let ex_title := get_or (ex_title ex) "Unknown" in
  let counts :=
    dict_set (exercise_counts t) ex_title
             (dict_get (exercise_counts t) ex_title 0 + 1) in
  fold_left count_set (get_or (ex_sets ex) [])
            (mk_totals (total_sets t) (total_volume_kg t) counts).

(** The body of [for w in all_workouts] at line 472. *)
Definition count_workout (t : totals) (w : Workout) : totals :=
  fold_left count_exercise (get_or (exercises w) []) t.

Definition summarize (all_workouts : list Workout) : totals :=
  fold_left count_workout all_workouts (mk_totals 0 0%Q []).

(** [sorted(exercise_counts.items(), key=lambda x: -x[1])[:10]]. *)
Definition most_frequent (counts : dict Z) : list (string * Z) :=
  firstn 10 (sorted (fun x => - snd x) counts).

Definition header_line (days : Z) : string :=
  "📊 **Training Summary — Last " +++ str_of_Z days +++ " days**".

Definition workout_line (w : Workout) : string :=
  let title := get_or (title w) "Untitled" in
  let wdate := str_prefix 10 (get_or (start_time w) EmptyString) in
  let ex_count := Z.of_nat (List.length (get_or (exercises w) [])) in
  "  • " +++ wdate +++ " — " +++ title +++
  " (" +++ str_of_Z ex_count +++ " exercises)".

Definition frequency_line (item : string * Z) : string :=
  "  • " +++ fst item +++ ": " +++ str_of_Z (snd item) +++ "x".

Definition frequency_section (counts : dict Z) : list string :=
  if truthy_list counts then
    [EmptyString; "**Most frequent exercises:**"]
      ++ map frequency_line (most_frequent counts)
  else [].

Definition summary_lines (days : Z) (all_workouts : list Workout)
  : list string :=
  let t := summarize all_workouts in
  [header_line days; EmptyString;
   "Total workouts: " +++ str_of_Z (Z.of_nat (List.length all_workouts));
   "Total sets: " +++ str_of_Z (total_sets t);
   "Total volume: " +++ format_comma_1f (total_volume_kg t) +++ " kg";
   EmptyString;
   "**Workouts:**"]
    ++ map workout_line all_workouts
    ++ frequency_section (exercise_counts t).

Definition no_workouts_message (days : Z) : string :=
  "No workouts found in the last " +++ str_of_Z days +++ " days.".

(** Lines 461-503. *)
Definition render (days : Z) (all_workouts : list Workout) : string :=
  if negb (truthy_list all_workouts) then no_workouts_message days
  else String.concat newline (summary_lines days all_workouts).

(** *** Vocabulary for the statements about the summary *)

(** The exercise entries of the kept workouts, and their sets, in the
    order the loops visit them. *)
Definition exercise_entries (all_workouts : list Workout)
  : list ExerciseEntry :=
  flat_map (fun w => get_or (exercises w) []) all_workouts.

Definition all_sets (all_workouts : list Workout) : list SetEntry :=
  flat_map (fun ex => get_or (ex_sets ex) []) (exercise_entries all_workouts).

(** The title each exercise entry is counted under. *)
Definition exercise_titles (all_workouts : list Workout) : list string :=
  map (fun ex => get_or (ex_title ex) "Unknown")
      (exercise_entries all_workouts).

(** The position at which a title is first seen in a sequence of
    titles (the length of the sequence for a title not in it). *)
Fixpoint first_seen (t : string) (titles : list string) : nat :=
  match titles with
  | [] => 0
  | x :: rest => if String.eqb x t then 0 else S (first_seen t rest)
  end.

(** One more entry under the title [t]:
    [counts[t] = counts.get(t, 0) + 1]. *)
Definition bump (counts : dict Z) (t : string) : dict Z :=
  dict_set counts t (dict_get counts t 0 + 1).

(** How many entries of a sequence bear a title. *)
Definition occurrences (t : string) (titles : list string) : Z :=
  Z.of_nat (count_occ string_dec titles t).

(* ------------------------------------------------------------------ *)
(** ** The total volume in double precision (lines 469 and 480-484)

    The accumulator [total_volume_kg] on the numbers of the interpreter:
    an [int] is an integer of any size, a [float] an IEEE 754 double,
    with its rounding, its two zeros, its infinities and its NaN. *)

Module Volume.

(** A number of a parsed body: [json.loads] gives an [int] for a literal
    without fraction or exponent and a [float] otherwise, [inf] for a
    literal too large for a double.  ([True] and [False] are the [int]s
    1 and 0 in all that follows.) *)
Inductive number : Type :=
| PyInt (n : Z)
| PyFloat (x : float).

(** The two keys of a set the loop reads, for values that are numbers;
    [None] is what [s.get] returns for a key that is missing or holds
    [null]. *)
Record SetEntry : Type := mk_set {
  weight_kg : option number;
  reps : option number
}.

Record ExerciseEntry : Type := mk_exercise {
  ex_sets : option (list SetEntry)
}.

Record Workout : Type := mk_workout {
  exercises : option (list ExerciseEntry)
}.

(** The double an [int] is converted to when it meets a [float]: the
    nearest one, ties to even, and [OverflowError] when that is beyond
    the largest double. *)
Definition float_of_int (n : Z) : result float :=
  match binary_normalize prec emax n 0 false with
  | S754_infinity _ =>
      Raise (OverflowError "int too large to convert to float")
  | x => Ok (SF2Prim x)
  end.

(** [bool(v)]: zero of either type is false, both zeros of a [float]
    included; NaN is true. *)
Definition truthy (v : number) : bool :=
  match v with
  | PyInt n => negb (n =? 0)
  | PyFloat x => negb (x =? 0)%float
  end.

(** [x or 0]. *)
Definition or_zero (x : option number) : number :=
  match x with
  | Some v => if truthy v then v else PyInt 0
  | None => PyInt 0
  end.

(** [kg * reps]: exact on two [int]s, in double precision otherwise. *)
Definition mul (kg reps : number) : result number :=
  match kg, reps with
  | PyInt m, PyInt n => Ok (PyInt (m * n))
  | PyInt m, PyFloat y => let? x := float_of_int m in Ok (PyFloat (x * y))
  | PyFloat x, PyInt n => let? y := float_of_int n in Ok (PyFloat (x * y))
  | PyFloat x, PyFloat y => Ok (PyFloat (x * y))
  end.

(** [total += v] for a [float] total. *)
Definition iadd (total : float) (v : number) : result float :=
  match v with
  | PyInt n => let? y := float_of_int n in Ok (total + y)%float
  | PyFloat y => Ok (total + y)%float
  end.

(** Lines 482-484. *)
Definition count_set (total_volume_kg : float) (s : SetEntry)
  : result float :=
  let kg := or_zero (weight_kg s) in
  let reps := or_zero (reps s) in
  let? volume := mul kg reps in
  iadd total_volume_kg volume.

(** [for x in items: body], for a body that may raise. *)
Fixpoint for_each {A : Type} (body : float -> A -> result float)
  (items : list A) (total : float) : result float :=
  match items with
  | [] => Ok total
  | x :: rest => let? total' := body total x in for_each body rest total'
  end.

(** [for s in ex.get("sets", [])]. *)
Definition count_exercise (total_volume_kg : float) (ex : ExerciseEntry)
  : result float :=
  for_each count_set (get_or (ex_sets ex) []) total_volume_kg.

(** [for ex in exercises]. *)
Definition count_workout (total_volume_kg : float) (w : Workout)
  : result float :=
  for_each count_exercise (get_or (exercises w) []) total_volume_kg.

(** [total_volume_kg] after the loop of line 472, from the [0.0] of
    line 469. *)
Definition total_volume_kg (all_workouts : list Workout) : result float :=
  for_each count_workout all_workouts 0%float.

(** *** Vocabulary for the statements about the volume *)

(** The sets of the kept workouts, in the order the loops visit them. *)
Definition all_sets (all_workouts : list Workout) : list SetEntry :=
  flat_map (fun ex => get_or (ex_sets ex) [])
           (flat_map (fun w => get_or (exercises w) []) all_workouts).

(** The double a product is added as. *)
Definition to_float (v : number) : result float :=
  match v with
  | PyInt n => float_of_int n
  | PyFloat y => Ok y
  end.

(** [weight_kg * reps] of a set as the loop adds it, a missing or zero
    factor read as the [int] 0. *)
Definition set_volume (s : SetEntry) : result float :=
  let? volume := mul (or_zero (weight_kg s)) (or_zero (reps s)) in
  to_float volume.

(** [math.isfinite(x)]. *)
Definition isfinite (x : float) : bool :=
  match Prim2SF x with
  | S754_nan | S754_infinity _ => false
  | _ => true
  end.

(** A value that is not an infinite or NaN [float]. *)
Definition finite_or_absent (x : option number) : bool :=
  match x with
  | Some (PyFloat y) => isfinite y
  | _ => true
  end.

(** One more product on a sum that may have raised. *)
Definition add_volume (sum : result float) (s : SetEntry) : result float :=
  let? total := sum in
  let? volume := set_volume s in
  Ok (total + volume)%float.

(** A workout of one exercise with the given sets. *)
Definition of_sets (sets : list SetEntry) : Workout :=
  mk_workout (Some [mk_exercise (Some sets)]).

End Volume.

(* ------------------------------------------------------------------ *)
(** ** [analyze_recent_workouts] (lines 423-503) *)

Section Analyze.

Variable environ : string -> option string.
Variable wire : request -> result response.

(** The clock: the wall reading of [datetime.now(timezone.utc)]. *)
Variable now : Z.

Variable fromisoformat : string -> result datetime.

(** [response.json()] of a workouts page. *)
Variable loads : string -> result WorkoutsPage.

(** [datetime.now(timezone.utc) - timedelta(days=days)]. *)
Definition cutoff_of (days : Z) : result datetime :=
  let? delta := timedelta_days days in
  datetime_sub (mk_datetime now (Some 0)) delta.

(** The request of line 441. *)
Definition fetch_page (page : Z) : M WorkoutsPage :=
  api_get environ wire WorkoutsPage loads "/workouts"
          (Some [("page", page); ("pageSize", 10)]).

(** [for page in range(1, 6): ...] from the pages not yet asked for. *)
Fixpoint fetch_pages (cutoff : datetime) (pages : list Z)
  (all_workouts : list Workout) : M (list Workout) :=
  match pages with
  | [] => ret all_workouts
  | page :: later =>
      data <- fetch_page page ;;
      let ws := get_or (workouts data) [] in
      if negb (truthy_list ws) then ret all_workouts
      else
        let '(kept, broke) := scan_page fromisoformat cutoff ws all_workouts in
        if broke then ret kept
        else fetch_pages cutoff later kept
  end.

Definition analyze_recent_workouts (days : Z) : M string :=
  cutoff <- lift (cutoff_of days) ;;
  all_workouts <- fetch_pages cutoff (range 1 6) [] ;;
  ret (render days all_workouts).

(** *** Vocabulary for the statements about the loop *)

(** The request [fetch_page page] sends through [client]. *)
Definition page_request (client : Client) (page : Z) : request :=
  mk_request client GET "/workouts"
             (Some [("page", page); ("pageSize", 10)]) None.

(** What the caller of [api_get] gets for a request: the parsed body, or
    the exception of the wire, of the status check or of the parser. *)
Definition exchange (req : request) : result WorkoutsPage :=
  let? r := wire req in
  let? _ := raise_for_status r in
  loads (content r).

(** The records [data.get("workouts", [])] of the page [page], as the
    loop receives them. *)
Definition served (page : Z) : result (list Workout) :=
  let? client := get_client environ in
  let? data := exchange (page_request client page) in
  Ok (get_or (workouts data) []).

(** The server answers the pages [first], [first + 1], ... with the
    record lists [pgs]. *)
Fixpoint serves (first : Z) (pgs : list (list Workout)) : Prop :=
  match pgs with
  | [] => True
  | ws :: rest => served first = Ok ws /\ serves (first + 1) rest
  end.

(** The records that came back for the requests of a log. *)
Definition received (log : list request) : list Workout :=
  flat_map (fun req => match exchange req with
                       | Ok data => get_or (workouts data) []
                       | Raise _ => []
                       end) log.

(** The server never returns more records than the ten asked for. *)
Definition page_size_respected : Prop :=
  forall (req : request) (data : WorkoutsPage),
    exchange req = Ok data ->
    (List.length (get_or (workouts data) []) <= 10)%nat.

(** What a request asks for, the client apart. *)
Definition asks (req : request)
  : verb * string * option (list (string * Z)) * option json :=
  (method req, path req, params req, body req).

Definition asks_page (page : Z)
  : verb * string * option (list (string * Z)) * option json :=
  (GET, "/workouts", Some [("page", page); ("pageSize", 10)], None).

End Analyze.

(* ------------------------------------------------------------------ *)
(** ** A reference reading of [datetime.fromisoformat]

    The strings [YYYY-MM-DD?HH:MM:SS] and [YYYY-MM-DD?HH:MM:SS±HH:MM],
    which every CPython release with [fromisoformat] accepts, read as
    CPython reads them.  Any other string is refused here; CPython reads
    more of them (a date alone, a time without seconds, fractions of a
    second).  It instantiates the section variable in the examples
    below, on strings of the two shapes. *)

Definition digit_of (c : ascii) : option Z :=
  let n := Z.of_nat (nat_of_ascii c) in
  if (48 <=? n) && (n <=? 57) then Some (n - 48) else None.

Fixpoint number_of (cs : list ascii) (acc : Z) : option Z :=
  match cs with
  | [] => Some acc
  | c :: rest =>
      match digit_of c with
      | Some d => number_of rest (10 * acc + d)
      | None => None
      end
  end.

(** The decimal number written in [s[start : start + len]]. *)
Definition field (s : string) (start len : nat) : option Z :=
  let piece := substring start len s in
  if Nat.eqb (String.length piece) len
  then number_of (list_ascii_of_string piece) 0
  else None.

Definition char_at (s : string) (i : nat) : ascii :=
  match String.get i s with
  | Some c => c
  | None => Ascii.zero
  end.

Definition is_leap (y : Z) : bool :=
  ((y mod 4 =? 0) && negb (y mod 100 =? 0)) || (y mod 400 =? 0).

Definition days_in_month (y m : Z) : Z :=
  if m =? 2 then (if is_leap y then 29 else 28)
  else if (m =? 4) || (m =? 6) || (m =? 9) || (m =? 11) then 30
  else 31.

Definition days_before_year (y : Z) : Z :=
  let p := y - 1 in
  p * 365 + p / 4 - p / 100 + p / 400.

Definition days_before_month (y m : Z) : Z :=
  fold_left (fun acc k => acc + days_in_month y k) (range 1 m) 0.

(** Microseconds from 0001-01-01T00:00:00 to the given wall reading. *)
Definition wall_of (y mo d h mi s : Z) : Z :=
  (days_before_year y + days_before_month y mo + (d - 1)) * us_per_day
  + ((h * 60 + mi) * 60 + s) * 1000000.

Definition invalid_isoformat {A : Type} : result A :=
  Raise (ValueError "Invalid isoformat string").

Definition read_offset (s : string) : result (option Z) :=
  match String.length s with
  | 19%nat => Ok None
  | 25%nat =>
      let sign := char_at s 19 in
      match field s 20 2, field s 23 2 with
      | Some h, Some m =>
          if negb (Ascii.eqb (char_at s 22) ":") || (24 <=? h) || (60 <=? m)
          then invalid_isoformat
          else if Ascii.eqb sign "+"
               then Ok (Some ((h * 60 + m) * 60 * 1000000))
          else if Ascii.eqb sign "-"
               then Ok (Some (- ((h * 60 + m) * 60 * 1000000)))
          else invalid_isoformat
      | _, _ => invalid_isoformat
      end
  | _ => invalid_isoformat
  end.

Definition fromisoformat_basic (s : string) : result datetime :=
  let? off := read_offset s in
  match field s 0 4, field s 5 2, field s 8 2,
        field s 11 2, field s 14 2, field s 17 2 with
  | Some y, Some mo, Some d, Some h, Some mi, Some sec =>
      if Ascii.eqb (char_at s 4) "-" && Ascii.eqb (char_at s 7) "-"
         && Ascii.eqb (char_at s 13) ":" && Ascii.eqb (char_at s 16) ":"
         && (1 <=? y) && (1 <=? mo) && (mo <=? 12)
         && (1 <=? d) && (d <=? days_in_month y mo)
         && (h <? 24) && (mi <? 60) && (sec <? 60)
      then Ok (mk_datetime (wall_of y mo d h mi sec) off)
      else invalid_isoformat
  | _, _, _, _, _, _ => invalid_isoformat
  end.

(* ------------------------------------------------------------------ *)
(** ** The pass-through tools of the Hevy server (lines 76-417) *)

Section Tools.

Variable environ : string -> option string.
Variable wire : request -> result response.

(** [json.loads] and [json.dumps(data, indent=indent)]. *)
Variable json_loads : string -> result json.
Variable json_dumps : json -> Z -> string.

Definition get_workouts (page page_size : Z) : M string :=
  data <- api_get environ wire json json_loads "/workouts"
            (Some [("page", page); ("pageSize", page_size)]) ;;
  ret (json_dumps data 2).

Definition get_workout_count : M string :=
  data <- api_get environ wire json json_loads "/workouts/count" None ;;
  ret (json_dumps data 2).

Definition get_workout (workout_id : string) : M string :=
  data <- api_get environ wire json json_loads
            ("/workouts/" +++ workout_id) None ;;
  ret (json_dumps data 2).

Definition get_routines (page page_size : Z) : M string :=
  data <- api_get environ wire json json_loads "/routines"
            (Some [("page", page); ("pageSize", page_size)]) ;;
  ret (json_dumps data 2).

Definition get_routine (routine_id : string) : M string :=
  data <- api_get environ wire json json_loads
            ("/routines/" +++ routine_id) None ;;
  ret (json_dumps data 2).

Definition get_exercise_templates (page page_size : Z) : M string :=
  data <- api_get environ wire json json_loads "/exercise_templates"
            (Some [("page", page); ("pageSize", page_size)]) ;;
  ret (json_dumps data 2).

Definition get_exercise_template (template_id : string) : M string :=
  data <- api_get environ wire json json_loads
            ("/exercise_templates/" +++ template_id) None ;;
  ret (json_dumps data 2).

Definition get_routine_folders (page page_size : Z) : M string :=
  data <- api_get environ wire json json_loads "/routine_folders"
            (Some [("page", page); ("pageSize", page_size)]) ;;
  ret (json_dumps data 2).

Definition get_routine_folder (folder_id : Z) : M string :=
  data <- api_get environ wire json json_loads
            ("/routine_folders/" +++ str_of_Z folder_id) None ;;
  ret (json_dumps data 2).

Definition create_routine_folder (title : string) : M string :=
  let payload := JDict [("routine_folder", JDict [("title", JStr title)])] in
  data <- api_post environ wire json json_loads "/routine_folders" payload ;;
  ret (json_dumps data 2).

Definition update_routine_folder (folder_id : Z) (title : string) : M string :=
  let payload := JDict [("routine_folder", JDict [("title", JStr title)])] in
  data <- api_put environ wire json json_loads
            ("/routine_folders/" +++ str_of_Z folder_id) payload ;;
  ret (json_dumps data 2).

Definition delete_routine_folder (folder_id : Z) : M string :=
  data <- api_delete environ wire json_loads
            ("/routine_folders/" +++ str_of_Z folder_id) ;;
  ret (json_dumps data 2).

(** The read-only tools that hand the upstream document back: one
    constructor per tool, with its arguments. *)
Inductive passthrough : Type :=
| GetWorkouts (page page_size : Z)
| GetWorkoutCount
| GetWorkout (workout_id : string)
| GetRoutines (page page_size : Z)
| GetRoutine (routine_id : string)
| GetExerciseTemplates (page page_size : Z)
| GetExerciseTemplate (template_id : string)
| GetRoutineFolders (page page_size : Z)
| GetRoutineFolder (folder_id : Z).

Definition call_passthrough (t : passthrough) : M string :=
  match t with
  | GetWorkouts page page_size => get_workouts page page_size
  | GetWorkoutCount => get_workout_count
  | GetWorkout workout_id => get_workout workout_id
  | GetRoutines page page_size => get_routines page page_size
  | GetRoutine routine_id => get_routine routine_id
  | GetExerciseTemplates page page_size => get_exercise_templates page page_size
  | GetExerciseTemplate template_id => get_exercise_template template_id
  | GetRoutineFolders page page_size => get_routine_folders page page_size
  | GetRoutineFolder folder_id => get_routine_folder folder_id
  end.

(** The request a pass-through tool sends through [client]. *)
Definition passthrough_request (client : Client) (t : passthrough) : request :=
  let paged (p : string) (page page_size : Z) :=
    mk_request client GET p (Some [("page", page); ("pageSize", page_size)])
               None in
  let single (p : string) := mk_request client GET p None None in
  match t with
  | GetWorkouts page page_size => paged "/workouts" page page_size
  | GetWorkoutCount => single "/workouts/count"
  | GetWorkout workout_id => single ("/workouts/" +++ workout_id)
  | GetRoutines page page_size => paged "/routines" page page_size
  | GetRoutine routine_id => single ("/routines/" +++ routine_id)
  | GetExerciseTemplates page page_size =>
      paged "/exercise_templates" page page_size
  | GetExerciseTemplate template_id =>
      single ("/exercise_templates/" +++ template_id)
  | GetRoutineFolders page page_size => paged "/routine_folders" page page_size
  | GetRoutineFolder folder_id =>
      single ("/routine_folders/" +++ str_of_Z folder_id)
  end.

End Tools.

(* ------------------------------------------------------------------ *)
(** ** The client of the Strava server
       ([src/stravamcpserver/server.py], lines 13-14) *)

(** [stravalib.Client(access_token=...)]: the library keeps the token it
    is given, [None] included. *)
Record StravaClient : Type := mk_strava_client {
  access_token : option string
}.

Section Strava.

Variable environ : string -> option string.

(** Lines 13-14; [os.getenv] of an unset variable is [None]. *)
Definition _strava_client : StravaClient :=
  mk_strava_client (environ "STRAVA_ACCESS_TOKEN").

End Strava.

(* ------------------------------------------------------------------ *)
(** ** A reference reading of [json.dumps] and [json.loads]

    The text [json.dumps(doc, indent=n)] writes for a document, and a
    reader of that text, for the documents of the examples below, where
    the pair instantiates the section variables: strings of ASCII
    characters, and numbers written without exponent.  Beyond them the
    pair is not the library: a string is taken as a sequence of code
    points below 256, and a [float] is written by its decimal expansion,
    not by its shortest representation. *)

Definition dquote : ascii := ascii_of_nat 34.
Definition backslash : ascii := ascii_of_nat 92.

Definition hex_digit (n : nat) : ascii :=
  if Nat.ltb n 10 then ascii_of_nat (48 + n) else ascii_of_nat (87 + n).

(** The escape of one character, as [ensure_ascii=True] writes it. *)
Definition escape_char (c : ascii) : list ascii :=
  let n := nat_of_ascii c in
  if Ascii.eqb c dquote then [backslash; dquote]
  else if Ascii.eqb c backslash then [backslash; backslash]
  else if Nat.eqb n 10 then [backslash; "n"%char]
  else if Nat.eqb n 13 then [backslash; "r"%char]
  else if Nat.eqb n 9 then [backslash; "t"%char]
  else if Nat.eqb n 8 then [backslash; "b"%char]
  else if Nat.eqb n 12 then [backslash; "f"%char]
  else if Nat.leb 32 n && Nat.leb n 126 then [c]
  else [backslash; "u"%char; "0"%char; "0"%char;
        hex_digit (Nat.div n 16); hex_digit (Nat.modulo n 16)].

Definition quote_string (s : string) : list ascii :=
  dquote :: flat_map escape_char (list_ascii_of_string s) ++ [dquote].

(** The writer spells out at most this many decimal places; the
    expansion of an IEEE double has at most 1074. *)
Definition float_places : nat := 1100.

(** The digits after the point of [r / d], for [0 <= r < d]. *)
Fixpoint fraction_digits (fuel : nat) (r d : Z) : list ascii :=
  match fuel with
  | O => []
  | S f =>
      if r =? 0 then []
      else ascii_of_nat (48 + Z.to_nat (r * 10 / d))
             :: fraction_digits f (r * 10 mod d) d
  end.

Definition write_float (x : Q) : list ascii :=
  let n := Z.abs (Qnum x) in
  let d := Zpos (Qden x) in
  let frac := fraction_digits float_places (n mod d) d in
  (if Qnum x <? 0 then ["-"%char] else [])
    ++ list_ascii_of_string (str_of_Z (n / d))
    ++ "."%char :: (match frac with [] => ["0"%char] | _ => frac end).

(** A line break and the indentation of nesting level [level]. *)
Definition break_line (indent level : nat) : list ascii :=
  ascii_of_nat 10 :: repeat " "%char (indent * level).

(** [items], each written by [write], one per line at [level + 1]. *)
Definition write_block {A : Type} (write : A -> list ascii)
  (indent level : nat) (opening closing : ascii) (items : list A)
  : list ascii :=
  match items with
  | [] => [opening; closing]
  | first :: others =>
      opening :: break_line indent (S level) ++ write first
        ++ flat_map (fun x => ","%char :: break_line indent (S level) ++ write x)
                    others
        ++ break_line indent level ++ [closing]
  end.

Fixpoint write_json (indent level : nat) (doc : json) : list ascii :=
  match doc with
  | JNull => list_ascii_of_string "null"
  | JBool true => list_ascii_of_string "true"
  | JBool false => list_ascii_of_string "false"
  | JInt n => list_ascii_of_string (str_of_Z n)
  | JFloat x => write_float x
  | JStr s => quote_string s
  | JList items =>
      write_block (write_json indent (S level)) indent level "["%char "]"%char
                  items
  | JDict members =>
      write_block
        (fun kv => quote_string (fst kv) ++ ":"%char :: " "%char
                     :: write_json indent (S level) (snd kv))
        indent level "{"%char "}"%char members
  end.

Definition json_dumps_ref (doc : json) (indent : Z) : string :=
  string_of_list_ascii (write_json (Z.to_nat indent) 0 doc).

Definition is_space (c : ascii) : bool :=
  let n := nat_of_ascii c in
  Nat.eqb n 32 || Nat.eqb n 10 || Nat.eqb n 13 || Nat.eqb n 9.

Definition is_digit (c : ascii) : bool :=
  let n := nat_of_ascii c in Nat.leb 48 n && Nat.leb n 57.

Fixpoint skip_spaces (cs : list ascii) : list ascii :=
  match cs with
  | c :: rest => if is_space c then skip_spaces rest else cs
  | [] => []
  end.

(** The text left after the leading [word], when [cs] starts with it. *)
Fixpoint after (word : list ascii) (cs : list ascii) : option (list ascii) :=
  match word, cs with
  | [], _ => Some cs
  | w :: word', c :: cs' => if Ascii.eqb w c then after word' cs' else None
  | _ :: _, [] => None
  end.

(** The leading digits of [cs] and what follows them. *)
Fixpoint span_digits (cs : list ascii) : list ascii * list ascii :=
  match cs with
  | c :: rest =>
      if is_digit c
      then let '(ds, tl) := span_digits rest in (c :: ds, tl)
      else ([], cs)
  | [] => ([], [])
  end.

Definition digits_value (ds : list ascii) : Z :=
  fold_left (fun acc c => 10 * acc + (Z.of_nat (nat_of_ascii c) - 48)) ds 0.

Definition hex_value (c : ascii) : option nat :=
  let n := nat_of_ascii c in
  if Nat.leb 48 n && Nat.leb n 57 then Some (n - 48)%nat
  else if Nat.leb 97 n && Nat.leb n 102 then Some (n - 87)%nat
  else if Nat.leb 65 n && Nat.leb n 70 then Some (n - 55)%nat
  else None.

(** The characters of a string literal, from just after its opening
    quote to its closing quote, and the text after it. *)
Fixpoint read_string (cs : list ascii) : option (list ascii * list ascii) :=
  match cs with
  | [] => None
  | c :: rest =>
      if Ascii.eqb c dquote then Some ([], rest)
      else if Ascii.eqb c backslash then
        match rest with
        | e :: rest' =>
            let plain (x : ascii) :=
              match read_string rest' with
              | Some (s, tl) => Some (x :: s, tl)
              | None => None
              end in
            if Ascii.eqb e dquote then plain dquote
            else if Ascii.eqb e backslash then plain backslash
            else if Ascii.eqb e "/" then plain "/"%char
            else if Ascii.eqb e "n" then plain (ascii_of_nat 10)
            else if Ascii.eqb e "r" then plain (ascii_of_nat 13)
            else if Ascii.eqb e "t" then plain (ascii_of_nat 9)
            else if Ascii.eqb e "b" then plain (ascii_of_nat 8)
            else if Ascii.eqb e "f" then plain (ascii_of_nat 12)
            else if Ascii.eqb e "u" then
              match rest' with
              | "0"%char :: "0"%char :: h :: l :: rest'' =>
                  match hex_value h, hex_value l, read_string rest'' with
                  | Some hv, Some lv, Some (s, tl) =>
                      Some (ascii_of_nat (16 * hv + lv) :: s, tl)
                  | _, _, _ => None
                  end
              | _ => None
              end
            else None
        | [] => None
        end
      else
        match read_string rest with
        | Some (s, tl) => Some (c :: s, tl)
        | None => None
        end
  end.

(** What may follow a number: the end of the text, or a character that
    is neither a digit nor the decimal point. *)
Definition ends_number (cs : list ascii) : bool :=
  match cs with
  | [] => true
  | c :: _ => negb (is_digit c) && negb (Ascii.eqb c ".")
  end.

(** The digits of a number, its sign already read: an [int] when it
    has no fraction, a [float] otherwise. *)
Definition read_unsigned (sign : Z) (cs : list ascii)
  : option (json * list ascii) :=
  let '(whole, cs2) := span_digits cs in
  match whole with
  | [] => None
  | _ =>
      let as_int := Some (JInt (sign * digits_value whole), cs2) in
      match cs2 with
      | c :: cs3 =>
          if Ascii.eqb c "." then
            let '(frac, cs4) := span_digits cs3 in
            match frac with
            | [] => None
            | _ =>
                let scale := 10 ^ Z.of_nat (List.length frac) in
                let n := digits_value whole * scale + digits_value frac in
                Some (JFloat (Qred (Qmake (sign * n) (Z.to_pos scale))), cs4)
            end
          else as_int
      | [] => as_int
      end
  end.

Definition read_number (cs : list ascii) : option (json * list ascii) :=
  match cs with
  | c :: rest =>
      if Ascii.eqb c "-" then read_unsigned (-1) rest else read_unsigned 1 cs
  | [] => None
  end.

(** The elements of a list after the first, up to the closing bracket. *)
Fixpoint read_items (fuel : nat)
  (value : list ascii -> option (json * list ascii))
  (acc : list json) (cs : list ascii) : option (list json * list ascii) :=
  match fuel with
  | O => None
  | S f =>
      match skip_spaces cs with
      | c :: rest =>
          if Ascii.eqb c "]" then Some (acc, rest)
          else if Ascii.eqb c "," then
            match value rest with
            | Some (v, rest') => read_items f value (acc ++ [v]) rest'
            | None => None
            end
          else None
      | [] => None
      end
  end.

(** One member of a dict: its key, the colon and its value. *)
Definition read_member (value : list ascii -> option (json * list ascii))
  (cs : list ascii) : option ((string * json) * list ascii) :=
  match skip_spaces cs with
  | q :: rest =>
      if Ascii.eqb q dquote then
        match read_string rest with
        | Some (k, rest1) =>
            match skip_spaces rest1 with
            | c :: rest2 =>
                if Ascii.eqb c ":" then
                  match value rest2 with
                  | Some (v, rest3) =>
                      Some ((string_of_list_ascii k, v), rest3)
                  | None => None
                  end
                else None
            | [] => None
            end
        | None => None
        end
      else None
  | [] => None
  end.

(** The members of a dict after the first, up to the closing brace; a
    key read again takes the new value and keeps its place. *)
Fixpoint read_members (fuel : nat)
  (value : list ascii -> option (json * list ascii))
  (acc : dict json) (cs : list ascii) : option (dict json * list ascii) :=
  match fuel with
  | O => None
  | S f =>
      match skip_spaces cs with
      | c :: rest =>
          if Ascii.eqb c "}" then Some (acc, rest)
          else if Ascii.eqb c "," then
            match read_member value rest with
            | Some ((k, v), rest') =>
                read_members f value (dict_set acc k v) rest'
            | None => None
            end
          else None
      | [] => None
      end
  end.

(** Whether the text, leading blanks apart, starts with [c]. *)
Definition opens_with (c : ascii) (cs : list ascii) : option (list ascii) :=
  match skip_spaces cs with
  | c' :: rest => if Ascii.eqb c' c then Some rest else None
  | [] => None
  end.

Fixpoint read_json (fuel : nat) (cs : list ascii)
  : option (json * list ascii) :=
  match fuel with
  | O => None
  | S f =>
      match skip_spaces cs with
      | [] => None
      | c :: rest =>
          if Ascii.eqb c dquote then
            match read_string rest with
            | Some (s, tl) => Some (JStr (string_of_list_ascii s), tl)
            | None => None
            end
          else if Ascii.eqb c "[" then
            match opens_with "]" rest with
            | Some tl => Some (JList [], tl)
            | None =>
                match read_json f rest with
                | Some (v, tl) =>
                    match read_items f (read_json f) [v] tl with
                    | Some (items, tl') => Some (JList items, tl')
                    | None => None
                    end
                | None => None
                end
            end
          else if Ascii.eqb c "{" then
            match opens_with "}" rest with
            | Some tl => Some (JDict [], tl)
            | None =>
                match read_member (read_json f) rest with
                | Some (kv, tl) =>
                    match read_members f (read_json f) [kv] tl with
                    | Some (members, tl') => Some (JDict members, tl')
                    | None => None
                    end
                | None => None
                end
            end
          else if Ascii.eqb c "-" || is_digit c then read_number (c :: rest)
          else
            match after (list_ascii_of_string "null") (c :: rest),
                  after (list_ascii_of_string "true") (c :: rest),
                  after (list_ascii_of_string "false") (c :: rest) with
            | Some tl, _, _ => Some (JNull, tl)
            | _, Some tl, _ => Some (JBool true, tl)
            | _, _, Some tl => Some (JBool false, tl)
            | _, _, _ => None
            end
      end
  end.

Definition json_loads_ref (text : string) : result json :=
  let cs := list_ascii_of_string text in
  match read_json (S (List.length cs)) cs with
  | Some (doc, rest) =>
      match skip_spaces rest with
      | [] => Ok doc
      | _ :: _ => Raise (JSONDecodeError "Extra data")
      end
  | None => Raise (JSONDecodeError "Expecting value")
  end.

(* ------------------------------------------------------------------ *)
(** ** Reading a workouts page off a JSON document

    [response.json()] for the workouts endpoint: the text is parsed and
    the document is read at the shape of the data model; a key that is
    missing, [null] or of another type reads as absent. *)

Definition as_string (j : option json) : option string :=
  match j with
  | Some (JStr s) => Some s
  | _ => None
  end.

Definition as_int (j : option json) : option Z :=
  match j with
  | Some (JInt n) => Some n
  | _ => None
  end.

Definition as_number (j : option json) : option Q :=
  match j with
  | Some (JInt n) => Some (inject_Z n)
  | Some (JFloat x) => Some x
  | _ => None
  end.

Definition as_list {A : Type} (read : json -> A) (j : option json)
  : option (list A) :=
  match j with
  | Some (JList items) => Some (map read items)
  | _ => None
  end.

Definition members_of (j : json) : dict json :=
  match j with
  | JDict members => members
  | _ => []
  end.

Definition read_set (j : json) : SetEntry :=
  let d := members_of j in
  mk_set (as_number (dict_lookup d "weight_kg")) (as_int (dict_lookup d "reps")).

Definition read_exercise (j : json) : ExerciseEntry :=
  let d := members_of j in
  mk_exercise (as_string (dict_lookup d "title"))
              (as_list read_set (dict_lookup d "sets")).

Definition read_workout (j : json) : Workout :=
  let d := members_of j in
  mk_workout (as_string (dict_lookup d "title"))
             (as_string (dict_lookup d "start_time"))
             (as_list read_exercise (dict_lookup d "exercises")).

Definition read_page (j : json) : WorkoutsPage :=
  mk_page (as_list read_workout (dict_lookup (members_of j) "workouts")).

Definition loads_page (text : string) : result WorkoutsPage :=
  let? doc := json_loads_ref text in
  Ok (read_page doc).

(* ------------------------------------------------------------------ *)
(** ** Sample worlds for the examples *)

(** An environment with the Hevy key set, and one with nothing set. *)
Definition env_with_key : string -> option string :=
  fun name => if String.eqb name "HEVY_API_KEY" then Some "k-123" else None.

Definition env_empty : string -> option string := fun _ => None.

(** The page number a request asks for. *)
Definition page_of (req : request) : Z :=
  match params req with
  | Some q => dict_get q "page" 0
  | None => 0
  end.

(** A server that holds the documents [pages]: page [i] is answered
    with status 200 and the text of the [i]-th document, a page past
    the last with an empty list of workouts. *)
Definition paged_wire (pages : list json) (req : request) : result response :=
  let doc := nth (Z.to_nat (page_of req - 1)) pages
                 (JDict [("workouts", JList [])]) in
  Ok (mk_response 200 (json_dumps_ref doc 2)).

(** A server that answers every request with the same response. *)
Definition constant_wire (r : response) (req : request) : result response :=
  Ok r.

Definition workout_doc (title start : string) (exs : list json) : json :=
  JDict [("title", JStr title); ("start_time", JStr start);
         ("exercises", JList exs)].

Definition exercise_doc (title : string) (sets : list json) : json :=
  JDict [("title", JStr title); ("sets", JList sets)].

Definition set_doc (kg reps : json) : json :=
  JDict [("weight_kg", kg); ("reps", reps)].

Definition page_doc (ws : list json) : json :=
  JDict [("workouts", JList ws)].

(** The clock of the examples: 2024-01-20T12:00:00 UTC; seven days
    back is 2024-01-13T12:00:00 UTC. *)
Definition sample_now : Z := wall_of 2024 1 20 12 0 0.

(** Seven days before [sample_now], as [analyze_recent_workouts]
    computes it. *)
Definition sample_cutoff : datetime :=
  mk_datetime (wall_of 2024 1 13 12 0 0) (Some 0).

Definition fresh_doc : json :=
  workout_doc "Push" "2024-01-19T09:00:00Z"
    [exercise_doc "Bench" [set_doc (JInt 80) (JInt 5); set_doc JNull (JInt 10)];
     exercise_doc "Dips" [set_doc (JFloat (45 # 2)) (JInt 8)]].

(** Started at the cutoff, to the second. *)
Definition boundary_doc : json :=
  workout_doc "Pull" "2024-01-13T12:00:00+00:00"
    [exercise_doc "Row" []; exercise_doc "Bench" [set_doc (JInt 20) JNull]].

(** Started one second before the cutoff. *)
Definition stale_doc : json :=
  workout_doc "Old" "2024-01-13T11:59:59+00:00" [].

(** Inside the window, but listed after an older record. *)
Definition late_doc : json :=
  workout_doc "Late" "2024-01-18T07:30:00+02:00" [].

Definition malformed_doc : json := workout_doc "Bad" "yesterday" [].

Definition blank_doc : json := workout_doc "Blank" EmptyString [].

Definition undated_doc : json :=
  JDict [("title", JStr "Undated"); ("exercises", JList [])].

(** A server with three pages; the second holds a stale record between
    two fresh ones. *)
Definition sample_pages : list json :=
  [page_doc [fresh_doc; malformed_doc; undated_doc; boundary_doc];
   page_doc [late_doc; stale_doc; fresh_doc];
   page_doc [fresh_doc]].

(** A server with six pages of one fresh record each. *)
Definition six_pages : list json := repeat (page_doc [fresh_doc]) 6.

(** A server whose first page holds 51 fresh records. *)
Definition oversized_pages : list json :=
  [page_doc (repeat fresh_doc 51)].

(** The client [get_client] builds in [env_with_key]. *)
Definition sample_client : Client :=
  mk_client BASE_URL
    [("api-key", "k-123"); ("Content-Type", "application/json");
     ("Accept", "application/json")]
    (Some 30).

(* ------------------------------------------------------------------ *)
(** ** The writing tools of the Hevy server (lines 119-195, 231-302) *)

Section WritingTools.

Variable environ : string -> option string.
Variable wire : request -> result response.
Variable json_loads : string -> result json.
Variable json_dumps : json -> Z -> string.

(** The dict of lines 148-156 and 185-193. *)
Definition workout_payload (title description start_time end_time : string)
  (exercises_data : json) : json :=
  JDict [("workout",
          JDict [("title", JStr title);
                 ("description", JStr description);
                 ("start_time", JStr start_time);
                 ("end_time", JStr end_time);
                 ("exercises", exercises_data)])].

Definition create_workout
  (title start_time end_time exercises description : string) : M string :=
  exercises_data <- lift (json_loads exercises) ;;
  let payload :=
    workout_payload title description start_time end_time exercises_data in
  data <- api_post environ wire json json_loads "/workouts" payload ;;
  ret (json_dumps data 2).

Definition update_workout
  (workout_id title start_time end_time exercises description : string)
  : M string :=
  exercises_data <- lift (json_loads exercises) ;;
  let payload :=
    workout_payload title description start_time end_time exercises_data in
  data <- api_put environ wire json json_loads
            ("/workouts/" +++ workout_id) payload ;;
  ret (json_dumps data 2).

(** The dict of lines 257-265 and 292-300:
    [payload["routine"]["folder_id"] = folder_id] when a folder is
    given. *)
Definition routine_payload (title notes : string) (exercises_data : json)
  (folder_id : option Z) : json :=
  let routine :=
    [("title", JStr title); ("notes", JStr notes);
     ("exercises", exercises_data)] in
  JDict [("routine",
          JDict match folder_id with
                | Some f => dict_set routine "folder_id" (JInt f)
                | None => routine
                end)].

Definition create_routine (title exercises : string) (folder_id : option Z)
  (notes : string) : M string :=
  exercises_data <- lift (json_loads exercises) ;;
  let payload := routine_payload title notes exercises_data folder_id in
  data <- api_post environ wire json json_loads "/routines" payload ;;
  ret (json_dumps data 2).

Definition update_routine (routine_id title exercises : string)
  (folder_id : option Z) (notes : string) : M string :=
  exercises_data <- lift (json_loads exercises) ;;
  let payload := routine_payload title notes exercises_data folder_id in
  data <- api_put environ wire json json_loads
            ("/routines/" +++ routine_id) payload ;;
  ret (json_dumps data 2).

(** The tools that take an [exercises] text: one constructor per tool,
    with its arguments. *)
Inductive writing : Type :=
| CreateWorkout (title start_time end_time exercises description : string)
| UpdateWorkout
    (workout_id title start_time end_time exercises description : string)
| CreateRoutine (title exercises : string) (folder_id : option Z)
    (notes : string)
| UpdateRoutine (routine_id title exercises : string) (folder_id : option Z)
    (notes : string).

Definition call_writing (t : writing) : M string :=
  match t with
  | CreateWorkout title start_time end_time exercises description =>
      create_workout title start_time end_time exercises description
  | UpdateWorkout workout_id title start_time end_time exercises description =>
      update_workout workout_id title start_time end_time exercises description
  | CreateRoutine title exercises folder_id notes =>
      create_routine title exercises folder_id notes
  | UpdateRoutine routine_id title exercises folder_id notes =>
      update_routine routine_id title exercises folder_id notes
  end.

(** The tools that write a routine folder. *)
Inductive folder_writing : Type :=
| CreateRoutineFolder (title : string)
| UpdateRoutineFolder (folder_id : Z) (title : string).

Definition call_folder_writing (t : folder_writing) : M string :=
  match t with
  | CreateRoutineFolder title =>
      create_routine_folder environ wire json_loads json_dumps title
  | UpdateRoutineFolder folder_id title =>
      update_routine_folder environ wire json_loads json_dumps folder_id title
  end.

End WritingTools.

(** *** Vocabulary for the statements about the writing tools *)

(** The [exercises] argument of a writing tool. *)
Definition exercises_text (t : writing) : string :=
  match t with
  | CreateWorkout _ _ _ exercises _ => exercises
  | UpdateWorkout _ _ _ _ exercises _ => exercises
  | CreateRoutine _ exercises _ _ => exercises
  | UpdateRoutine _ _ exercises _ _ => exercises
  end.

(** The verb and the path of a writing tool, and the key its payload
    sits under. *)
Definition writing_verb (t : writing) : verb :=
  match t with
  | CreateWorkout _ _ _ _ _ | CreateRoutine _ _ _ _ => POST
  | UpdateWorkout _ _ _ _ _ _ | UpdateRoutine _ _ _ _ _ => PUT
  end.

Definition writing_path (t : writing) : string :=
  match t with
  | CreateWorkout _ _ _ _ _ => "/workouts"
  | UpdateWorkout workout_id _ _ _ _ _ => "/workouts/" +++ workout_id
  | CreateRoutine _ _ _ _ => "/routines"
  | UpdateRoutine routine_id _ _ _ _ => "/routines/" +++ routine_id
  end.

Definition writing_key (t : writing) : string :=
  match t with
  | CreateWorkout _ _ _ _ _ | UpdateWorkout _ _ _ _ _ _ => "workout"
  | CreateRoutine _ _ _ _ | UpdateRoutine _ _ _ _ _ => "routine"
  end.

(** The [str] arguments of a writing tool that go in the payload, under
    the keys they go under. *)
Definition writing_fields (t : writing) : list (string * string) :=
  match t with
  | CreateWorkout title start_time end_time _ description
  | UpdateWorkout _ title start_time end_time _ description =>
      [("title", title); ("description", description);
       ("start_time", start_time); ("end_time", end_time)]
  | CreateRoutine title _ _ notes | UpdateRoutine _ title _ _ notes =>
      [("title", title); ("notes", notes)]
  end.

(** The [folder_id] argument, for the tools that have one. *)
Definition writing_folder (t : writing) : option Z :=
  match t with
  | CreateRoutine _ _ folder_id _ | UpdateRoutine _ _ _ folder_id _ => folder_id
  | _ => None
  end.

(** The member [inner] of the dict under [outer] in the JSON body of a
    request. *)
Definition body_entry (req : request) (outer inner : string) : option json :=
  match body req with
  | Some doc =>
      match dict_lookup (members_of doc) outer with
      | Some d => dict_lookup (members_of d) inner
      | None => None
      end
  | None => None
  end.

(** The keys of the dict under [outer] in the JSON body of a request. *)
Definition body_keys (req : request) (outer : string) : list string :=
  match body req with
  | Some doc =>
      match dict_lookup (members_of doc) outer with
      | Some d => map fst (members_of d)
      | None => []
      end
  | None => []
  end.

(** What the caller of a verb of the API client gets for a request: the
    parsed body, or the exception of the wire, of the status check or of
    the parser. *)
Definition exchange_json (wire : request -> result response)
  (json_loads : string -> result json) (req : request) : result json :=
  let? r := wire req in
  let? _ := raise_for_status r in
  json_loads (content r).

(** The request a folder-writing tool sends through [client]. *)
Definition folder_writing_request (client : Client) (t : folder_writing)
  : request :=
  match t with
  | CreateRoutineFolder title =>
      mk_request client POST "/routine_folders" None
        (Some (JDict [("routine_folder", JDict [("title", JStr title)])]))
  | UpdateRoutineFolder folder_id title =>
      mk_request client PUT ("/routine_folders/" +++ str_of_Z folder_id) None
        (Some (JDict [("routine_folder", JDict [("title", JStr title)])]))
  end.

(** The payload and the request of a writing tool whose [exercises]
    text reads as [exercises_data], sent through [client]. *)
Definition writing_payload (exercises_data : json) (t : writing) : json :=
  match t with
  | CreateWorkout title start_time end_time _ description
  | UpdateWorkout _ title start_time end_time _ description =>
      workout_payload title description start_time end_time exercises_data
  | CreateRoutine title _ folder_id notes
  | UpdateRoutine _ title _ folder_id notes =>
      routine_payload title notes exercises_data folder_id
  end.

Definition writing_request (client : Client) (exercises_data : json)
  (t : writing) : request :=
  mk_request client (writing_verb t) (writing_path t) None
             (Some (writing_payload exercises_data t)).

(** The request of [delete_routine_folder]. *)
Definition delete_request (client : Client) (folder_id : Z) : request :=
  mk_request client DELETE ("/routine_folders/" +++ str_of_Z folder_id)
             None None.

(** A request that went through the client [get_client] builds: the
    base URL, the key of the environment in the [api-key] header, the
    two JSON headers and the timeout of 30 seconds. *)
Definition carries_the_key (environ : string -> option string)
  (req : request) : Prop :=
  base_url (via req) = BASE_URL
  /\ dict_lookup (headers (via req)) "api-key" = environ "HEVY_API_KEY"
  /\ dict_lookup (headers (via req)) "Content-Type" = Some "application/json"
  /\ dict_lookup (headers (via req)) "Accept" = Some "application/json"
  /\ timeout (via req) = Some 30.

(** What the text [json.dumps] writes for the marker of an empty
    [DELETE] answer, with the reference writer. *)
Definition success_marker_text : string :=
  "{" +++ newline +++ "  " +++ String dquote "success" +++ String dquote ": true"
  +++ newline +++ "}".

(** *** More vocabulary for the statements about the loop *)

(** [l] is [m] with some of its elements left out, the others in their
    order. *)
Inductive subsequence {A : Type} : list A -> list A -> Prop :=
| subsequence_nil : subsequence [] []
| subsequence_skip (x : A) (l m : list A) :
    subsequence l m -> subsequence l (x :: m)
| subsequence_take (x : A) (l m : list A) :
    subsequence l m -> subsequence (x :: l) (x :: m).

(** A text in which the character [c] does not occur. *)
Definition free_of (c : ascii) (s : string) : Prop :=
  ~ In c (list_ascii_of_string s).

(** A server that holds the documents [pages] and answers a request
    for any page past the last with the status 503. *)
Definition flaky_wire (pages : list json) (req : request) : result response :=
  match nth_error pages (Z.to_nat (page_of req - 1)) with
  | Some doc => Ok (mk_response 200 (json_dumps_ref doc 2))
  | None => Ok (mk_response 503 "Service Unavailable")
  end.

(* ------------------------------------------------------------------ *)
(** ** Tool code over a client library: the calls made, what is raised

    The tools of the Strava server and of the coach server
    ([src/stravamcpserver/server.py], [src/mymcpserver/server.py]) talk
    to [stravalib] and [garminconnect].  A call of the library is an
    event on a log; what the library answers is an input.  Beside the
    exceptions of [exn], this code can raise [KeyError] and
    [AttributeError]. *)

Inductive raised : Type :=
| KeyError (key : string)
| AttributeError (name : string)
| Other (e : exn).

Inductive outcome (A : Type) : Type :=
| Returned (a : A)
| Raised (r : raised).

Arguments Returned {A} a.
Arguments Raised {A} r.

(** A computation that calls a library whose calls are of type [E]. *)
Definition L (E A : Type) : Type := list E -> outcome A * list E.

Definition unit_L {E A : Type} (a : A) : L E A := fun log => (Returned a, log).

Definition raise_L {E A : Type} (r : raised) : L E A :=
  fun log => (Raised r, log).

Definition bind_L {E A B : Type} (c : L E A) (k : A -> L E B) : L E B :=
  fun log =>
    match c log with
    | (Returned a, log') => k a log'
    | (Raised r, log') => (Raised r, log')
    end.

Notation "x <~ c ;; k" := (bind_L c (fun x => k))
  (at level 61, c at next level, right associativity).

(** The call [e], which the library answers with [answer]. *)
Definition call {E A : Type} (e : E) (answer : result A) : L E A :=
  fun log =>
    (match answer with
     | Ok a => Returned a
     | Raise x => Raised (Other x)
     end,
     log ++ [e]).

(** [try: c except Exception: pass], for a [c] that leaves the value
    [a] when it raises. *)
Definition try_L {E A : Type} (c : L E A) (a : A) : L E A :=
  fun log =>
    match c log with
    | (Returned a', log') => (Returned a', log')
    | (Raised _, log') => (Returned a, log')
    end.

Definition run_L {E A : Type} (c : L E A) : outcome A * list E := c [].

(** What an iterator of the library yields before it is exhausted or
    raises. *)
Record stream (A : Type) : Type := mk_stream {
  yielded : list A;
  failure : option exn
}.

Arguments mk_stream {A} yielded failure.
Arguments yielded {A} s.
Arguments failure {A} s.

(** [for x in s: result.append(f(x))], for an [f] that may raise. *)
Fixpoint collect {A B : Type} (f : A -> outcome B) (items : list A)
  (failure : option exn) (result : list B) : outcome (list B) :=
  match items with
  | [] =>
      match failure with
      | Some e => Raised (Other e)
      | None => Returned result
      end
  | x :: rest =>
      match f x with
      | Returned b => collect f rest failure (result ++ [b])
      | Raised r => Raised r
      end
  end.

(** [arguments[key]]. *)
Definition subscript (arguments : dict json) (key : string) : outcome json :=
  match dict_lookup arguments key with
  | Some v => Returned v
  | None => Raised (KeyError key)
  end.

(** Truth value of an optional [float] or [int]: [None] and zero are
    falsy. *)
Definition truthy_Q (x : option Q) : bool :=
  match x with
  | Some q => negb (Qeq_bool q 0)
  | None => false
  end.

Definition truthy_Z (x : option Z) : bool :=
  match x with
  | Some n => negb (n =? 0)
  | None => false
  end.

(** [float(x)] and [int(x)] of an attribute that may be [None]. *)
Definition float_of (x : option Q) : outcome Q :=
  match x with
  | Some q => Returned q
  | None =>
      Raised (Other (TypeError
        "float() argument must be a string or a real number, not 'NoneType'"))
  end.

Definition int_of (x : option Z) : outcome Z :=
  match x with
  | Some n => Returned n
  | None =>
      Raised (Other (TypeError
        ("int() argument must be a string, a bytes-like object or a real " +++
         "number, not 'NoneType'")))
  end.

(** The value a tool returns: [[{"type": "text", "text": text}]]. *)
Definition text_content (text : string) : json :=
  JList [JDict [("type", JStr "text"); ("text", JStr text)]].

(** [x.attr] for an attribute the object may not have. *)
Definition attribute {A : Type} (name : string) (field : option A)
  : outcome A :=
  match field with
  | Some v => Returned v
  | None => Raised (AttributeError name)
  end.

Definition obind {A B : Type} (o : outcome A) (k : A -> outcome B)
  : outcome B :=
  match o with
  | Returned a => k a
  | Raised r => Raised r
  end.

Notation "'let!' x ':=' o 'in' k" := (obind o (fun x => k))
  (at level 10, x name, o at level 100, k at level 200).

Definition lift_L {E A : Type} (o : outcome A) : L E A := fun log => (o, log).

(** *** The objects of [stravalib] the tools read *)

(** A lap and an activity: the attributes the tools copy as they are,
    those they turn into text, and those they convert, with [None] for
    a value the library does not have.  [calories] may be missing from
    the object altogether. *)
Record Lap : Type := mk_lap {
  lap_distance : option Q;
  lap_moving_time : option Z;
  lap_average_heartrate : json;
  lap_average_watts : json
}.

Record Activity : Type := mk_activity {
  a_id : json;
  a_name : json;
  a_type : json;
  a_sport_type : json;
  a_start_date_local : json;
  a_distance : option Q;
  a_moving_time : option Z;
  a_elapsed_time : option Z;
  a_total_elevation_gain : option Q;
  a_average_speed : option Q;
  a_max_speed : option Q;
  a_average_heartrate : json;
  a_max_heartrate : json;
  a_average_watts : json;
  a_max_watts : json;
  a_average_cadence : json;
  a_calories : option json;
  a_description : json;
  a_kudos_count : json;
  a_suffer_score : json;
  a_laps : option (list Lap)
}.

(** One of the totals of the athlete's statistics, and the
    statistics. *)
Record ActivityTotal : Type := mk_total {
  t_count : json;
  t_distance : option Q;
  t_moving_time : option Z;
  t_elevation_gain : option Q
}.

Record AthleteStats : Type := mk_stats {
  recent_run_totals : option ActivityTotal;
  recent_ride_totals : option ActivityTotal;
  recent_swim_totals : option ActivityTotal;
  ytd_run_totals : option ActivityTotal;
  ytd_ride_totals : option ActivityTotal;
  ytd_swim_totals : option ActivityTotal;
  all_run_totals : option ActivityTotal;
  all_ride_totals : option ActivityTotal;
  all_swim_totals : option ActivityTotal
}.

(** The calls of [stravalib.Client] the tools make. *)
Inductive strava_call : Type :=
| GetActivities (client : StravaClient) (limit : json)
| GetActivity (client : StravaClient) (activity_id : json)
| GetAthlete (client : StravaClient)
| GetAthleteStats (client : StravaClient) (athlete_id : json)
| GetActivityStreams (client : StravaClient) (activity_id : json)
    (types : json) (resolution : string).

(** What the library answers: the iterator of [get_activities], the
    activity of [get_activity], the [id] of the athlete of
    [get_athlete], the statistics of [get_athlete_stats], and for
    [get_activity_streams] the [data] of each stream under its key. *)
Record StravaLibrary : Type := mk_strava_library {
  lib_get_activities : StravaClient -> json -> result (stream Activity);
  lib_get_activity : StravaClient -> json -> result Activity;
  lib_get_athlete : StravaClient -> result json;
  lib_get_athlete_stats : StravaClient -> json -> result AthleteStats;
  lib_get_activity_streams :
    StravaClient -> json -> json -> string -> result (dict json)
}.

(** The arithmetic and the text of Python values, which are the
    interpreter's: [x / y] on [float]s and [int]s, [x * y] on [float]s,
    [round(x)], [round(x, ndigits)] and [str(v)]. *)
Record Interpreter : Type := mk_interpreter {
  true_div : Q -> Q -> Q;
  float_mul : Q -> Q -> Q;
  round_int : Q -> Z;
  round_to : Q -> Z -> Q;
  py_str : json -> string
}.

(** [value(x) if x else None] *)
Definition unless_falsy_Q (x : option Q) (value : Q -> json) : outcome json :=
  if truthy_Q x then let! v := float_of x in Returned (value v)
  else Returned JNull.

Definition unless_falsy_Z (x : option Z) (value : Z -> json) : outcome json :=
  if truthy_Z x then let! v := int_of x in Returned (value v)
  else Returned JNull.

(** [enumerate(l)]. *)
Definition enumerate {A : Type} (l : list A) : list (Z * A) :=
  combine (range 0 (Z.of_nat (List.length l))) l.

Definition default_stream_types : json :=
  JList [JStr "heartrate"; JStr "velocity_smooth"; JStr "cadence";
         JStr "altitude"; JStr "watts"].

(* ------------------------------------------------------------------ *)
(** ** The Strava server ([src/stravamcpserver/server.py], lines 68-165) *)

Module StravaServer.

Section CallTool.

Variable environ : string -> option string.
Variable lib : StravaLibrary.
Variable py : Interpreter.

(** The dict of lines 75-88. *)
Definition activity_entry (a : Activity) : outcome json :=
  let! distance_km :=
    unless_falsy_Q (a_distance a)
      (fun x => JFloat (round_to py (true_div py x 1000) 2)) in
  let! duration_min :=
    unless_falsy_Z (a_moving_time a)
      (fun n => JInt (round_int py (true_div py (inject_Z n) 60))) in
  let! elevation_gain_m :=
    unless_falsy_Q (a_total_elevation_gain a)
      (fun x => JInt (round_int py x)) in
  Returned
    (JDict [("id", a_id a);
            ("name", a_name a);
            ("type", JStr (py_str py (a_sport_type a)));
            ("date", JStr (py_str py (a_start_date_local a)));
            ("distance_km", distance_km);
            ("duration_min", duration_min);
            ("elevation_gain_m", elevation_gain_m);
            ("avg_hr", a_average_heartrate a);
            ("max_hr", a_max_heartrate a);
            ("avg_watts", a_average_watts a);
            ("avg_cadence", a_average_cadence a);
            ("calories", get_or (a_calories a) JNull)]).

(** The dict of lines 117-123, for the lap at index [i]. *)
Definition lap_entry (item : Z * Lap) : outcome json :=
  let '(i, lap) := item in
  let! distance_km :=
    unless_falsy_Q (lap_distance lap)
      (fun x => JFloat (round_to py (true_div py x 1000) 2)) in
  let! duration_min :=
    unless_falsy_Z (lap_moving_time lap)
      (fun n => JInt (round_int py (true_div py (inject_Z n) 60))) in
  Returned
    (JDict [("lap", JInt (i + 1));
            ("distance_km", distance_km);
            ("duration_min", duration_min);
            ("avg_hr", lap_average_heartrate lap);
            ("avg_watts", lap_average_watts lap)]).

(** The dict of lines 94-125. *)
Definition activity_detail (a : Activity) : outcome (dict json) :=
  let! distance_km :=
    unless_falsy_Q (a_distance a)
      (fun x => JFloat (round_to py (true_div py x 1000) 2)) in
  let! moving_time_min :=
    unless_falsy_Z (a_moving_time a)
      (fun n => JInt (round_int py (true_div py (inject_Z n) 60))) in
  let! elapsed_time_min :=
    unless_falsy_Z (a_elapsed_time a)
      (fun n => JInt (round_int py (true_div py (inject_Z n) 60))) in
  let! elevation_gain_m :=
    unless_falsy_Q (a_total_elevation_gain a)
      (fun x => JInt (round_int py x)) in
  let! avg_speed_kmh :=
    unless_falsy_Q (a_average_speed a)
      (fun x => JFloat (round_to py (float_mul py x (36 # 10)) 2)) in
  let! max_speed_kmh :=
    unless_falsy_Q (a_max_speed a)
      (fun x => JFloat (round_to py (float_mul py x (36 # 10)) 2)) in
  let! calories := attribute "calories" (a_calories a) in
  let detail :=
    [("id", a_id a);
     ("name", a_name a);
     ("type", JStr (py_str py (a_sport_type a)));
     ("date", JStr (py_str py (a_start_date_local a)));
     ("distance_km", distance_km);
     ("moving_time_min", moving_time_min);
     ("elapsed_time_min", elapsed_time_min);
     ("elevation_gain_m", elevation_gain_m);
     ("avg_speed_kmh", avg_speed_kmh);
     ("max_speed_kmh", max_speed_kmh);
     ("avg_hr", a_average_heartrate a);
     ("max_hr", a_max_heartrate a);
     ("avg_watts", a_average_watts a);
     ("max_watts", a_max_watts a);
     ("avg_cadence", a_average_cadence a);
     ("calories", calories);
     ("description", a_description a);
     ("kudos", a_kudos_count a);
     ("suffer_score", a_suffer_score a)] in
  if truthy_list (get_or (a_laps a) []) then
    let! laps :=
      collect lap_entry (enumerate (get_or (a_laps a) [])) None [] in
    Returned (dict_set detail "laps" (JList laps))
  else Returned detail.

(** [totals(t)], lines 133-141. *)
Definition totals_entry (t : option ActivityTotal) : outcome json :=
  match t with
  | None => Returned JNull
  | Some t =>
      let! distance_km :=
        unless_falsy_Q (t_distance t)
          (fun x => JFloat (round_to py (true_div py x 1000) 1)) in
      let! moving_time_h :=
        unless_falsy_Z (t_moving_time t)
          (fun n => JFloat (round_to py (true_div py (inject_Z n) 3600) 1)) in
      let! elevation_gain_m :=
        unless_falsy_Q (t_elevation_gain t)
          (fun x => JInt (round_int py x)) in
      Returned
        (JDict [("count", t_count t);
                ("distance_km", distance_km);
                ("moving_time_h", moving_time_h);
                ("elevation_gain_m", elevation_gain_m)])
  end.

(** The dict of lines 143-153. *)
Definition stats_result (stats : AthleteStats) : outcome json :=
  let! recent_run := totals_entry (recent_run_totals stats) in
  let! recent_ride := totals_entry (recent_ride_totals stats) in
  let! recent_swim := totals_entry (recent_swim_totals stats) in
  let! ytd_run := totals_entry (ytd_run_totals stats) in
  let! ytd_ride := totals_entry (ytd_ride_totals stats) in
  let! ytd_swim := totals_entry (ytd_swim_totals stats) in
  let! all_run := totals_entry (all_run_totals stats) in
  let! all_ride := totals_entry (all_ride_totals stats) in
  let! all_swim := totals_entry (all_swim_totals stats) in
  Returned
    (JDict [("recent_run", recent_run);
            ("recent_ride", recent_ride);
            ("recent_swim", recent_swim);
            ("ytd_run", ytd_run);
            ("ytd_ride", ytd_ride);
            ("ytd_swim", ytd_swim);
            ("all_run", all_run);
            ("all_ride", all_ride);
            ("all_swim", all_swim)]).

(** [call_tool(name, arguments)]; a name that matches no branch falls
    off the end of the function, which returns [None]. *)
Definition call_tool (name : string) (arguments : dict json)
  : L strava_call json :=
  if String.eqb name "get_strava_activities" then
    let client := _strava_client environ in
    let limit := dict_get arguments "limit" (JInt 10) in
    activities <~ call (GetActivities client limit)
                       (lib_get_activities lib client limit) ;;
    result <~ lift_L (collect activity_entry (yielded activities)
                              (failure activities) []) ;;
    unit_L (text_content (py_str py (JList result)))
  else if String.eqb name "get_strava_activity" then
    let client := _strava_client environ in
    activity_id <~ lift_L (subscript arguments "activity_id") ;;
    a <~ call (GetActivity client activity_id)
              (lib_get_activity lib client activity_id) ;;
    detail <~ lift_L (activity_detail a) ;;
    unit_L (text_content (py_str py (JDict detail)))
  else if String.eqb name "get_strava_athlete_stats" then
    let client := _strava_client environ in
    athlete_id <~ call (GetAthlete client) (lib_get_athlete lib client) ;;
    stats <~ call (GetAthleteStats client athlete_id)
                  (lib_get_athlete_stats lib client athlete_id) ;;
    result <~ lift_L (stats_result stats) ;;
    unit_L (text_content (py_str py result))
  else if String.eqb name "get_strava_streams" then
    let client := _strava_client environ in
    let types := dict_get arguments "types" default_stream_types in
    activity_id <~ lift_L (subscript arguments "activity_id") ;;
    streams <~ call (GetActivityStreams client activity_id types "medium")
                    (lib_get_activity_streams lib client activity_id types
                       "medium") ;;
    unit_L (text_content (py_str py (JDict streams)))
  else unit_L JNull.

End CallTool.

End StravaServer.

(* ------------------------------------------------------------------ *)
(** ** The coach server ([src/mymcpserver/server.py], lines 31-97) *)

(** The calls of [garminconnect.Garmin] the tool makes: [login], for
    the client built on the two credentials, and the readings of a
    day. *)
Inductive garmin_call : Type :=
| Login (email password : option string)
| GetStatsAndBody (cdate : string)
| GetHrvData (cdate : string)
| GetBodyBattery (startdate enddate : string)
| GetSleepData (cdate : string)
| GetStressData (cdate : string)
| GetTrainingReadiness (cdate : string)
| GetTrainingLoad (cdate : string).

Inductive coach_call : Type :=
| Strava (c : strava_call)
| Garmin (c : garmin_call).

(** [date.max], as a proleptic Gregorian ordinal ([date.min] is 1). *)
Definition date_max_ordinal : Z := 3652059.

(** [date - timedelta(days=i)], on ordinals. *)
Definition date_minus_days (ordinal i : Z) : result Z :=
  if Z.abs i <=? timedelta_max_days then
    let o := ordinal - i in
    if (1 <=? o) && (o <=? date_max_ordinal) then Ok o
    else Raise (OverflowError "date value out of range")
  else Raise (OverflowError "days out of range for timedelta").

(** [range(v)] for a JSON value: an [int] (a [bool] is one) or a
    [TypeError]. *)
Definition range_of (v : json) : outcome (list Z) :=
  match v with
  | JInt n => Returned (range 0 n)
  | JBool b => Returned (range 0 (if b then 1 else 0))
  | _ =>
      Raised (Other (TypeError "object cannot be interpreted as an integer"))
  end.

Definition of_result {A : Type} (r : result A) : outcome A :=
  match r with
  | Ok a => Returned a
  | Raise e => Raised (Other e)
  end.

(** [for i in items: body], for a body that may [return]: the state
    the loop leaves and the value returned from inside it, if any. *)
Fixpoint for_L {E S R : Type} (body : Z -> S -> L E (S * option R))
  (items : list Z) (s : S) : L E (S * option R) :=
  match items with
  | [] => unit_L (s, None)
  | i :: rest =>
      sr <~ body i s ;;
      match snd sr with
      | Some r => unit_L sr
      | None => for_L body rest (fst sr)
      end
  end.

Definition training_load_text : string :=
  "Analyse combinée Garmin + Strava disponible".

Module CoachServer.

Section CallTool.

Variable environ : string -> option string.
Variable lib : StravaLibrary.

(** What [garminconnect] answers to a call. *)
Variable garmin : garmin_call -> result json.

Variable py : Interpreter.

(** The clock: the ordinal of [date.today()], and [date.isoformat()]
    for an ordinal. *)
Variable today : Z.
Variable isoformat : Z -> string.

(** The dict of lines 38-45. *)
Definition activity_entry (a : Activity) : outcome json :=
  let! distance := float_of (a_distance a) in
  let! moving_time := int_of (a_moving_time a) in
  Returned
    (JDict [("name", a_name a);
            ("type", JStr (py_str py (a_type a)));
            ("distance_km", JFloat (round_to py (true_div py distance 1000) 2));
            ("duration_min",
             JInt (round_int py (true_div py (inject_Z moving_time) 60)));
            ("avg_hr", a_average_heartrate a);
            ("date", JStr (py_str py (a_start_date_local a)))]).

(** [try: day[key] = <call> except Exception: pass]. *)
Definition attempt (key : string) (c : garmin_call) (day : dict json)
  : L coach_call (dict json) :=
  try_L (v <~ call (Garmin c) (garmin c) ;; unit_L (dict_set day key v)) day.

(** The body of [for i in range(days)], lines 55-94: it ends on a
    [return]. *)
Definition garmin_day (i : Z) (stats : list json)
  : L coach_call (list json * option json) :=
  o <~ lift_L (of_result (date_minus_days today i)) ;;
  let d := isoformat o in
  let day := [("date", JStr d)] in
  day <~ attempt "stats" (GetStatsAndBody d) day ;;
  day <~ attempt "hrv" (GetHrvData d) day ;;
  day <~ attempt "body_battery" (GetBodyBattery d d) day ;;
  day <~ attempt "sleep" (GetSleepData d) day ;;
  day <~ attempt "stress" (GetStressData d) day ;;
  day <~ attempt "training_readiness" (GetTrainingReadiness d) day ;;
  day <~ attempt "training_load" (GetTrainingLoad d) day ;;
  let stats := stats ++ [JDict day] in
  unit_L (stats, Some (text_content (py_str py (JList stats)))).

(** [call_tool(name, arguments)]; [None] is what the function returns
    when it falls off its end. *)
Definition call_tool (name : string) (arguments : dict json)
  : L coach_call json :=
  if String.eqb name "get_strava_activities" then
    let client := mk_strava_client (environ "STRAVA_ACCESS_TOKEN") in
    let limit := dict_get arguments "limit" (JInt 10) in
    activities <~ call (Strava (GetActivities client limit))
                       (lib_get_activities lib client limit) ;;
    result <~ lift_L (collect activity_entry (yielded activities)
                              (failure activities) []) ;;
    unit_L (text_content (py_str py (JList result)))
  else if String.eqb name "get_garmin_stats" then
    let login := Login (environ "GARMIN_EMAIL") (environ "GARMIN_PASSWORD") in
    _ <~ call (Garmin login) (garmin login) ;;
    let days := dict_get arguments "days" (JInt 7) in
    items <~ lift_L (range_of days) ;;
    sr <~ for_L garmin_day items [] ;;
    match snd sr with
    | Some r => unit_L r
    | None => unit_L JNull
    end
  else if String.eqb name "get_training_load" then
    unit_L (text_content training_load_text)
  else unit_L JNull.

End CallTool.

End CoachServer.

(** *** Vocabulary for the statements about the two servers *)

(** An optional number that is [None] or zero. *)
Definition none_or_zero_Q (x : option Q) : Prop :=
  x = None \/ exists q : Q, x = Some q /\ (q == 0)%Q.

Definition none_or_zero_Z (x : option Z) : Prop :=
  x = None \/ x = Some 0.

(** The value under [key] of an entry of a result. *)
Definition entry_value (entry : json) (key : string) : option json :=
  dict_lookup (members_of entry) key.

(** The readings [get_garmin_stats] asks for the day [d], each with
    the key it is stored under. *)
Definition readings (d : string) : list (string * garmin_call) :=
  [("stats", GetStatsAndBody d);
   ("hrv", GetHrvData d);
   ("body_battery", GetBodyBattery d d);
   ("sleep", GetSleepData d);
   ("stress", GetStressData d);
   ("training_readiness", GetTrainingReadiness d);
   ("training_load", GetTrainingLoad d)].

(** The dict of a day whose readings the library answers as [garmin]
    does: the date, then each reading that did not raise, under its
    key. *)
Definition day_of (garmin : garmin_call -> result json) (d : string)
  : dict json :=
  ("date", JStr d)
    :: flat_map (fun kc => match garmin (snd kc) with
                           | Ok v => [(fst kc, v)]
                           | Raise _ => []
                           end)
                (readings d).

(** *** Sample worlds for the two servers *)

(** An interpreter for the examples: exact arithmetic, rounding to the
    nearest with ties to even, and for [str] the JSON text of a
    value. *)
Definition sample_interpreter : Interpreter :=
  mk_interpreter
    (fun x y => (x / y)%Q)
    (fun x y => (x * y)%Q)
    (fun x => round_half_even (Qnum x) (Zpos (Qden x)))
    (fun x digits =>
       Qmake (round_half_even (Qnum x * 10 ^ digits) (Zpos (Qden x)))
             (Z.to_pos (10 ^ digits)))
    (fun v => json_dumps_ref v 0).

(** A run with the given distance, moving time and laps. *)
Definition sample_activity (distance : option Q) (moving_time : option Z)
  (laps : option (list Lap)) : Activity :=
  mk_activity (JInt 11) (JStr "Morning Run") (JStr "Run") (JStr "Run")
    (JStr "2024-01-19 07:00:00") distance moving_time moving_time
    (Some 12%Q) (Some (3 # 1)) (Some (4 # 1)) (JInt 150) (JInt 171) JNull
    JNull JNull (Some (JInt 480)) JNull (JInt 3) JNull laps.

(** A library that yields the activities [s], returns the first of
    them for any id, and has no statistics and no streams. *)
Definition sample_library (s : stream Activity) : StravaLibrary :=
  mk_strava_library
    (fun _ _ => Ok s)
    (fun _ _ => match yielded s with
                | a :: _ => Ok a
                | [] => Raise (ValueError "Record Not Found")
                end)
    (fun _ => Ok (JInt 42))
    (fun _ _ => Ok (mk_stats None None None None None None None None None))
    (fun _ _ _ _ => Ok []).

(** A Garmin account that logs in and has, for any day, every reading
    but the HRV and the training readiness. *)
Definition sample_garmin (c : garmin_call) : result json :=
  match c with
  | Login _ _ => Ok JNull
  | GetStatsAndBody d => Ok (JDict [("calendarDate", JStr d)])
  | GetHrvData _ => Raise (HTTPStatusError 404 "Not Found")
  | GetBodyBattery _ _ => Ok (JList [])
  | GetSleepData _ => Ok (JDict [])
  | GetStressData _ => Ok (JDict [])
  | GetTrainingReadiness _ => Raise (TransportError "timed out")
  | GetTrainingLoad _ => Ok (JInt 0)
  end.

(** A Garmin account that cannot log in. *)
Definition locked_garmin (c : garmin_call) : result json :=
  Raise (HTTPStatusError 401 "Unauthorized").

(** The clock of the examples: 2024-01-20, the day 738905 of the
    calendar. *)
Definition sample_today : Z := 738905.

Definition sample_isoformat (ordinal : Z) : string :=
  if ordinal =? 738905 then "2024-01-20" else "2024-01-19".

(* ------------------------------------------------------------------ *)
(** ** The token bootstrap ([src/stravamcpserver/strava_auth.py])

    The script opens the browser on the authorization page, serves one
    request on the callback port, posts the code it took from it to the
    token endpoint and prints the two tokens.  Its effects are events on
    a log; the request that comes in and the answer of the token
    endpoint are inputs, and so is [urllib]'s reading of a query
    string. *)

(** [v[key]] for a JSON value. *)
Definition getitem (v : json) (key : string) : outcome json :=
  match v with
  | JDict members => subscript members key
  | JList _ =>
      Raised (Other (TypeError
        "list indices must be integers or slices, not str"))
  | JStr _ =>
      Raised (Other (TypeError "string indices must be integers, not 'str'"))
  | _ => Raised (Other (TypeError "object is not subscriptable"))
  end.

Module StravaAuth.

Inductive event : Type :=
| OpenBrowser (url : string)
| Respond (status : Z) (body : string)
| PostForm (url : string) (data : dict (option string))
| PrintLine (line : string).

Definition REDIRECT_URI : string := "http://localhost:8080/callback".

Definition TOKEN_URL : string := "https://www.strava.com/oauth/token".

Section Script.

Variable environ : string -> option string.

(** [urllib.parse.parse_qs(urllib.parse.urlparse(path).query)]: each
    name of the query with its values, of which there is at least one
    (the first, and the others). *)
Variable parse_qs : string -> dict (string * list string).

(** [requests.post(url, data=data).json()]: the document of the reply,
    or what the request or the decoding raises. *)
Variable post_json : string -> dict (option string) -> result json.

(** [str(v)] of a value of the reply, as [print] writes it. *)
Variable py_str : json -> string.

Definition CLIENT_ID : string :=
  get_or (environ "STRAVA_CLIENT_ID") EmptyString.

Definition CLIENT_SECRET : string :=
  get_or (environ "STRAVA_CLIENT_SECRET") EmptyString.

(** Lines 23-25. *)
Definition url : string :=
  "https://www.strava.com/oauth/authorize?client_id=" +++ CLIENT_ID
  +++ "&redirect_uri=" +++ REDIRECT_URI +++ "&response_type=code"
  +++ "&scope=activity:read_all".

(** [CallbackHandler.do_GET], for the request of path [path]: the new
    value of the global [auth_code]. *)
Definition do_GET (path : string) : L event (option string) :=
  let params := parse_qs path in
  let auth_code :=
    match dict_lookup params "code" with
    | Some (first, _) => Some first
    | None => None
    end in
  fun log =>
    (Returned auth_code,
     log ++ [Respond 200 "OK - tu peux fermer cette fenetre"]).

(** [print(label, v)]. *)
Definition print (label : string) (v : json) : L event unit :=
  fun log =>
    (Returned tt, log ++ [PrintLine (label +++ " " +++ py_str v)]).

(** The script, when the one request [handle_request] serves is a
    [GET] of path [path]. *)
Definition main (path : string) : L event unit :=
  _ <~ (fun log => (Returned tt, log ++ [OpenBrowser url])) ;;
  auth_code <~ do_GET path ;;
  let data :=
    [("client_id", Some CLIENT_ID);
     ("client_secret", Some CLIENT_SECRET);
     ("code", auth_code);
     ("grant_type", Some "authorization_code")] in
  tokens <~ call (PostForm TOKEN_URL data) (post_json TOKEN_URL data) ;;
  access_token <~ lift_L (getitem tokens "access_token") ;;
  _ <~ print "Access token :" access_token ;;
  refresh_token <~ lift_L (getitem tokens "refresh_token") ;;
  print "Refresh token:" refresh_token.

End Script.

End StravaAuth.

(** A query reader for the examples: the path [/callback?code=abc] has
    the one name [code], any other path has none. *)
Definition sample_parse_qs (path : string) : dict (string * list string) :=
  if String.eqb path "/callback?code=abc" then [("code", ("abc", []))]
  else [].

(** A token endpoint that refuses the exchange, as Strava does for a
    code it does not know. *)
Definition refusing_endpoint (url : string) (data : dict (option string))
  : result json :=
  Ok (JDict [("message", JStr "Bad Request"); ("errors", JList [])]).

(* ================================================================== *)
(** * Properties *)

(* ------------------------------------------------------------------ *)
(** ** The scan of a page *)

Section ScanFacts.

Variable fromisoformat : string -> result datetime.
Variable cutoff : datetime.

#[local] Abbreviation examine' := (examine fromisoformat cutoff).
#[local] Abbreviation scan_page' := (scan_page fromisoformat cutoff).
#[local] Abbreviation keeps' := (keeps fromisoformat cutoff).
#[local] Abbreviation stops' := (stops fromisoformat cutoff).

Lemma truthy_str_nonempty (s : string) :
  s <> EmptyString -> truthy_str s = true.
Proof. destruct s; [congruence | reflexivity]. Qed.

Lemma examine_missing (w : Workout) :
  start_time w = None -> examine' w = Skip.
Proof. unfold examine. intros ->. reflexivity. Qed.

Lemma examine_empty (w : Workout) :
  start_time w = Some EmptyString -> examine' w = Skip.
Proof. unfold examine. intros ->. reflexivity. Qed.

Lemma examine_unparsed (w : Workout) (s : string) (e : exn) :
  start_time w = Some s ->
  fromisoformat (str_replace "Z" "+00:00" s) = Raise e ->
  examine' w = Skip.
Proof.
  unfold examine, classify. intros -> Hp. simpl.
  destruct (truthy_str s); [| reflexivity].
  rewrite Hp. reflexivity.
Qed.

(** A naive timestamp parses, and comparing it with the aware cutoff
    raises inside the [try]: the record is passed over as well. *)
Lemma examine_naive (w : Workout) (s : string) (d : datetime) (coff : Z) :
  start_time w = Some s ->
  fromisoformat (str_replace "Z" "+00:00" s) = Ok d ->
  utcoffset d = None ->
  utcoffset cutoff = Some coff ->
  examine' w = Skip.
Proof.
  unfold examine, classify, datetime_ge, datetime_compare.
  intros -> Hp Hd Hc. simpl.
  destruct (truthy_str s); [| reflexivity].
  rewrite Hp. simpl. rewrite Hd, Hc. reflexivity.
Qed.

Lemma examine_fresh (w : Workout) (s : string) (d : datetime) (off coff : Z) :
  start_time w = Some s -> s <> EmptyString ->
  fromisoformat (str_replace "Z" "+00:00" s) = Ok d ->
  utcoffset d = Some off -> utcoffset cutoff = Some coff ->
  instant (wall cutoff) coff <= instant (wall d) off ->
  examine' w = Keep.
Proof.
  unfold examine, classify, datetime_ge, datetime_compare.
  intros -> Hs Hp Hd Hc Hle. simpl.
  rewrite (truthy_str_nonempty s Hs), Hp. simpl. rewrite Hd, Hc.
  cbn [rbind].
  destruct (Z.compare_spec (instant (wall d) off) (instant (wall cutoff) coff));
    try reflexivity.
  exfalso. lia.
Qed.

Lemma examine_stale (w : Workout) (s : string) (d : datetime) (off coff : Z) :
  start_time w = Some s -> s <> EmptyString ->
  fromisoformat (str_replace "Z" "+00:00" s) = Ok d ->
  utcoffset d = Some off -> utcoffset cutoff = Some coff ->
  instant (wall d) off < instant (wall cutoff) coff ->
  examine' w = Stop.
Proof.
  unfold examine, classify, datetime_ge, datetime_lt, datetime_compare.
  intros -> Hs Hp Hd Hc Hlt. simpl.
  rewrite (truthy_str_nonempty s Hs), Hp. simpl. rewrite Hd, Hc.
  cbn [rbind].
  apply Z.compare_lt_iff in Hlt. rewrite Hlt. reflexivity.
Qed.

(** The scan of a page made of two stretches. *)
Lemma scan_page_app (pre post acc : list Workout) :
  scan_page' (pre ++ post) acc =
  if snd (scan_page' pre acc) then scan_page' pre acc
  else scan_page' post (fst (scan_page' pre acc)).
Proof.
  revert acc. induction pre as [| x pre IH]; intros acc; simpl.
  - reflexivity.
  - destruct (examine' x); [apply IH | reflexivity | apply IH].
Qed.

(** A stretch with no stopping record is walked to its end and leaves
    its kept records, in order, behind those already kept. *)
Lemma scan_page_unstopped (ws acc : list Workout) :
  existsb stops' ws = false ->
  scan_page' ws acc = (acc ++ filter keeps' ws, false).
Proof.
  revert acc. induction ws as [| x ws IH]; intros acc H; simpl in *.
  - now rewrite app_nil_r.
  - unfold stops, keeps in *.
    destruct (examine' x) eqn:E; simpl in H; try discriminate.
    + rewrite IH by assumption. now rewrite <- app_assoc.
    + now apply IH.
Qed.

Lemma scan_page_skip (pre post acc : list Workout) (w : Workout) :
  examine' w = Skip ->
  scan_page' (pre ++ w :: post) acc = scan_page' (pre ++ post) acc.
Proof.
  intros E. rewrite !scan_page_app. simpl. now rewrite E.
Qed.

Lemma scan_page_stop (pre post acc : list Workout) (w : Workout) :
  existsb stops' pre = false -> examine' w = Stop ->
  scan_page' (pre ++ w :: post) acc = (acc ++ filter keeps' pre, true).
Proof.
  intros Hpre E. rewrite scan_page_app, scan_page_unstopped by assumption.
  simpl. now rewrite E.
Qed.

Lemma scan_page_keep (pre post acc : list Workout) (w : Workout) :
  existsb stops' pre = false -> examine' w = Keep ->
  In w (fst (scan_page' (pre ++ w :: post) acc)).
Proof.
  intros Hpre E. rewrite scan_page_app, scan_page_unstopped by assumption.
  simpl. rewrite E.
  assert (G : forall l a, In w a -> In w (fst (scan_page' l a))).
  { induction l as [| x l IH]; intros a Ha; simpl; [assumption |].
    destruct (examine' x); simpl; auto. apply IH, in_or_app. now left. }
  apply G, in_or_app. right. now left.
Qed.

(** The scan adds at most the records of the page to those kept. *)
Lemma scan_page_length (ws acc : list Workout) :
  (List.length (fst (scan_page' ws acc)) <= List.length acc + List.length ws)%nat.
Proof.
  revert acc. induction ws as [| x ws IH]; intros acc; simpl.
  - lia.
  - destruct (examine' x); simpl.
    + specialize (IH (acc ++ [x])). rewrite length_app in IH. simpl in IH. lia.
    + lia.
    + specialize (IH acc). lia.
Qed.

Lemma unbroken_spec (ws : list Workout) :
  unbroken fromisoformat cutoff ws = true ->
  truthy_list ws = true /\ existsb stops' ws = false.
Proof.
  unfold unbroken. intros H. apply andb_true_iff in H as [H1 H2].
  split; [assumption |]. now apply negb_true_iff.
Qed.

End ScanFacts.

(* ------------------------------------------------------------------ *)
(** ** The page loop *)

Lemma range_nil (lo : Z) : range lo lo = [].
Proof. unfold range. now rewrite Z.sub_diag. Qed.

Lemma range_cons (lo hi : Z) :
  lo < hi -> range lo hi = lo :: range (lo + 1) hi.
Proof.
  intros H. unfold range.
  replace (Z.to_nat (hi - lo)) with (S (Z.to_nat (hi - (lo + 1)))) by lia.
  simpl. f_equal; [lia |].
  rewrite <- seq_shift, map_map. apply map_ext. intros i. lia.
Qed.

Lemma range_split (lo hi : Z) (n : nat) :
  lo + Z.of_nat n <= hi ->
  range lo hi = range lo (lo + Z.of_nat n) ++ range (lo + Z.of_nat n) hi.
Proof.
  revert lo. induction n as [| n IH]; intros lo H.
  - rewrite Z.add_0_r, range_nil. reflexivity.
  - rewrite (range_cons lo hi) by lia.
    rewrite (range_cons lo (lo + Z.of_nat (S n))) by lia.
    replace (lo + Z.of_nat (S n)) with (lo + 1 + Z.of_nat n) by lia.
    cbn [app]. f_equal. apply IH. lia.
Qed.

Lemma range_length (lo hi : Z) : List.length (range lo hi) = Z.to_nat (hi - lo).
Proof. unfold range. now rewrite length_map, length_seq. Qed.

Section FetchFacts.

Variable environ : string -> option string.
Variable wire : request -> result response.
Variable fromisoformat : string -> result datetime.
Variable loads : string -> result WorkoutsPage.
Variable cutoff : datetime.

#[local] Abbreviation fetch_pages' :=
  (fetch_pages environ wire fromisoformat loads cutoff).
#[local] Abbreviation exchange' := (exchange wire loads).
#[local] Abbreviation served' := (served environ wire loads).
#[local] Abbreviation scan' := (scan_page fromisoformat cutoff).

(** One turn of the loop, spelled out on the log. *)
Lemma fetch_pages_turn (page : Z) (later : list Z) (acc : list Workout)
  (log : list request) :
  fetch_pages' (page :: later) acc log =
  match get_client environ with
  | Raise e => (Raise e, log)
  | Ok client =>
      let log' := log ++ [page_request client page] in
      match exchange' (page_request client page) with
      | Raise e => (Raise e, log')
      | Ok data =>
          let ws := get_or (workouts data) [] in
          if negb (truthy_list ws) then (Ok acc, log')
          else if snd (scan' ws acc) then (Ok (fst (scan' ws acc)), log')
          else fetch_pages' later (fst (scan' ws acc)) log'
      end
  end.
Proof.
  cbn [fetch_pages].
  unfold bind at 1, fetch_page, api_get, bind, lift, send, exchange,
    response_json, page_request, ret.
  destruct (get_client environ) as [client | e]; [| reflexivity].
  cbn [rbind].
  destruct (wire _) as [r | e]; [| reflexivity].
  cbn [rbind].
  destruct (raise_for_status r) as [r' | e]; [| reflexivity].
  cbn [rbind].
  destruct (loads (content r)) as [data | e]; [| reflexivity].
  destruct (negb (truthy_list (get_or (workouts data) []))); [reflexivity |].
  destruct (scan_page fromisoformat cutoff _ acc) as [kept broke].
  cbn [fst snd]. destruct broke; reflexivity.
Qed.

Lemma served_exchange (client : Client) (page : Z) (ws : list Workout) :
  get_client environ = Ok client ->
  served' page = Ok ws ->
  exists data,
    exchange' (page_request client page) = Ok data
    /\ get_or (workouts data) [] = ws.
Proof.
  unfold served. intros -> H. cbn [rbind] in H.
  destruct (exchange' (page_request client page)) as [data | e];
    cbn [rbind] in H; [| discriminate].
  exists data. split; [reflexivity | congruence].
Qed.

(** Pages walked to their end: the loop moves past them, their kept
    records behind those already kept, one request each on the log. *)
Lemma fetch_pages_unbroken (client : Client) (pgs : list (list Workout)) :
  forall (first : Z) (later : list Z) (acc : list Workout) (log : list request),
    get_client environ = Ok client ->
    serves environ wire loads first pgs ->
    forallb (unbroken fromisoformat cutoff) pgs = true ->
    fetch_pages' (range first (first + Z.of_nat (List.length pgs)) ++ later)
                 acc log =
    fetch_pages' later
      (acc ++ filter (keeps fromisoformat cutoff) (List.concat pgs))
      (log ++ map (page_request client)
                  (range first (first + Z.of_nat (List.length pgs)))).
Proof.
  induction pgs as [| ws pgs IH]; intros first later acc log Hc Hs Hu.
  - cbn [List.length Z.of_nat List.concat filter]. rewrite Z.add_0_r, range_nil.
    cbn [app map]. now rewrite !app_nil_r.
  - destruct Hs as [Hws Hrest].
    cbn [forallb] in Hu. apply andb_true_iff in Hu as [Hu1 Hu2].
    apply unbroken_spec in Hu1 as [Hne Hns].
    destruct (served_exchange client first ws Hc Hws) as (data & Hx & Hd).
    replace (first + Z.of_nat (List.length (ws :: pgs)))
      with (first + 1 + Z.of_nat (List.length pgs))
      by (cbn [List.length]; lia).
    rewrite (range_cons first) by lia.
    cbn [app map]. rewrite fetch_pages_turn, Hc. cbn zeta.
    rewrite Hx, Hd, Hne. cbn [negb].
    rewrite (scan_page_unstopped fromisoformat cutoff ws acc Hns).
    cbn [fst snd].
    rewrite (IH (first + 1) later _ _ Hc Hrest Hu2).
    cbn [List.concat]. rewrite filter_app, <- !app_assoc. reflexivity.
Qed.

(** The loop as [analyze_recent_workouts] starts it, after [pgs]. *)
Lemma fetch_from_page_1 (client : Client) (pgs : list (list Workout)) :
  get_client environ = Ok client ->
  (List.length pgs <= 5)%nat ->
  serves environ wire loads 1 pgs ->
  forallb (unbroken fromisoformat cutoff) pgs = true ->
  run (fetch_pages' (range 1 6) []) =
  fetch_pages' (range (1 + Z.of_nat (List.length pgs)) 6)
    (filter (keeps fromisoformat cutoff) (List.concat pgs))
    (map (page_request client) (range 1 (1 + Z.of_nat (List.length pgs)))).
Proof.
  intros Hc Hn Hs Hu. unfold run.
  rewrite (range_split 1 6 (List.length pgs)) by lia.
  now rewrite (fetch_pages_unbroken client pgs 1 _ [] [] Hc Hs Hu).
Qed.

Lemma range_snoc (lo : Z) (n : nat) :
  range lo (lo + Z.of_nat n) ++ [lo + Z.of_nat n]
  = range lo (lo + Z.of_nat n + 1).
Proof.
  rewrite (range_split lo (lo + Z.of_nat n + 1) n) by lia.
  f_equal. rewrite range_cons by lia. now rewrite range_nil.
Qed.

(** Whatever comes back, the requests on the log are those of the first
    pages asked for, in order, each with [pageSize] 10. *)
Lemma fetch_pages_requests (pages : list Z) :
  forall (acc : list Workout) (log : list request),
  exists k : nat,
    (k <= List.length pages)%nat
    /\ map asks (snd (fetch_pages' pages acc log))
       = map asks log ++ map asks_page (firstn k pages).
Proof.
  induction pages as [| page later IH]; intros acc log.
  - exists 0%nat. split; [lia |]. cbn. now rewrite app_nil_r.
  - rewrite fetch_pages_turn.
    destruct (get_client environ) as [client | e].
    2:{ exists 0%nat. split; [cbn; lia |]. cbn. now rewrite app_nil_r. }
    assert (One : map asks (log ++ [page_request client page])
                  = map asks log ++ map asks_page (firstn 1 (page :: later))).
    { now rewrite map_app. }
    cbn zeta.
    destruct (exchange' _) as [data | e].
    2:{ exists 1%nat. split; [cbn; lia | exact One]. }
    destruct (negb _).
    { exists 1%nat. split; [cbn; lia | exact One]. }
    destruct (snd (scan' (get_or (workouts data) []) acc)).
    { exists 1%nat. split; [cbn; lia | exact One]. }
    destruct (IH (fst (scan' (get_or (workouts data) []) acc))
                 (log ++ [page_request client page])) as (k & Hk & E).
    exists (S k). split; [cbn; lia |].
    rewrite E, map_app, <- app_assoc. reflexivity.
Qed.

Lemma received_snoc (log : list request) (req : request) :
  received wire loads (log ++ [req])
  = received wire loads log
      ++ match exchange' req with
         | Ok data => get_or (workouts data) []
         | Raise _ => []
         end.
Proof. unfold received. rewrite flat_map_app. cbn. now rewrite app_nil_r. Qed.

Lemma fetch_pages_bound (pages : list Z) :
  page_size_respected wire loads ->
  forall (acc : list Workout) (log : list request),
    (List.length (received wire loads (snd (fetch_pages' pages acc log)))
       <= List.length (received wire loads log) + 10 * List.length pages)%nat
    /\ (forall kept, fst (fetch_pages' pages acc log) = Ok kept ->
          (List.length kept <= List.length acc + 10 * List.length pages)%nat).
Proof.
  intros Hsize. induction pages as [| page later IH]; intros acc log.
  - cbn [fetch_pages]. unfold ret. cbn [fst snd List.length].
    split; [lia |]. intros kept [= <-]. lia.
  - rewrite fetch_pages_turn.
    destruct (get_client environ) as [client | e].
    2:{ cbn [fst snd List.length]. split; [lia | discriminate]. }
    cbn zeta.
    pose proof (received_snoc log (page_request client page)) as R.
    destruct (exchange' (page_request client page)) as [data | e] eqn:Hx.
    2:{ cbn [fst snd]. rewrite R, app_nil_r.
        split; [cbn [List.length]; lia | discriminate]. }
    specialize (Hsize _ _ Hx).
    assert (L : (List.length (received wire loads
                                (log ++ [page_request client page]))
                 <= List.length (received wire loads log) + 10)%nat).
    { rewrite R, length_app. lia. }
    pose proof (scan_page_length fromisoformat cutoff
                  (get_or (workouts data) []) acc) as S.
    destruct (negb _).
    { cbn [fst snd List.length]. split; [lia |]. intros kept [= <-]. lia. }
    destruct (snd (scan' (get_or (workouts data) []) acc)).
    { cbn [fst snd List.length]. split; [lia |]. intros kept [= <-]. lia. }
    destruct (IH (fst (scan' (get_or (workouts data) []) acc))
                 (log ++ [page_request client page])) as [B1 B2].
    split.
    + cbn [List.length]. lia.
    + intros kept Hk. specialize (B2 kept Hk). cbn [List.length]. lia.
Qed.

End FetchFacts.

(* ------------------------------------------------------------------ *)
(** ** [analyze_recent_workouts] on top of the loop *)

Section AnalyzeFacts.

Variable environ : string -> option string.
Variable wire : request -> result response.
Variable now : Z.
Variable fromisoformat : string -> result datetime.
Variable loads : string -> result WorkoutsPage.

#[local] Abbreviation analyze' :=
  (analyze_recent_workouts environ wire now fromisoformat loads).
#[local] Abbreviation loop' :=
  (fetch_pages environ wire fromisoformat loads).

(** The cutoff is an aware value: UTC, [days] days before the clock. *)
Lemma cutoff_of_aware (days : Z) (cutoff : datetime) :
  cutoff_of now days = Ok cutoff ->
  utcoffset cutoff = Some 0 /\ wall cutoff = now - days * us_per_day.
Proof.
  unfold cutoff_of, timedelta_days, datetime_sub.
  destruct (Z.abs days <=? timedelta_max_days); cbn [rbind]; [| discriminate].
  cbn [wall utcoffset].
  destruct (_ && _); [| discriminate].
  intros [= <-]. split; reflexivity.
Qed.

(** With a cutoff, the tool renders what the loop kept, or raises what
    the loop raised; the log is the loop's. *)
Lemma analyze_run (days : Z) (cutoff : datetime) :
  cutoff_of now days = Ok cutoff ->
  run (analyze' days) =
  (match fst (run (loop' cutoff (range 1 6) [])) with
   | Ok kept => Ok (render days kept)
   | Raise e => Raise e
   end,
   snd (run (loop' cutoff (range 1 6) []))).
Proof.
  intros Hc. unfold run, analyze_recent_workouts, bind, lift, ret.
  rewrite Hc.
  destruct (loop' cutoff (range 1 6) [] []) as [[kept | e] log]; reflexivity.
Qed.

(** Without one, it raises before the first request. *)
Lemma analyze_no_cutoff (days : Z) (e : exn) :
  cutoff_of now days = Raise e ->
  run (analyze' days) = (Raise e, []).
Proof.
  intros Hc. unfold run, analyze_recent_workouts, bind, lift. now rewrite Hc.
Qed.

End AnalyzeFacts.

(* ------------------------------------------------------------------ *)
(** ** The claims about the scan *)




Lemma firstn_range (lo hi : Z) (k : nat) :
  lo + Z.of_nat k <= hi ->
  firstn k (range lo hi) = range lo (lo + Z.of_nat k).
Proof.
  intros H. rewrite (range_split lo hi k H).
  rewrite firstn_app, range_length.
  replace (k - Z.to_nat (lo + Z.of_nat k - lo))%nat with 0%nat by lia.
  cbn [firstn]. rewrite app_nil_r.
  apply firstn_all2. rewrite range_length. lia.
Qed.


(** What comes back from a [paged_wire] server. *)
Lemma paged_wire_exchange (pages : list json) (req : request) :
  exchange (paged_wire pages) loads_page req
  = loads_page
      (json_dumps_ref
         (nth (Z.to_nat (page_of req - 1)) pages (page_doc [])) 2).
Proof. reflexivity. Qed.

Lemma six_pages_respect_the_page_size :
  page_size_respected (paged_wire six_pages) loads_page.
Proof.
  intros req data. rewrite paged_wire_exchange.
  generalize (Z.to_nat (page_of req - 1)). intros k.
  do 7 (destruct k as [| k];
        [vm_compute; intros [= <-]; cbn; lia |]).
  vm_compute. intros [= <-]. cbn. lia.
Qed.



(** A record the loop body passes over leaves the page loop where it
    would be without it: same kept records, same decision to stop or to
    go on, nothing raised on its account. *)
Lemma skipped_record_is_transparent
  (environ : string -> option string) (wire : request -> result response)
  (fromisoformat : string -> result datetime)
  (loads : string -> result WorkoutsPage) (cutoff : datetime)
  (w : Workout) :
  examine fromisoformat cutoff w = Skip ->
  forall (client : Client) (page : Z) (later : list Z)
         (acc : list Workout) (log : list request)
         (pre post : list Workout),
    get_client environ = Ok client ->
    served environ wire loads page = Ok (pre ++ w :: post) ->
    fetch_pages environ wire fromisoformat loads cutoff (page :: later) acc log
    = (let log' := log ++ [page_request client page] in
       if snd (scan_page fromisoformat cutoff (pre ++ post) acc)
       then (Ok (fst (scan_page fromisoformat cutoff (pre ++ post) acc)), log')
       else fetch_pages environ wire fromisoformat loads cutoff later
              (fst (scan_page fromisoformat cutoff (pre ++ post) acc)) log').
Proof.
  intros Hw client page later acc log pre post Hc Hs.
  rewrite fetch_pages_turn, Hc. cbn zeta.
  destruct (served_exchange environ wire loads client _ _ Hc Hs)
    as (data & Hx & Hd).
  rewrite Hx, Hd.
  replace (truthy_list (pre ++ w :: post)) with true
    by (destruct pre; reflexivity).
  cbn [negb].
  now rewrite (scan_page_skip fromisoformat cutoff pre post acc w Hw).
Qed.



(** C10.  A record with no [start_time], or with the empty string for
    one, is passed over: it is not kept, so it adds to no total of the
    summary; the scan of its page and the page loop go on as they would
    without it, and it does not stop the scan as a stale record does. *)
Theorem missing_start_time_is_passed_over :
  forall (environ : string -> option string)
         (wire : request -> result response)
         (fromisoformat : string -> result datetime)
         (loads : string -> result WorkoutsPage) (cutoff : datetime)
         (w : Workout),
    start_time w = None \/ start_time w = Some EmptyString ->
    examine fromisoformat cutoff w = Skip
    /\ keeps fromisoformat cutoff w = false
    /\ stops fromisoformat cutoff w = false
    /\ (forall pre post acc : list Workout,
           scan_page fromisoformat cutoff (pre ++ w :: post) acc
           = scan_page fromisoformat cutoff (pre ++ post) acc
           /\ summarize
                (fst (scan_page fromisoformat cutoff (pre ++ w :: post) acc))
              = summarize
                  (fst (scan_page fromisoformat cutoff (pre ++ post) acc)))
    /\ (forall (client : Client) (page : Z) (later : list Z)
               (acc : list Workout) (log : list request)
               (pre post : list Workout),
           get_client environ = Ok client ->
           served environ wire loads page = Ok (pre ++ w :: post) ->
           fetch_pages environ wire fromisoformat loads cutoff
                       (page :: later) acc log
           = (let log' := log ++ [page_request client page] in
              if snd (scan_page fromisoformat cutoff (pre ++ post) acc)
              then (Ok (fst (scan_page fromisoformat cutoff (pre ++ post) acc)),
                    log')
              else fetch_pages environ wire fromisoformat loads cutoff later
                     (fst (scan_page fromisoformat cutoff (pre ++ post) acc))
                     log')).
Proof.
  intros environ wire fromisoformat loads cutoff w Hw.
  assert (Hskip : examine fromisoformat cutoff w = Skip).
  { destruct Hw as [Hw | Hw];
      [now apply examine_missing | now apply examine_empty]. }
  split; [exact Hskip |].
  split; [unfold keeps; now rewrite Hskip |].
  split; [unfold stops; now rewrite Hskip |].
  split.
  - intros pre post acc.
    now rewrite (scan_page_skip fromisoformat cutoff pre post acc w Hskip).
  - now apply skipped_record_is_transparent.
Qed.

(** The undated record of the sample server's first page. *)
Lemma missing_start_time_is_passed_over_witness :
  examine fromisoformat_basic sample_cutoff (read_workout undated_doc) = Skip
  /\ scan_page fromisoformat_basic sample_cutoff
       (map read_workout [fresh_doc; undated_doc; boundary_doc]) []
     = scan_page fromisoformat_basic sample_cutoff
         (map read_workout [fresh_doc; boundary_doc]) [].
Proof.
  destruct (missing_start_time_is_passed_over env_with_key
              (paged_wire sample_pages) fromisoformat_basic loads_page
              sample_cutoff (read_workout undated_doc) (or_introl eq_refl))
    as (H1 & _ & _ & H2 & _).
  split; [exact H1 |].
  exact (proj1 (H2 [read_workout fresh_doc] [read_workout boundary_doc] [])).
Defined.

(* ------------------------------------------------------------------ *)
(** ** The answer when nothing was kept *)

Lemma list_ascii_of_append (s t : string) :
  list_ascii_of_string (s +++ t)
  = list_ascii_of_string s ++ list_ascii_of_string t.
Proof. induction s as [| c s IH]; cbn; [reflexivity | now rewrite IH]. Qed.

Lemma single_line_append (s t : string) :
  single_line s -> single_line t -> single_line (s +++ t).
Proof.
  unfold single_line. intros Hs Ht c. rewrite list_ascii_of_append.
  intros H. apply in_app_or in H as [H | H]; auto.
Qed.

Lemma single_line_uint (d : Decimal.uint) :
  single_line (NilEmpty.string_of_uint d).
Proof.
  unfold single_line.
  induction d; cbn; intros c H;
    try (destruct H as [<- | H]; [discriminate | now apply IHd]).
  contradiction.
Qed.

Lemma single_line_str_of_Z (n : Z) : single_line (str_of_Z n).
Proof.
  unfold str_of_Z, NilZero.string_of_int, NilZero.string_of_uint.
  assert (U : forall d, single_line
                          match d with
                          | Decimal.Nil => "0"
                          | _ => NilEmpty.string_of_uint d
                          end).
  { intros d. destruct d; try apply single_line_uint.
    intros c [<- | []]. discriminate. }
  destruct (Z.to_int n) as [d | d]; [apply U |].
  intros c [<- | H]; [discriminate | now apply (U d)].
Qed.

Lemma no_workouts_message_single_line (days : Z) :
  single_line (no_workouts_message days).
Proof.
  unfold no_workouts_message.
  apply single_line_append; [| apply single_line_append].
  - intros c H. cbn in H.
    repeat (destruct H as [<- | H]; [discriminate |]). contradiction.
  - apply single_line_str_of_Z.
  - intros c H. cbn in H.
    repeat (destruct H as [<- | H]; [discriminate |]). contradiction.
Qed.

(** C5.  When the scan ends with no record kept, the tool returns the
    message "No workouts found in the last <days> days." and that alone:
    one line, whose text is not the header line of a summary. *)
Theorem nothing_kept_gives_the_no_activity_message :
  forall (environ : string -> option string)
         (wire : request -> result response) (now : Z)
         (fromisoformat : string -> result datetime)
         (loads : string -> result WorkoutsPage)
         (days : Z) (cutoff : datetime) (log : list request),
    cutoff_of now days = Ok cutoff ->
    run (fetch_pages environ wire fromisoformat loads cutoff (range 1 6) [])
      = (Ok [], log) ->
    run (analyze_recent_workouts environ wire now fromisoformat loads days)
      = (Ok ("No workouts found in the last " +++ str_of_Z days +++ " days."),
         log)
    /\ single_line
         ("No workouts found in the last " +++ str_of_Z days +++ " days.")
    /\ "No workouts found in the last " +++ str_of_Z days +++ " days."
       <> header_line days.
Proof.
  intros environ wire now fromisoformat loads days cutoff log Hcut Hrun.
  split; [| split].
  - rewrite (analyze_run environ wire now fromisoformat loads days cutoff Hcut).
    now rewrite Hrun.
  - apply no_workouts_message_single_line.
  - unfold header_line. cbn. discriminate.
Qed.

(** A server with no workout at all. *)
Lemma nothing_kept_gives_the_no_activity_message_witness :
  run (analyze_recent_workouts env_with_key (paged_wire []) sample_now
         fromisoformat_basic loads_page 7)
  = (Ok "No workouts found in the last 7 days.",
     [page_request sample_client 1]).
Proof.
  assert (Hcut : cutoff_of sample_now 7 = Ok sample_cutoff)
    by (vm_compute; reflexivity).
  assert (Hrun : run (fetch_pages env_with_key (paged_wire [])
                        fromisoformat_basic loads_page sample_cutoff
                        (range 1 6) [])
                 = (Ok [], [page_request sample_client 1]))
    by (vm_compute; reflexivity).
  exact (proj1 (nothing_kept_gives_the_no_activity_message env_with_key
                  (paged_wire []) sample_now fromisoformat_basic loads_page
                  7 sample_cutoff _ Hcut Hrun)).
Defined.

(* ------------------------------------------------------------------ *)
(** ** The API client *)

Section ClientFacts.

Variable environ : string -> option string.
Variable wire : request -> result response.

Lemma raise_for_status_failure (r : response) :
  status_code r < 200 \/ 299 < status_code r ->
  raise_for_status r = Raise (HTTPStatusError (status_code r) (content r)).
Proof.
  intros H. unfold raise_for_status, is_success.
  destruct (200 <=? status_code r) eqn:E1;
    destruct (status_code r <=? 299) eqn:E2; try reflexivity.
  apply Z.leb_le in E1. apply Z.leb_le in E2. exfalso. lia.
Qed.

Lemma raise_for_status_success (r : response) :
  200 <= status_code r <= 299 -> raise_for_status r = Ok r.
Proof.
  intros [H1 H2]. unfold raise_for_status, is_success.
  apply Z.leb_le in H1. apply Z.leb_le in H2. now rewrite H1, H2.
Qed.

(** A missing key: the client is never built. *)
Lemma get_client_without_key :
  environ "HEVY_API_KEY" = None \/ environ "HEVY_API_KEY" = Some EmptyString ->
  get_client environ = Raise (ValueError missing_key_message).
Proof. unfold get_client. intros [-> | ->]; reflexivity. Qed.

End ClientFacts.

(** C8.  Through a client that could be built, each of [api_get],
    [api_post], [api_put] and [api_delete] raises [HTTPStatusError] with
    the status (and the body) of the response when that status is outside
    200..299; and [api_delete] returns the dict [{"success": True}] for a
    2xx response with an empty body, whatever the JSON parser would have
    made of the empty text. *)
Theorem api_verbs_raise_on_non_2xx :
  forall (environ : string -> option string)
         (wire : request -> result response)
         (A : Type) (loads : string -> result A)
         (json_loads : string -> result json) (client : Client),
    get_client environ = Ok client ->
    (forall (p : string) (q : option (list (string * Z))) (data : json)
            (resp : response) (log : list request),
        status_code resp < 200 \/ 299 < status_code resp ->
        (wire (mk_request client GET p q None) = Ok resp ->
         api_get environ wire A loads p q log
         = (Raise (HTTPStatusError (status_code resp) (content resp)),
            log ++ [mk_request client GET p q None]))
        /\ (wire (mk_request client POST p None (Some data)) = Ok resp ->
            api_post environ wire A loads p data log
            = (Raise (HTTPStatusError (status_code resp) (content resp)),
               log ++ [mk_request client POST p None (Some data)]))
        /\ (wire (mk_request client PUT p None (Some data)) = Ok resp ->
            api_put environ wire A loads p data log
            = (Raise (HTTPStatusError (status_code resp) (content resp)),
               log ++ [mk_request client PUT p None (Some data)]))
        /\ (wire (mk_request client DELETE p None None) = Ok resp ->
            api_delete environ wire json_loads p log
            = (Raise (HTTPStatusError (status_code resp) (content resp)),
               log ++ [mk_request client DELETE p None None])))
    /\ (forall (p : string) (resp : response) (log : list request),
           wire (mk_request client DELETE p None None) = Ok resp ->
           200 <= status_code resp <= 299 ->
           content resp = EmptyString ->
           api_delete environ wire json_loads p log
           = (Ok (JDict [("success", JBool true)]),
              log ++ [mk_request client DELETE p None None])).
Proof.
  intros environ wire A loads json_loads client Hc. split.
  - intros p q data resp log Hbad.
    pose proof (raise_for_status_failure resp Hbad) as Hr.
    repeat split; intros Hw;
      unfold api_get, api_post, api_put, api_delete, bind, lift, send;
      rewrite Hc, Hw, Hr; reflexivity.
  - intros p resp log Hw Hok Hempty.
    pose proof (raise_for_status_success resp Hok) as Hr.
    unfold api_delete, bind, lift, send, has_content, ret.
    rewrite Hc, Hw, Hr, Hempty. reflexivity.
Qed.

(** A server that answers 404, and one that answers 204 with no body. *)
Lemma api_verbs_raise_on_non_2xx_witness :
  run (api_get env_with_key (constant_wire (mk_response 404 "Not found"))
         json json_loads_ref "/workouts/none" None)
  = (Raise (HTTPStatusError 404 "Not found"),
     [mk_request sample_client GET "/workouts/none" None None])
  /\ run (api_delete env_with_key (constant_wire (mk_response 204 EmptyString))
            json_loads_ref "/routine_folders/7")
     = (Ok (JDict [("success", JBool true)]),
        [mk_request sample_client DELETE "/routine_folders/7" None None]).
Proof.
  split.
  - destruct (api_verbs_raise_on_non_2xx env_with_key
                (constant_wire (mk_response 404 "Not found"))
                json json_loads_ref json_loads_ref sample_client eq_refl)
      as [H _].
    destruct (H "/workouts/none" None JNull (mk_response 404 "Not found") [])
      as (Hget & _); [right; cbn; lia |].
    exact (Hget eq_refl).
  - destruct (api_verbs_raise_on_non_2xx env_with_key
                (constant_wire (mk_response 204 EmptyString))
                json json_loads_ref json_loads_ref sample_client eq_refl)
      as [_ H].
    apply (H "/routine_folders/7" (mk_response 204 EmptyString) []);
      [reflexivity | cbn; lia | reflexivity].
Defined.

(* ------------------------------------------------------------------ *)
(** ** The total volume *)

Lemma add_positive_zero (t : float) :
  (t + 0)%float = t \/ (t = (-0)%float /\ (t + 0)%float = 0%float).
Proof.
  destruct (Prim2SF t) as [s | s | | s m e] eqn:E;
    try (left; apply Prim2SF_inj; rewrite add_spec, E; reflexivity).
  destruct s.
  - right.
    assert (t = (-0)%float) as ->
        by (apply Prim2SF_inj; rewrite E; reflexivity).
    split; reflexivity.
  - left. apply Prim2SF_inj. rewrite add_spec, E. reflexivity.
Qed.

Lemma add_negative_zero (t : float) : (t + -0)%float = t.
Proof.
  apply Prim2SF_inj. rewrite add_spec.
  change (Prim2SF (-0)) with (S754_zero true).
  destruct (Prim2SF t) as [s | s | | s m e]; try reflexivity.
  destruct s; reflexivity.
Qed.

(** Adding a zero leaves a total as it is, but for the sign of a zero
    total. *)
Lemma add_a_zero (t v : float) :
  v = 0%float \/ v = (-0)%float ->
  (t + v)%float = t \/ (t = (-0)%float /\ (t + v)%float = 0%float).
Proof.
  intros [-> | ->]; [apply add_positive_zero | left; apply add_negative_zero].
Qed.

Lemma zero_times_finite (y : float) :
  Volume.isfinite y = true ->
  (0 * y)%float = 0%float \/ (0 * y)%float = (-0)%float.
Proof.
  unfold Volume.isfinite. intros H.
  destruct (Prim2SF y) as [s | s | | s m e] eqn:E; try discriminate;
    (destruct s; [right | left]); apply Prim2SF_inj;
    rewrite mul_spec, E; reflexivity.
Qed.

Lemma finite_times_zero (x : float) :
  Volume.isfinite x = true ->
  (x * 0)%float = 0%float \/ (x * 0)%float = (-0)%float.
Proof.
  unfold Volume.isfinite. intros H.
  destruct (Prim2SF x) as [s | s | | s m e] eqn:E; try discriminate;
    (destruct s; [right | left]); apply Prim2SF_inj;
    rewrite mul_spec, E; reflexivity.
Qed.

(** What [x or 0] leaves: the value itself, or the [int] 0. *)
Lemma or_zero_cases (x : option Volume.number) :
  Volume.or_zero x = Volume.PyInt 0
  \/ x = Some (Volume.or_zero x).
Proof.
  destruct x as [v |]; cbn; [| now left].
  destruct (Volume.truthy v); [now right | now left].
Qed.

(** The loop body adds the product of the set, as a double. *)
Lemma count_set_adds_the_volume (total : float) (s : Volume.SetEntry) :
  Volume.count_set total s
  = let? volume := Volume.set_volume s in Ok (total + volume)%float.
Proof.
  unfold Volume.count_set, Volume.set_volume. cbn zeta.
  destruct (Volume.mul _ _) as [[n | y] | e]; cbn [rbind Volume.iadd Volume.to_float];
    [| reflexivity | reflexivity].
  destruct (Volume.float_of_int n); reflexivity.
Qed.

(** The product of a set with a factor missing, when the other one is
    not an infinite or NaN double: a zero. *)
Lemma set_volume_of_a_missing_factor (s : Volume.SetEntry) :
  Volume.weight_kg s = None \/ Volume.reps s = None ->
  Volume.finite_or_absent (Volume.weight_kg s) = true ->
  Volume.finite_or_absent (Volume.reps s) = true ->
  exists v : float,
    Volume.set_volume s = Ok v /\ (v = 0%float \/ v = (-0)%float).
Proof.
  destruct s as [w r]. cbn [Volume.weight_kg Volume.reps].
  unfold Volume.set_volume. cbn [Volume.weight_kg Volume.reps].
  intros [-> | ->] Hw Hr; cbn [Volume.or_zero].
  - destruct (or_zero_cases r) as [-> | Hv].
    + exists 0%float. split; [reflexivity | now left].
    + destruct (Volume.or_zero r) as [n | y].
      * exists 0%float. split; [reflexivity | now left].
      * subst r. cbn in Hr. exists (0 * y)%float.
        split; [reflexivity | now apply zero_times_finite].
  - destruct (or_zero_cases w) as [-> | Hv].
    + exists 0%float. split; [reflexivity | now left].
    + destruct (Volume.or_zero w) as [m | x].
      * exists 0%float. cbn [Volume.mul]. rewrite Z.mul_0_r.
        split; [reflexivity | now left].
      * subst w. cbn in Hw. exists (x * 0)%float.
        split; [reflexivity | now apply finite_times_zero].
Qed.

Lemma for_each_app {A : Type} (body : float -> A -> result float)
  (l1 l2 : list A) (total : float) :
  Volume.for_each body (l1 ++ l2) total
  = let? total' := Volume.for_each body l1 total in
    Volume.for_each body l2 total'.
Proof.
  revert total. induction l1 as [| x l1 IH]; intros total; cbn.
  - reflexivity.
  - destruct (body total x) as [t |]; cbn [rbind]; [apply IH | reflexivity].
Qed.

(** A loop over the lists of a list is a loop over their items. *)
Lemma for_each_flat_map {A B : Type} (body : float -> B -> result float)
  (f : A -> list B) (l : list A) (total : float) :
  Volume.for_each (fun t x => Volume.for_each body (f x) t) l total
  = Volume.for_each body (flat_map f l) total.
Proof.
  revert total. induction l as [| x l IH]; intros total; cbn.
  - reflexivity.
  - rewrite for_each_app.
    destruct (Volume.for_each body (f x) total); cbn [rbind];
      [apply IH | reflexivity].
Qed.

Lemma total_volume_over_the_sets (all_workouts : list Volume.Workout) :
  Volume.total_volume_kg all_workouts
  = Volume.for_each Volume.count_set (Volume.all_sets all_workouts) 0%float.
Proof.
  unfold Volume.total_volume_kg, Volume.all_sets, Volume.count_workout,
    Volume.count_exercise.
  rewrite <- !for_each_flat_map. reflexivity.
Qed.

Lemma add_volume_raised (sets : list Volume.SetEntry) (e : exn) :
  fold_left Volume.add_volume sets (Raise e) = Raise e.
Proof. induction sets as [| s sets IH]; cbn; [reflexivity | apply IH]. Qed.

Lemma for_each_count_set (sets : list Volume.SetEntry) (total : float) :
  Volume.for_each Volume.count_set sets total
  = fold_left Volume.add_volume sets (Ok total).
Proof.
  revert total. induction sets as [| s sets IH]; intros total; cbn.
  - reflexivity.
  - rewrite count_set_adds_the_volume.
    destruct (Volume.set_volume s) as [v | e]; cbn [rbind].
    + apply IH.
    + now rewrite add_volume_raised.
Qed.

Lemma add_volume_returned (sets : list Volume.SetEntry) (vs : list float)
  (total : float) :
  Forall2 (fun s v => Volume.set_volume s = Ok v) sets vs ->
  fold_left Volume.add_volume sets (Ok total)
  = Ok (fold_left PrimFloat.add vs total).
Proof.
  intros H. revert total.
  induction H as [| s v sets vs Hs _ IH]; intros total; cbn.
  - reflexivity.
  - rewrite Hs. cbn [rbind]. apply IH.
Qed.




(** The loop over the sets of an exercise entry leaves the counts alone. *)
Lemma count_sets_counts (sets : list SetEntry) (t : totals) :
  exercise_counts (fold_left count_set sets t) = exercise_counts t.
Proof.
  revert t. induction sets as [| s sets IH]; intros t; cbn [fold_left];
    [reflexivity | now rewrite IH].
Qed.

(* ------------------------------------------------------------------ *)
(** ** Lists in order *)

Section OrderFacts.

Context {A : Type}.
Variable R : A -> A -> Prop.

Lemma StronglySorted_nth (l : list A) :
  StronglySorted R l ->
  forall (i j : nat) (a b : A),
    (i < j)%nat -> nth_error l i = Some a -> nth_error l j = Some b -> R a b.
Proof.
  induction 1 as [| x l Hl IH Hx]; intros i j a b Hij Hi Hj.
  - destruct i; discriminate.
  - destruct j as [| j]; [lia |]. cbn in Hj.
    destruct i as [| i]; cbn in Hi.
    + injection Hi as <-. rewrite Forall_forall in Hx.
      apply Hx. eapply nth_error_In; eassumption.
    + apply (IH i j); [lia | assumption | assumption].
Qed.

Lemma StronglySorted_app_inv (l1 l2 : list A) :
  StronglySorted R (l1 ++ l2) ->
  StronglySorted R l1
  /\ StronglySorted R l2
  /\ (forall a b, In a l1 -> In b l2 -> R a b).
Proof.
  induction l1 as [| x l1 IH]; cbn; intros H.
  - repeat split; [constructor | assumption | intros a b []].
  - apply StronglySorted_inv in H as [H Hx].
    destruct (IH H) as (S1 & S2 & C).
    apply Forall_app in Hx as [Hx1 Hx2].
    repeat split.
    + constructor; assumption.
    + assumption.
    + intros a b [<- | Ha] Hb; [| now apply C].
      rewrite Forall_forall in Hx2. now apply Hx2.
Qed.

Lemma StronglySorted_firstn (n : nat) (l : list A) :
  StronglySorted R l -> StronglySorted R (firstn n l).
Proof.
  intros H. rewrite <- (firstn_skipn n l) in H.
  now apply StronglySorted_app_inv in H.
Qed.

Lemma StronglySorted_snoc (l : list A) (x : A) :
  StronglySorted R l -> Forall (fun a => R a x) l ->
  StronglySorted R (l ++ [x]).
Proof.
  induction 1 as [| y l Hl IH Hy]; intros Hx; cbn.
  - constructor; constructor.
  - apply Forall_cons_iff in Hx as [Hyx Hx].
    constructor; [now apply IH |].
    apply Forall_app. split; [assumption |]. now constructor.
Qed.

End OrderFacts.

Lemma StronglySorted_weaken {A : Type} (R S : A -> A -> Prop) (l : list A) :
  (forall a b, In a l -> In b l -> R a b -> S a b) ->
  StronglySorted R l -> StronglySorted S l.
Proof.
  intros H Hl. induction Hl as [| x l Hl IH Hx]; constructor.
  - apply IH. intros a b Ha Hb. apply H; now right.
  - rewrite Forall_forall in *. intros b Hb.
    apply H; [now left | now right | now apply Hx].
Qed.

Lemma StronglySorted_map {A B : Type} (f : A -> B) (R : B -> B -> Prop)
  (l : list A) :
  StronglySorted R (map f l) <-> StronglySorted (fun a b => R (f a) (f b)) l.
Proof.
  induction l as [| x l IH]; cbn.
  - split; constructor.
  - split; intros H; apply StronglySorted_inv in H as [H Hx];
      constructor; try now apply IH.
    + rewrite Forall_forall in *. intros a Ha. apply Hx. now apply in_map.
    + rewrite Forall_forall in *. intros b Hb.
      apply in_map_iff in Hb as (a & <- & Ha). now apply Hx.
Qed.

(* ------------------------------------------------------------------ *)
(** ** [sorted] is a stable sort *)

Section SortFacts.

Context {A : Type}.
Variable key : A -> Z.

Lemma insert_by_perm (x : A) (l : list A) :
  Permutation (insert_by key x l) (x :: l).
Proof.
  induction l as [| y l IH]; cbn.
  - reflexivity.
  - destruct (key x <=? key y); [reflexivity |].
    rewrite IH. apply perm_swap.
Qed.

Lemma sorted_perm (l : list A) : Permutation (sorted key l) l.
Proof.
  induction l as [| x l IH]; cbn.
  - reflexivity.
  - fold (sorted key l). rewrite insert_by_perm. now constructor.
Qed.

Variable R : A -> A -> Prop.

Lemma insert_by_stable (x : A) (l : list A) :
  StronglySorted (stable_order key R) l ->
  Forall (R x) l ->
  StronglySorted (stable_order key R) (insert_by key x l).
Proof.
  induction 1 as [| y l Hl IH Hy]; intros Hx; cbn.
  - constructor; constructor.
  - apply Forall_cons_iff in Hx as [Hxy Hx].
    destruct (key x <=? key y) eqn:E.
    + apply Z.leb_le in E. constructor.
      * now constructor.
      * constructor.
        -- split; [assumption | now intros _].
        -- rewrite Forall_forall in *. intros z Hz.
           destruct (Hy z Hz) as [Hyz _].
           split; [lia | intros _; now apply Hx].
    + apply Z.leb_gt in E. constructor.
      * now apply IH.
      * eapply Permutation_Forall;
          [apply Permutation_sym, insert_by_perm |].
        constructor; [| assumption].
        split; [lia | intros H; exfalso; lia].
Qed.

(** Elements of equal keys leave the sort in the order they came in. *)
Lemma sorted_stable (l : list A) :
  StronglySorted R l -> StronglySorted (stable_order key R) (sorted key l).
Proof.
  induction 1 as [| x l Hl IH Hx]; cbn.
  - constructor.
  - fold (sorted key l). apply insert_by_stable; [assumption |].
    eapply Permutation_Forall; [apply Permutation_sym, sorted_perm |].
    assumption.
Qed.

End SortFacts.

(* ------------------------------------------------------------------ *)
(** ** The dict of exercise counts *)

Section DictFacts.

Context {V : Type}.

Lemma dict_lookup_set (d : dict V) (k k' : string) (v : V) :
  dict_lookup (dict_set d k v) k'
  = if String.eqb k k' then Some v else dict_lookup d k'.
Proof.
  induction d as [| [k0 v0] d IH]; cbn.
  - reflexivity.
  - destruct (String.eqb k0 k) eqn:E0; cbn.
    + apply String.eqb_eq in E0. subst k0.
      destruct (String.eqb k k'); reflexivity.
    + destruct (String.eqb k0 k') eqn:E1; [| exact IH].
      apply String.eqb_eq in E1. subst k0.
      rewrite String.eqb_sym in E0. now rewrite E0.
Qed.

Lemma dict_lookup_None (d : dict V) (k : string) :
  dict_lookup d k = None <-> ~ In k (map fst d).
Proof.
  induction d as [| [k0 v0] d IH]; cbn.
  - tauto.
  - destruct (String.eqb k0 k) eqn:E.
    + apply String.eqb_eq in E. split; [discriminate | tauto].
    + apply String.eqb_neq in E. rewrite IH. tauto.
Qed.

Lemma dict_lookup_In (d : dict V) (k : string) (v : V) :
  dict_lookup d k = Some v -> In (k, v) d.
Proof.
  induction d as [| [k0 v0] d IH]; cbn; [discriminate |].
  destruct (String.eqb k0 k) eqn:E.
  - apply String.eqb_eq in E. intros [= ->]. left. now subst.
  - intros H. right. now apply IH.
Qed.

Lemma dict_In_lookup (d : dict V) (k : string) (v : V) :
  NoDup (map fst d) -> In (k, v) d -> dict_lookup d k = Some v.
Proof.
  induction d as [| [k0 v0] d IH]; cbn; [tauto |].
  intros Hnd [H | H].
  - injection H as -> ->. now rewrite String.eqb_refl.
  - apply NoDup_cons_iff in Hnd as [Hk Hnd].
    destruct (String.eqb k0 k) eqn:E; [| now apply IH].
    apply String.eqb_eq in E. subst k0. exfalso. apply Hk.
    change k with (fst (k, v)). now apply in_map.
Qed.

Lemma dict_set_keys (d : dict V) (k : string) (v : V) :
  map fst (dict_set d k v)
  = match dict_lookup d k with
    | Some _ => map fst d
    | None => map fst d ++ [k]
    end.
Proof.
  induction d as [| [k0 v0] d IH]; cbn.
  - reflexivity.
  - destruct (String.eqb k0 k) eqn:E; cbn; [reflexivity |].
    rewrite IH. now destruct (dict_lookup d k).
Qed.

End DictFacts.

Lemma first_seen_app_in (k : string) (l l' : list string) :
  In k l -> first_seen k (l ++ l') = first_seen k l.
Proof.
  induction l as [| x l IH]; cbn; [tauto |].
  intros H. destruct (String.eqb x k) eqn:E; [reflexivity |].
  apply String.eqb_neq in E. f_equal. apply IH. now destruct H.
Qed.

Lemma first_seen_app_new (k : string) (l : list string) :
  ~ In k l -> first_seen k (l ++ [k]) = List.length l.
Proof.
  induction l as [| x l IH]; cbn; intros H.
  - now rewrite String.eqb_refl.
  - destruct (String.eqb x k) eqn:E.
    + apply String.eqb_eq in E. tauto.
    + f_equal. apply IH. tauto.
Qed.

Lemma first_seen_lt (k : string) (l : list string) :
  In k l -> (first_seen k l < List.length l)%nat.
Proof.
  induction l as [| x l IH]; cbn; [tauto |].
  intros H. destruct (String.eqb x k) eqn:E; [lia |].
  apply String.eqb_neq in E. apply -> Nat.succ_lt_mono. apply IH.
  now destruct H.
Qed.

Lemma occurrences_snoc (k t : string) (l : list string) :
  occurrences k (l ++ [t])
  = occurrences k l + (if String.eqb t k then 1 else 0).
Proof.
  unfold occurrences. rewrite count_occ_app. cbn.
  destruct (string_dec t k) as [-> | N].
  - rewrite String.eqb_refl. lia.
  - apply String.eqb_neq in N. rewrite N. lia.
Qed.

Lemma occurrences_pos (k : string) (l : list string) :
  0 < occurrences k l <-> In k l.
Proof.
  unfold occurrences. rewrite (count_occ_In string_dec). lia.
Qed.

Lemma occurrences_nonneg (k : string) (l : list string) :
  0 <= occurrences k l.
Proof. unfold occurrences. lia. Qed.

(** The dict after the titles [l] were counted one by one. *)
Lemma tally_snoc (l : list string) (t : string) (d : dict Z) :
  fold_left bump (l ++ [t]) d = bump (fold_left bump l d) t.
Proof. now rewrite fold_left_app. Qed.

Lemma bump_lookup (d : dict Z) (t k : string) :
  dict_lookup (bump d t) k
  = if String.eqb t k then Some (dict_get d t 0 + 1) else dict_lookup d k.
Proof. apply dict_lookup_set. Qed.

Lemma bump_keys (d : dict Z) (t : string) :
  map fst (bump d t)
  = match dict_lookup d t with
    | Some _ => map fst d
    | None => map fst d ++ [t]
    end.
Proof. apply dict_set_keys. Qed.

Lemma tally_lookup (l : list string) (k : string) :
  dict_lookup (fold_left bump l []) k
  = if occurrences k l =? 0 then None else Some (occurrences k l).
Proof.
  induction l as [| t l IH] using rev_ind.
  - reflexivity.
  - rewrite tally_snoc, bump_lookup, occurrences_snoc.
    pose proof (occurrences_nonneg k l) as Hk.
    destruct (String.eqb t k) eqn:E.
    + apply String.eqb_eq in E. subst t. unfold dict_get. rewrite IH.
      destruct (occurrences k l =? 0) eqn:E0; cbn [get_or].
      * apply Z.eqb_eq in E0. rewrite E0. reflexivity.
      * destruct (occurrences k l + 1 =? 0) eqn:E1; [| reflexivity].
        apply Z.eqb_eq in E1. lia.
    + rewrite IH, Z.add_0_r. reflexivity.
Qed.

Lemma tally_get (l : list string) (k : string) :
  dict_get (fold_left bump l []) k 0 = occurrences k l.
Proof.
  unfold dict_get. rewrite tally_lookup.
  destruct (occurrences k l =? 0) eqn:E; cbn; [| reflexivity].
  apply Z.eqb_eq in E. now rewrite E.
Qed.

Lemma tally_keys (l : list string) (k : string) :
  In k (map fst (fold_left bump l [])) <-> In k l.
Proof.
  rewrite <- (occurrences_pos k l).
  pose proof (dict_lookup_None (fold_left bump l []) k) as H.
  rewrite tally_lookup in H.
  pose proof (occurrences_nonneg k l) as Hk.
  destruct (occurrences k l =? 0) eqn:E.
  - apply Z.eqb_eq in E. split; [| lia].
    intros Hin. exfalso. now apply (proj1 H).
  - apply Z.eqb_neq in E. split; [lia |]. intros _.
    destruct (in_dec string_dec k (map fst (fold_left bump l [])));
      [assumption |].
    exfalso. apply (proj2 H) in n. discriminate.
Qed.

Lemma tally_nodup (l : list string) :
  NoDup (map fst (fold_left bump l [])).
Proof.
  induction l as [| t l IH] using rev_ind.
  - constructor.
  - rewrite tally_snoc, bump_keys.
    destruct (dict_lookup (fold_left bump l []) t) eqn:E; [assumption |].
    apply dict_lookup_None in E.
    apply (Permutation_NoDup (Permutation_cons_append _ t)).
    now constructor.
Qed.

(** The items of the dict stand in the order their titles were first
    seen. *)
Lemma tally_order (l : list string) :
  StronglySorted (fun a b => (first_seen a l < first_seen b l)%nat)
                 (map fst (fold_left bump l [])).
Proof.
  induction l as [| t l IH] using rev_ind.
  - constructor.
  - rewrite tally_snoc, bump_keys.
    assert (Old : StronglySorted
                    (fun a b => (first_seen a (l ++ [t])
                                 < first_seen b (l ++ [t]))%nat)
                    (map fst (fold_left bump l []))).
    { apply (StronglySorted_weaken
               (fun a b => (first_seen a l < first_seen b l)%nat));
        [| assumption].
      intros a b Ha Hb.
      apply (proj1 (tally_keys l a)) in Ha.
      apply (proj1 (tally_keys l b)) in Hb.
      now rewrite !first_seen_app_in by assumption. }
    destruct (dict_lookup (fold_left bump l []) t) eqn:E; [assumption |].
    apply dict_lookup_None in E.
    apply StronglySorted_snoc; [assumption |].
    apply Forall_forall. intros a Ha.
    assert (Hnew : ~ In t l) by (now rewrite <- tally_keys).
    apply (proj1 (tally_keys l a)) in Ha.
    rewrite first_seen_app_in by assumption.
    rewrite first_seen_app_new by assumption.
    now apply first_seen_lt.
Qed.

(** The counting of the summary is that tally. *)
Lemma count_exercise_counts (t : totals) (ex : ExerciseEntry) :
  exercise_counts (count_exercise t ex)
  = bump (exercise_counts t) (get_or (ex_title ex) "Unknown").
Proof. unfold count_exercise. now rewrite count_sets_counts. Qed.

Lemma count_exercises_counts (exs : list ExerciseEntry) (t : totals) :
  exercise_counts (fold_left count_exercise exs t)
  = fold_left bump (map (fun ex => get_or (ex_title ex) "Unknown") exs)
              (exercise_counts t).
Proof.
  revert t. induction exs as [| ex exs IH]; intros t; cbn [fold_left map].
  - reflexivity.
  - now rewrite IH, count_exercise_counts.
Qed.

Lemma count_workouts_counts (ws : list Workout) (t : totals) :
  exercise_counts (fold_left count_workout ws t)
  = fold_left bump (exercise_titles ws) (exercise_counts t).
Proof.
  revert t. induction ws as [| w ws IH]; intros t; cbn [fold_left].
  - reflexivity.
  - rewrite IH. unfold count_workout. rewrite count_exercises_counts.
    unfold exercise_titles, exercise_entries. cbn [flat_map].
    now rewrite map_app, fold_left_app.
Qed.

Lemma summarize_counts (ws : list Workout) :
  exercise_counts (summarize ws) = fold_left bump (exercise_titles ws) [].
Proof. unfold summarize. now rewrite count_workouts_counts. Qed.

(** C4.  The listing under "Most frequent exercises" is
    [most_frequent] of the counts.  Each exercise entry of a kept workout
    adds exactly one to the count of its title, whatever its sets, so
    the count of a title is the number of entries that bear it.  The
    listing has at most ten items, in descending order of count, items
    of equal count in the order their titles were first seen; the items
    left out follow the listed ones in that same order. *)
Theorem most_frequent_is_a_stable_top_ten :
  forall all_workouts : list Workout,
    let titles := exercise_titles all_workouts in
    let counts := exercise_counts (summarize all_workouts) in
    let listing := most_frequent counts in
    (truthy_list counts = true ->
     frequency_section counts
     = [EmptyString; "**Most frequent exercises:**"]
         ++ map frequency_line listing)
    /\ (forall (t : totals) (ex : ExerciseEntry) (k : string),
           dict_get (exercise_counts (count_exercise t ex)) k 0
           = dict_get (exercise_counts t) k 0
             + (if String.eqb (get_or (ex_title ex) "Unknown") k
                then 1 else 0))
    /\ (forall k : string, dict_get counts k 0 = occurrences k titles)
    /\ (forall (k : string) (c : Z),
           In (k, c) listing -> c = occurrences k titles /\ 0 < c)
    /\ (List.length listing <= 10)%nat
    /\ (forall (i j : nat) (a b : string * Z),
           (i < j)%nat ->
           nth_error listing i = Some a -> nth_error listing j = Some b ->
           snd b <= snd a
           /\ (snd a = snd b ->
               (first_seen (fst a) titles < first_seen (fst b) titles)%nat))
    /\ (exists rest : list (string * Z),
           Permutation (listing ++ rest) counts
           /\ (forall a b : string * Z,
                  In a listing -> In b rest ->
                  snd b <= snd a
                  /\ (snd a = snd b ->
                      (first_seen (fst a) titles
                       < first_seen (fst b) titles)%nat))).
Proof.
  intros all_workouts titles counts listing.
  assert (Hcounts : counts = fold_left bump titles [])
    by apply summarize_counts.
  set (R := fun a b : string * Z =>
              (first_seen (fst a) titles < first_seen (fst b) titles)%nat).
  set (key := fun x : string * Z => - snd x).
  assert (Hsorted : StronglySorted (stable_order key R) (sorted key counts)).
  { apply sorted_stable.
    apply (proj1 (StronglySorted_map fst
                    (fun a b => (first_seen a titles
                                 < first_seen b titles)%nat) counts)).
    rewrite Hcounts. apply tally_order. }
  assert (Hsplit : listing ++ skipn 10 (sorted key counts)
                   = sorted key counts) by apply firstn_skipn.
  assert (Hdesc : forall a b, stable_order key R a b ->
                    snd b <= snd a
                    /\ (snd a = snd b ->
                        (first_seen (fst a) titles
                         < first_seen (fst b) titles)%nat)).
  { intros a b [H1 H2]. unfold key in *. split; [lia |].
    intros E. apply H2. lia. }
  assert (Hperm : Permutation (listing ++ skipn 10 (sorted key counts))
                              counts).
  { rewrite Hsplit. apply sorted_perm. }
  split; [| split; [| split; [| split; [| split; [| split]]]]].
  - intros Hne. unfold frequency_section. now rewrite Hne.
  - intros t ex k. rewrite count_exercise_counts. unfold dict_get at 1.
    rewrite bump_lookup.
    destruct (String.eqb (get_or (ex_title ex) "Unknown") k) eqn:E.
    + apply String.eqb_eq in E. now subst k.
    + unfold dict_get. lia.
  - intros k. rewrite Hcounts. apply tally_get.
  - intros k c Hin.
    assert (Hc : In (k, c) counts).
    { apply (Permutation_in _ Hperm). apply in_or_app. now left. }
    rewrite Hcounts in Hc.
    apply (dict_In_lookup _ _ _ (tally_nodup titles)) in Hc.
    rewrite tally_lookup in Hc.
    pose proof (occurrences_nonneg k titles) as Hk.
    destruct (occurrences k titles =? 0) eqn:E; [discriminate |].
    apply Z.eqb_neq in E. injection Hc as <-. split; [reflexivity | lia].
  - apply firstn_le_length.
  - intros i j a b Hij Hi Hj. apply Hdesc.
    apply (StronglySorted_nth (stable_order key R) listing) with i j;
      try assumption.
    now apply StronglySorted_firstn.
  - exists (skipn 10 (sorted key counts)). split; [exact Hperm |].
    intros a b Ha Hb. apply Hdesc.
    rewrite <- Hsplit in Hsorted.
    now apply (StronglySorted_app_inv _ _ _ Hsorted).
Qed.

(** The three kept records of the sample server: Bench twice, Dips and
    Row once each, Dips seen before Row. *)
Lemma most_frequent_is_a_stable_top_ten_witness :
  most_frequent
    (exercise_counts
       (summarize (map read_workout [fresh_doc; boundary_doc; late_doc])))
  = [("Bench", 2); ("Dips", 1); ("Row", 1)]
  /\ (forall k c,
         In (k, c)
            (most_frequent
               (exercise_counts
                  (summarize
                     (map read_workout [fresh_doc; boundary_doc; late_doc]))))
         -> 0 < c).
Proof.
  split; [reflexivity |].
  intros k c H.
  destruct (most_frequent_is_a_stable_top_ten
              (map read_workout [fresh_doc; boundary_doc; late_doc]))
    as (_ & _ & _ & Hc & _).
  exact (proj2 (Hc k c H)).
Defined.

(* ------------------------------------------------------------------ *)
(** ** The pass-through tools *)

Section ToolFacts.

Variable environ : string -> option string.
Variable wire : request -> result response.
Variable json_loads : string -> result json.
Variable json_dumps : json -> Z -> string.

(** Each pass-through tool is one [api_get] followed by [json.dumps]
    with [indent=2]. *)
Lemma call_passthrough_run (t : passthrough) (client : Client) :
  get_client environ = Ok client ->
  run (call_passthrough environ wire json_loads json_dumps t)
  = (let? resp := wire (passthrough_request client t) in
     let? _ := raise_for_status resp in
     let? data := json_loads (content resp) in
     Ok (json_dumps data 2),
     [passthrough_request client t]).
Proof.
  intros Hc.
  destruct t; unfold run; cbn [call_passthrough passthrough_request];
    unfold get_workouts, get_workout_count, get_workout, get_routines,
      get_routine, get_exercise_templates, get_exercise_template,
      get_routine_folders, get_routine_folder, api_get, response_json,
      bind, lift, send, ret;
    rewrite Hc; cbn [app];
    (destruct (wire _) as [resp | e]; [| reflexivity]);
    cbn [rbind];
    (destruct (raise_for_status resp) as [r | e]; [| reflexivity]);
    cbn [rbind];
    (destruct (json_loads (content resp)) as [data | e]; reflexivity).
Qed.

End ToolFacts.

(** X23.  A pass-through tool whose request is answered 2xx with a body
    that parses to the document [data] sends that one request and
    returns the text [json.dumps(data, indent=2)]: the document goes to
    the writer as it came from the reader, nothing added to it and
    nothing taken from it. *)
Theorem passthrough_tools_return_the_upstream_document_written_out :
  forall (environ : string -> option string)
         (wire : request -> result response)
         (json_loads : string -> result json)
         (json_dumps : json -> Z -> string)
         (t : passthrough) (client : Client) (resp : response) (data : json),
    get_client environ = Ok client ->
    wire (passthrough_request client t) = Ok resp ->
    200 <= status_code resp <= 299 ->
    json_loads (content resp) = Ok data ->
    run (call_passthrough environ wire json_loads json_dumps t)
    = (Ok (json_dumps data 2), [passthrough_request client t]).
Proof.
  intros environ wire json_loads json_dumps t client resp data
    Hc Hw Hok Hdata.
  rewrite (call_passthrough_run environ wire json_loads json_dumps t client Hc).
  rewrite Hw. cbn [rbind].
  rewrite (raise_for_status_success resp Hok). cbn [rbind].
  now rewrite Hdata.
Qed.

(** [get_workout] against a server that answers with the text of the
    sample record, through the reader and the writer of the examples. *)
Lemma passthrough_tools_return_the_upstream_document_written_out_witness :
  run (get_workout env_with_key
         (constant_wire (mk_response 200 (json_dumps_ref fresh_doc 0)))
         json_loads_ref json_dumps_ref "b459")
  = (Ok (json_dumps_ref fresh_doc 2),
     [mk_request sample_client GET "/workouts/b459" None None]).
Proof.
  apply (passthrough_tools_return_the_upstream_document_written_out
           env_with_key
           (constant_wire (mk_response 200 (json_dumps_ref fresh_doc 0)))
           json_loads_ref json_dumps_ref (GetWorkout "b459") sample_client
           (mk_response 200 (json_dumps_ref fresh_doc 0)) fresh_doc).
  - reflexivity.
  - reflexivity.
  - cbn; lia.
  - vm_compute; reflexivity.
Defined.

(* ------------------------------------------------------------------ *)
(** ** The writing tools *)

Section WritingFacts.

Variable environ : string -> option string.
Variable wire : request -> result response.
Variable json_loads : string -> result json.
Variable json_dumps : json -> Z -> string.

(** A writing tool, spelled out on the log: the [exercises] text is
    read first, then the verb of the API client runs. *)
Lemma call_writing_run (t : writing) :
  run (call_writing environ wire json_loads json_dumps t) =
  match json_loads (exercises_text t) with
  | Raise e => (Raise e, [])
  | Ok exercises_data =>
      match get_client environ with
      | Raise e => (Raise e, [])
      | Ok client =>
          let req := writing_request client exercises_data t in
          (let? data := exchange_json wire json_loads req in
           Ok (json_dumps data 2),
           [req])
      end
  end.
Proof.
  destruct t; unfold run; cbn [call_writing exercises_text];
    unfold create_workout, update_workout, create_routine, update_routine,
      api_post, api_put, bind, lift, send, ret, exchange_json, response_json;
    (destruct (json_loads _) as [exercises_data | e]; [| reflexivity]);
    (destruct (get_client environ) as [client | e]; [| reflexivity]);
    cbn [app writing_request writing_verb writing_path writing_payload];
    (destruct (wire _) as [r | e]; [| reflexivity]);
    cbn [rbind];
    (destruct (raise_for_status r) as [r' | e]; [| reflexivity]);
    cbn [rbind];
    (destruct (json_loads (content r)) as [data | e]; reflexivity).
Qed.

Lemma call_folder_writing_run (t : folder_writing) :
  run (call_folder_writing environ wire json_loads json_dumps t) =
  match get_client environ with
  | Raise e => (Raise e, [])
  | Ok client =>
      let req := folder_writing_request client t in
      (let? data := exchange_json wire json_loads req in
       Ok (json_dumps data 2),
       [req])
  end.
Proof.
  destruct t; unfold run; cbn [call_folder_writing];
    unfold create_routine_folder, update_routine_folder,
      api_post, api_put, bind, lift, send, ret, exchange_json, response_json;
    (destruct (get_client environ) as [client | e]; [| reflexivity]);
    cbn [app folder_writing_request];
    (destruct (wire _) as [r | e]; [| reflexivity]);
    cbn [rbind];
    (destruct (raise_for_status r) as [r' | e]; [| reflexivity]);
    cbn [rbind];
    (destruct (json_loads (content r)) as [data | e]; reflexivity).
Qed.

Lemma call_passthrough_exchange (t : passthrough) :
  run (call_passthrough environ wire json_loads json_dumps t) =
  match get_client environ with
  | Raise e => (Raise e, [])
  | Ok client =>
      let req := passthrough_request client t in
      (let? data := exchange_json wire json_loads req in
       Ok (json_dumps data 2),
       [req])
  end.
Proof.
  destruct (get_client environ) as [client | e] eqn:Hc.
  - rewrite (call_passthrough_run environ wire json_loads json_dumps t client Hc).
    unfold exchange_json. cbn zeta.
    destruct (wire _) as [r | e]; [| reflexivity]. cbn [rbind].
    destruct (raise_for_status r) as [r' | e]; [| reflexivity]. cbn [rbind].
    destruct (json_loads (content r)) as [data | e]; reflexivity.
  - destruct t; unfold run; cbn [call_passthrough];
      unfold get_workouts, get_workout_count, get_workout, get_routines,
        get_routine, get_exercise_templates, get_exercise_template,
        get_routine_folders, get_routine_folder, api_get, bind, lift;
      now rewrite Hc.
Qed.

Lemma delete_routine_folder_run (folder_id : Z) :
  run (delete_routine_folder environ wire json_loads json_dumps folder_id) =
  match get_client environ with
  | Raise e => (Raise e, [])
  | Ok client =>
      let req := delete_request client folder_id in
      (let? r := wire req in
       let? _ := raise_for_status r in
       let? data := (if has_content r then json_loads (content r)
                     else Ok success_marker) in
       Ok (json_dumps data 2),
       [req])
  end.
Proof.
  unfold run, delete_routine_folder, api_delete, bind, lift, send, ret,
    response_json.
  destruct (get_client environ) as [client | e]; [| reflexivity].
  cbn [app delete_request].
  destruct (wire _) as [r | e]; [| reflexivity]. cbn [rbind].
  destruct (raise_for_status r) as [r' | e]; [| reflexivity]. cbn [rbind].
  destruct (has_content r); [| reflexivity].
  destruct (json_loads (content r)) as [data | e]; reflexivity.
Qed.

End WritingFacts.

(** C6 (amended).  In the Hevy server an unset or empty [HEVY_API_KEY]
    makes every verb of the API client and every one of the seventeen
    tools raise with nothing sent.  What is raised is the [ValueError] of
    [get_client], which names the variable, unless the tool fails on its
    own arguments before it reaches the client: a writing tool whose
    [exercises] text [json.loads] refuses raises the decode error, and
    [analyze_recent_workouts] raises what the computation of its cutoff
    raises.  The Strava server has no such check: [get_strava_activities]
    calls [get_activities] of the library, which fetches from the Strava
    API, and nothing before it, on a client built with whatever
    [os.getenv] returned for the token. *)
Theorem hevy_fails_before_the_network_without_a_key :
  forall (environ : string -> option string)
         (wire : request -> result response),
    (environ "HEVY_API_KEY" = None
     \/ environ "HEVY_API_KEY" = Some EmptyString ->
     (forall (A : Type) (loads : string -> result A) (p : string)
             (q : option (list (string * Z))) (data : json)
             (log : list request),
         api_get environ wire A loads p q log
           = (Raise (ValueError missing_key_message), log)
         /\ api_post environ wire A loads p data log
            = (Raise (ValueError missing_key_message), log)
         /\ api_put environ wire A loads p data log
            = (Raise (ValueError missing_key_message), log))
     /\ (forall (json_loads : string -> result json) (p : string)
                (log : list request),
            api_delete environ wire json_loads p log
            = (Raise (ValueError missing_key_message), log))
     /\ (forall (json_loads : string -> result json)
                (json_dumps : json -> Z -> string),
            (forall t : passthrough,
                run (call_passthrough environ wire json_loads json_dumps t)
                = (Raise (ValueError missing_key_message), []))
            /\ (forall t : folder_writing,
                   run (call_folder_writing environ wire json_loads json_dumps
                          t)
                   = (Raise (ValueError missing_key_message), []))
            /\ (forall folder_id : Z,
                   run (delete_routine_folder environ wire json_loads
                          json_dumps folder_id)
                   = (Raise (ValueError missing_key_message), []))
            /\ (forall t : writing,
                   run (call_writing environ wire json_loads json_dumps t)
                   = (Raise match json_loads (exercises_text t) with
                            | Ok _ => ValueError missing_key_message
                            | Raise e => e
                            end,
                      [])))
     /\ (forall (now : Z) (fromisoformat : string -> result datetime)
                (loads : string -> result WorkoutsPage) (days : Z),
            run (analyze_recent_workouts environ wire now fromisoformat loads
                   days)
            = (Raise match cutoff_of now days with
                     | Ok _ => ValueError missing_key_message
                     | Raise e => e
                     end,
               [])))
    /\ (forall (lib : StravaLibrary) (py : Interpreter)
               (arguments : dict json),
           snd (run_L (StravaServer.call_tool environ lib py
                         "get_strava_activities" arguments))
           = [GetActivities
                (mk_strava_client (environ "STRAVA_ACCESS_TOKEN"))
                (dict_get arguments "limit" (JInt 10))]).
Proof.
  intros environ wire. split.
  - intros Hkey.
    pose proof (get_client_without_key environ Hkey) as Hc.
    split; [| split; [| split]].
    + intros A loads p q data log.
      repeat split; unfold api_get, api_post, api_put, bind, lift;
        now rewrite Hc.
    + intros json_loads p log. unfold api_delete, bind, lift. now rewrite Hc.
    + intros json_loads json_dumps. split; [| split; [| split]].
      * intros t. now rewrite call_passthrough_exchange, Hc.
      * intros t. now rewrite call_folder_writing_run, Hc.
      * intros folder_id. now rewrite delete_routine_folder_run, Hc.
      * intros t. rewrite call_writing_run, Hc.
        destruct (json_loads (exercises_text t)); reflexivity.
    + intros now fromisoformat loads days.
      destruct (cutoff_of now days) as [cutoff | e] eqn:Hcut.
      * rewrite (analyze_run environ wire now fromisoformat loads days
                   cutoff Hcut).
        unfold run. rewrite (range_cons 1 6) by lia.
        now rewrite fetch_pages_turn, Hc.
      * apply (analyze_no_cutoff environ wire now fromisoformat loads days
                 e Hcut).
  - intros lib py arguments. unfold StravaServer.call_tool.
    change (String.eqb "get_strava_activities" "get_strava_activities")
      with true.
    cbn iota. unfold run_L, bind_L, call, lift_L, unit_L, _strava_client.
    cbn [app].
    destruct (lib_get_activities lib _ _) as [s | e]; [| reflexivity].
    destruct (collect _ _ _ _); reflexivity.
Qed.

(** An environment with nothing set: [get_workout] fails at once on the
    key, and so does [update_routine] when its [exercises] text reads;
    when it does not, [update_routine] fails on the text. *)
Lemma hevy_fails_before_the_network_without_a_key_witness :
  run (call_passthrough env_empty (paged_wire sample_pages) json_loads_ref
         json_dumps_ref (GetWorkout "b459"))
  = (Raise (ValueError missing_key_message), [])
  /\ run (call_writing env_empty (paged_wire sample_pages) json_loads_ref
            json_dumps_ref (UpdateRoutine "r1" "Push A" "[]" None EmptyString))
     = (Raise (ValueError missing_key_message), [])
  /\ run (call_writing env_empty (paged_wire sample_pages) json_loads_ref
            json_dumps_ref (UpdateRoutine "r1" "Push A" "[{" None EmptyString))
     = (Raise (JSONDecodeError "Expecting value"), []).
Proof.
  destruct (hevy_fails_before_the_network_without_a_key env_empty
              (paged_wire sample_pages)) as [H _].
  destruct (H (or_introl eq_refl)) as (_ & _ & Htools & _).
  destruct (Htools json_loads_ref json_dumps_ref)
    as (Hread & _ & _ & Hwrite).
  split; [exact (Hread (GetWorkout "b459")) |].
  split.
  - exact (Hwrite (UpdateRoutine "r1" "Push A" "[]" None EmptyString)).
  - exact (Hwrite (UpdateRoutine "r1" "Push A" "[{" None EmptyString)).
Defined.

(** C6, as stated, fails for the Strava server: with no variable set,
    [get_strava_activities] goes to the library with a client that has no
    token, and the tool fails only on what comes back -- here the
    refusal of the server, which the iterator raises. *)
Lemma strava_asks_for_activities_without_a_token :
  run_L (StravaServer.call_tool env_empty
           (sample_library
              (mk_stream [] (Some (HTTPStatusError 401 "Unauthorized"))))
           sample_interpreter "get_strava_activities" [])
  = (Raised (Other (HTTPStatusError 401 "Unauthorized")),
     [GetActivities (mk_strava_client None) (JInt 10)]).
Proof. reflexivity. Qed.

(** X1.  A writing tool reads its [exercises] text before anything else, and
    builds its client before it sends: a text [json.loads] refuses makes
    the tool raise the decode error with nothing sent, whether or not the
    key is set; a text that reads, without a key, makes it raise the
    [ValueError] of [get_client] with nothing sent. *)
Theorem writing_tools_check_before_sending :
  forall (environ : string -> option string)
         (wire : request -> result response)
         (json_loads : string -> result json)
         (json_dumps : json -> Z -> string) (t : writing),
    (forall e : exn,
        json_loads (exercises_text t) = Raise e ->
        run (call_writing environ wire json_loads json_dumps t)
        = (Raise e, []))
    /\ (forall exercises_data : json,
           json_loads (exercises_text t) = Ok exercises_data ->
           environ "HEVY_API_KEY" = None
           \/ environ "HEVY_API_KEY" = Some EmptyString ->
           run (call_writing environ wire json_loads json_dumps t)
           = (Raise (ValueError missing_key_message), [])).
Proof.
  intros environ wire json_loads json_dumps t. split.
  - intros e He. now rewrite call_writing_run, He.
  - intros exercises_data Hx Hkey.
    now rewrite call_writing_run, Hx, (get_client_without_key environ Hkey).
Qed.

(** [create_routine] on a text cut short, with the key set; and
    [update_workout] on a good text, with no key. *)
Lemma writing_tools_check_before_sending_witness :
  run (call_writing env_with_key (constant_wire (mk_response 200 "{}"))
         json_loads_ref json_dumps_ref
         (CreateRoutine "Push A" "[{" (Some 7) EmptyString))
  = (Raise (JSONDecodeError "Expecting value"), [])
  /\ run (call_writing env_empty (constant_wire (mk_response 200 "{}"))
            json_loads_ref json_dumps_ref
            (UpdateWorkout "b459" "Push" "2024-01-19T09:00:00Z"
               "2024-01-19T10:00:00Z" "[]" EmptyString))
     = (Raise (ValueError missing_key_message), []).
Proof.
  split.
  - apply (proj1 (writing_tools_check_before_sending env_with_key
                    (constant_wire (mk_response 200 "{}"))
                    json_loads_ref json_dumps_ref
                    (CreateRoutine "Push A" "[{" (Some 7) EmptyString))).
    vm_compute; reflexivity.
  - apply (proj2 (writing_tools_check_before_sending env_empty
                    (constant_wire (mk_response 200 "{}"))
                    json_loads_ref json_dumps_ref
                    (UpdateWorkout "b459" "Push" "2024-01-19T09:00:00Z"
                       "2024-01-19T10:00:00Z" "[]" EmptyString))
             (JList [])).
    + vm_compute; reflexivity.
    + left; reflexivity.
Defined.

(** X2.  With a key and an [exercises] text that reads, a writing tool sends
    one request: [POST] to the collection or [PUT] to the item, with no
    query, and a body that holds, under the tool's key, the [str]
    arguments under their names, then the document the text denotes
    under ["exercises"], unchanged, then [folder_id] when one is given
    ([0] included) and no such key otherwise. *)
Theorem writing_tools_send_what_they_were_given :
  forall (environ : string -> option string)
         (wire : request -> result response)
         (json_loads : string -> result json)
         (json_dumps : json -> Z -> string)
         (t : writing) (client : Client) (exercises_data : json),
    json_loads (exercises_text t) = Ok exercises_data ->
    get_client environ = Ok client ->
    exists req : request,
      snd (run (call_writing environ wire json_loads json_dumps t)) = [req]
      /\ via req = client
      /\ method req = writing_verb t
      /\ path req = writing_path t
      /\ params req = None
      /\ body_keys req (writing_key t)
         = map fst (writing_fields t)
             ++ "exercises"
             :: match writing_folder t with
                | Some _ => ["folder_id"]
                | None => []
                end
      /\ (forall k v : string,
             In (k, v) (writing_fields t) ->
             body_entry req (writing_key t) k = Some (JStr v))
      /\ body_entry req (writing_key t) "exercises" = Some exercises_data
      /\ body_entry req (writing_key t) "folder_id"
         = option_map JInt (writing_folder t).
Proof.
  intros environ wire json_loads json_dumps t client exercises_data Hx Hc.
  rewrite call_writing_run, Hx, Hc. cbn zeta. cbn [snd].
  exists (writing_request client exercises_data t).
  split; [reflexivity |].
  destruct t as [ti st et ex de | id ti st et ex de | ti ex [f |] no
                 | id ti ex [f |] no];
    cbn [writing_request writing_verb writing_path writing_payload
         writing_key writing_fields writing_folder via method path params];
    (repeat split; try reflexivity);
    intros k v H; cbn [In] in H;
    repeat (destruct H as [[= <- <-] | H]; [reflexivity |]);
    contradiction.
Qed.

(** [create_routine] for the folder 0. *)
Lemma writing_tools_send_what_they_were_given_witness :
  exists req : request,
    snd (run (call_writing env_with_key (constant_wire (mk_response 200 "{}"))
                json_loads_ref json_dumps_ref
                (CreateRoutine "Push A" "[1, 2]" (Some 0) "heavy")))
    = [req]
    /\ method req = POST /\ path req = "/routines"
    /\ body_keys req "routine" = ["title"; "notes"; "exercises"; "folder_id"]
    /\ body_entry req "routine" "exercises" = Some (JList [JInt 1; JInt 2])
    /\ body_entry req "routine" "folder_id" = Some (JInt 0).
Proof.
  destruct (writing_tools_send_what_they_were_given env_with_key
              (constant_wire (mk_response 200 "{}"))
              json_loads_ref json_dumps_ref
              (CreateRoutine "Push A" "[1, 2]" (Some 0) "heavy")
              sample_client (JList [JInt 1; JInt 2]))
    as (req & H1 & _ & H3 & H4 & _ & H6 & _ & H8 & H9).
  - vm_compute; reflexivity.
  - reflexivity.
  - exists req. repeat split; assumption.
Defined.

(** X3.  The tools that send one request raise what its exchange raises --
    the failure of the transport, the [HTTPStatusError] of a status
    outside 200..299, or the decode error of a body that is not JSON --
    with that one request on the log: nothing is sent again and nothing
    is returned in its place. *)
Theorem single_request_tools_raise_what_the_exchange_raises :
  forall (environ : string -> option string)
         (wire : request -> result response)
         (json_loads : string -> result json)
         (json_dumps : json -> Z -> string) (client : Client) (e : exn),
    get_client environ = Ok client ->
    (forall t : passthrough,
        exchange_json wire json_loads (passthrough_request client t) = Raise e ->
        run (call_passthrough environ wire json_loads json_dumps t)
        = (Raise e, [passthrough_request client t]))
    /\ (forall (t : writing) (exercises_data : json),
           json_loads (exercises_text t) = Ok exercises_data ->
           exchange_json wire json_loads
             (writing_request client exercises_data t) = Raise e ->
           run (call_writing environ wire json_loads json_dumps t)
           = (Raise e, [writing_request client exercises_data t]))
    /\ (forall t : folder_writing,
           exchange_json wire json_loads (folder_writing_request client t)
             = Raise e ->
           run (call_folder_writing environ wire json_loads json_dumps t)
           = (Raise e, [folder_writing_request client t]))
    /\ (forall folder_id : Z,
           (let? r := wire (delete_request client folder_id) in
            raise_for_status r) = Raise e ->
           run (delete_routine_folder environ wire json_loads json_dumps
                  folder_id)
           = (Raise e, [delete_request client folder_id])).
Proof.
  intros environ wire json_loads json_dumps client e Hc.
  split; [| split; [| split]].
  - intros t He. rewrite call_passthrough_exchange, Hc. cbn zeta.
    now rewrite He.
  - intros t exercises_data Hx He. rewrite call_writing_run, Hx, Hc. cbn zeta.
    now rewrite He.
  - intros t He. rewrite call_folder_writing_run, Hc. cbn zeta.
    now rewrite He.
  - intros folder_id He. rewrite delete_routine_folder_run, Hc. cbn zeta.
    destruct (wire _) as [r | e']; cbn [rbind] in *.
    + rewrite He. reflexivity.
    + congruence.
Qed.

(** A server that answers 500 to [get_routine], and one that answers
    200 with a page of HTML to [create_workout]. *)
Lemma single_request_tools_raise_what_the_exchange_raises_witness :
  run (call_passthrough env_with_key
         (constant_wire (mk_response 500 "Internal Server Error"))
         json_loads_ref json_dumps_ref (GetRoutine "r1"))
  = (Raise (HTTPStatusError 500 "Internal Server Error"),
     [passthrough_request sample_client (GetRoutine "r1")])
  /\ run (call_writing env_with_key
            (constant_wire (mk_response 200 "<html></html>"))
            json_loads_ref json_dumps_ref
            (CreateWorkout "Push" "2024-01-19T09:00:00Z"
               "2024-01-19T10:00:00Z" "[]" EmptyString))
     = (Raise (JSONDecodeError "Expecting value"),
        [writing_request sample_client (JList [])
           (CreateWorkout "Push" "2024-01-19T09:00:00Z"
              "2024-01-19T10:00:00Z" "[]" EmptyString)]).
Proof.
  split.
  - apply (proj1 (single_request_tools_raise_what_the_exchange_raises
                    env_with_key
                    (constant_wire (mk_response 500 "Internal Server Error"))
                    json_loads_ref json_dumps_ref sample_client
                    (HTTPStatusError 500 "Internal Server Error") eq_refl)).
    reflexivity.
  - apply (proj1 (proj2 (single_request_tools_raise_what_the_exchange_raises
                    env_with_key
                    (constant_wire (mk_response 200 "<html></html>"))
                    json_loads_ref json_dumps_ref sample_client
                    (JSONDecodeError "Expecting value") eq_refl))).
    + vm_compute; reflexivity.
    + vm_compute; reflexivity.
Defined.

(** X4.  [delete_routine_folder] on a 2xx answer: the text of
    [{"success": True}] when the body is empty; otherwise the body is
    read, and the tool returns the text of what it holds or raises the
    decode error -- a body of blanks included. *)
Theorem delete_routine_folder_reads_a_body_that_is_not_empty :
  forall (environ : string -> option string)
         (wire : request -> result response)
         (json_loads : string -> result json)
         (json_dumps : json -> Z -> string)
         (folder_id : Z) (client : Client) (resp : response),
    get_client environ = Ok client ->
    wire (delete_request client folder_id) = Ok resp ->
    200 <= status_code resp <= 299 ->
    run (delete_routine_folder environ wire json_loads json_dumps folder_id)
    = (match content resp with
       | EmptyString => Ok (json_dumps (JDict [("success", JBool true)]) 2)
       | String _ _ =>
           match json_loads (content resp) with
           | Ok data => Ok (json_dumps data 2)
           | Raise e => Raise e
           end
       end,
       [mk_request client DELETE ("/routine_folders/" +++ str_of_Z folder_id)
                   None None]).
Proof.
  intros environ wire json_loads json_dumps folder_id client resp Hc Hw Hok.
  rewrite delete_routine_folder_run, Hc. cbn zeta. rewrite Hw. cbn [rbind].
  rewrite (raise_for_status_success resp Hok). cbn [rbind].
  unfold has_content, delete_request.
  destruct (content resp) as [| c s]; cbn [truthy_str rbind]; [reflexivity |].
  destruct (json_loads (String c s)); reflexivity.
Qed.

(** An answer 204 with no body, one with a document and one with a
    single blank. *)
Lemma delete_routine_folder_reads_a_body_that_is_not_empty_witness :
  fst (run (delete_routine_folder env_with_key
              (constant_wire (mk_response 204 EmptyString))
              json_loads_ref json_dumps_ref 7))
  = Ok success_marker_text
  /\ fst (run (delete_routine_folder env_with_key
                 (constant_wire (mk_response 200 "[1]"))
                 json_loads_ref json_dumps_ref 7))
     = Ok (json_dumps_ref (JList [JInt 1]) 2)
  /\ fst (run (delete_routine_folder env_with_key
                 (constant_wire (mk_response 200 " "))
                 json_loads_ref json_dumps_ref 7))
     = Raise (JSONDecodeError "Expecting value").
Proof.
  split; [| split].
  - rewrite (delete_routine_folder_reads_a_body_that_is_not_empty env_with_key
               (constant_wire (mk_response 204 EmptyString))
               json_loads_ref json_dumps_ref 7 sample_client
               (mk_response 204 EmptyString) eq_refl eq_refl);
      [reflexivity | cbn; lia].
  - rewrite (delete_routine_folder_reads_a_body_that_is_not_empty env_with_key
               (constant_wire (mk_response 200 "[1]"))
               json_loads_ref json_dumps_ref 7 sample_client
               (mk_response 200 "[1]") eq_refl eq_refl);
      [reflexivity | cbn; lia].
  - rewrite (delete_routine_folder_reads_a_body_that_is_not_empty env_with_key
               (constant_wire (mk_response 200 " "))
               json_loads_ref json_dumps_ref 7 sample_client
               (mk_response 200 " ") eq_refl eq_refl);
      [reflexivity | cbn; lia].
Defined.

(* ------------------------------------------------------------------ *)
(** ** Every request goes through the client of [get_client] *)

Lemma get_client_carries_the_key (environ : string -> option string)
  (client : Client) (req : request) :
  get_client environ = Ok client ->
  via req = client ->
  carries_the_key environ req.
Proof.
  unfold get_client, carries_the_key. intros Hc ->.
  destruct (environ "HEVY_API_KEY") as [[| c k] |]; cbn in Hc;
    try discriminate.
  injection Hc as <-. cbn. repeat split; reflexivity.
Qed.

Lemma fetch_pages_carry_the_key
  (environ : string -> option string) (wire : request -> result response)
  (fromisoformat : string -> result datetime)
  (loads : string -> result WorkoutsPage) (cutoff : datetime)
  (pages : list Z) :
  forall (acc : list Workout) (log : list request),
    Forall (carries_the_key environ) log ->
    Forall (carries_the_key environ)
      (snd (fetch_pages environ wire fromisoformat loads cutoff pages acc log)).
Proof.
  induction pages as [| page later IH]; intros acc log Hlog; [exact Hlog |].
  rewrite fetch_pages_turn.
  destruct (get_client environ) as [client | e] eqn:Hc; [| exact Hlog].
  cbn zeta.
  assert (Hlog' : Forall (carries_the_key environ)
                    (log ++ [page_request client page])).
  { apply Forall_app. split; [exact Hlog |].
    constructor; [| constructor].
    now apply (get_client_carries_the_key environ client). }
  destruct (exchange wire loads _) as [data | e]; [| exact Hlog'].
  destruct (negb _); [exact Hlog' |].
  destruct (snd (scan_page fromisoformat cutoff (get_or (workouts data) []) acc));
    [exact Hlog' |].
  now apply IH.
Qed.

(** X5.  Whatever the tool and whatever comes back, each request it sends
    went through the client [get_client] builds: to the Hevy base URL,
    with the key of the environment in the [api-key] header, the JSON
    content and accept headers, and the timeout of 30 seconds. *)
Theorem every_request_carries_the_key :
  forall (environ : string -> option string)
         (wire : request -> result response),
    (forall (json_loads : string -> result json)
            (json_dumps : json -> Z -> string),
        (forall t : passthrough,
            Forall (carries_the_key environ)
              (snd (run (call_passthrough environ wire json_loads json_dumps
                           t))))
        /\ (forall t : writing,
               Forall (carries_the_key environ)
                 (snd (run (call_writing environ wire json_loads json_dumps
                              t))))
        /\ (forall t : folder_writing,
               Forall (carries_the_key environ)
                 (snd (run (call_folder_writing environ wire json_loads
                              json_dumps t))))
        /\ (forall folder_id : Z,
               Forall (carries_the_key environ)
                 (snd (run (delete_routine_folder environ wire json_loads
                              json_dumps folder_id)))))
    /\ (forall (now : Z) (fromisoformat : string -> result datetime)
               (loads : string -> result WorkoutsPage) (days : Z),
           Forall (carries_the_key environ)
             (snd (run (analyze_recent_workouts environ wire now fromisoformat
                          loads days)))).
Proof.
  intros environ wire.
  assert (One : forall client req,
             get_client environ = Ok client -> via req = client ->
             Forall (carries_the_key environ) [req]).
  { intros client req Hc Hv. constructor; [| constructor].
    now apply (get_client_carries_the_key environ client). }
  split.
  - intros json_loads json_dumps. split; [| split; [| split]].
    + intros t. rewrite call_passthrough_exchange.
      destruct (get_client environ) as [client | e] eqn:Hc; [| constructor].
      apply (One client); [reflexivity | now destruct t].
    + intros t. rewrite call_writing_run.
      destruct (json_loads (exercises_text t)); [| constructor].
      destruct (get_client environ) as [client | e] eqn:Hc; [| constructor].
      now apply (One client).
    + intros t. rewrite call_folder_writing_run.
      destruct (get_client environ) as [client | e] eqn:Hc; [| constructor].
      apply (One client); [reflexivity | now destruct t].
    + intros folder_id. rewrite delete_routine_folder_run.
      destruct (get_client environ) as [client | e] eqn:Hc; [| constructor].
      now apply (One client).
  - intros now fromisoformat loads days.
    destruct (cutoff_of now days) as [cutoff | e] eqn:Hcut.
    + rewrite (analyze_run environ wire now fromisoformat loads days cutoff
                 Hcut).
      cbn [snd]. apply fetch_pages_carry_the_key. constructor.
    + rewrite (analyze_no_cutoff environ wire now fromisoformat loads days e
                 Hcut).
      constructor.
Qed.

(* ------------------------------------------------------------------ *)
(** ** More on [analyze_recent_workouts] *)

(** X6.  A page that cannot be had ends the tool: after the pages [pgs],
    walked to their end, the exception of the next exchange -- transport,
    status or decoding -- is the tool's, whatever was kept so far. *)
Theorem failed_page_aborts_the_analysis :
  forall (environ : string -> option string)
         (wire : request -> result response) (now : Z)
         (fromisoformat : string -> result datetime)
         (loads : string -> result WorkoutsPage)
         (days : Z) (cutoff : datetime) (client : Client)
         (pgs : list (list Workout)) (e : exn),
    cutoff_of now days = Ok cutoff ->
    get_client environ = Ok client ->
    (List.length pgs < 5)%nat ->
    serves environ wire loads 1 pgs ->
    forallb (unbroken fromisoformat cutoff) pgs = true ->
    served environ wire loads (1 + Z.of_nat (List.length pgs)) = Raise e ->
    run (analyze_recent_workouts environ wire now fromisoformat loads days)
    = (Raise e,
       map (page_request client) (range 1 (2 + Z.of_nat (List.length pgs)))).
Proof.
  intros environ wire now fromisoformat loads days cutoff client pgs e
    Hcut Hc Hn Hs Hu Hlast.
  rewrite (analyze_run environ wire now fromisoformat loads days cutoff Hcut).
  rewrite (fetch_from_page_1 environ wire fromisoformat loads cutoff
             client pgs Hc (Nat.lt_le_incl _ _ Hn) Hs Hu).
  rewrite (range_cons (1 + Z.of_nat (List.length pgs)) 6) by lia.
  rewrite fetch_pages_turn, Hc. cbn zeta.
  unfold served in Hlast. rewrite Hc in Hlast. cbn [rbind] in Hlast.
  destruct (exchange wire loads
              (page_request client (1 + Z.of_nat (List.length pgs))))
    as [data | e'] eqn:Hx; cbn [rbind] in Hlast; [discriminate |].
  injection Hlast as ->. cbn [fst snd]. f_equal.
  rewrite <- map_app with (l' := [1 + Z.of_nat (List.length pgs)]).
  f_equal. rewrite range_snoc. f_equal. lia.
Qed.

(** A server that has one page and fails on the second: the record
    kept from the first page is not reported. *)
Lemma failed_page_aborts_the_analysis_witness :
  run (analyze_recent_workouts env_with_key
         (flaky_wire [page_doc [fresh_doc]]) sample_now fromisoformat_basic
         loads_page 7)
  = (Raise (HTTPStatusError 503 "Service Unavailable"),
     map (page_request sample_client) [1; 2]).
Proof.
  apply (failed_page_aborts_the_analysis env_with_key
           (flaky_wire [page_doc [fresh_doc]]) sample_now fromisoformat_basic
           loads_page 7 sample_cutoff sample_client
           [[read_workout fresh_doc]]).
  - vm_compute; reflexivity.
  - reflexivity.
  - cbn; lia.
  - cbn; split; [vm_compute; reflexivity | exact I].
  - vm_compute; reflexivity.
  - vm_compute; reflexivity.
Defined.

(* ------------------------------------------------------------------ *)
(** ** The count of sets and the shape of the summary *)

Lemma count_sets_total (sets : list SetEntry) (t : totals) :
  total_sets (fold_left count_set sets t)
  = total_sets t + Z.of_nat (List.length sets).
Proof.
  revert t. induction sets as [| s sets IH]; intros t; cbn [fold_left].
  - cbn. lia.
  - rewrite IH. cbn [count_set total_sets List.length]. lia.
Qed.

Lemma count_exercises_total (exs : list ExerciseEntry) (t : totals) :
  total_sets (fold_left count_exercise exs t)
  = total_sets t
    + Z.of_nat (List.length (flat_map (fun ex => get_or (ex_sets ex) []) exs)).
Proof.
  revert t. induction exs as [| ex exs IH]; intros t;
    cbn [fold_left flat_map].
  - cbn. lia.
  - rewrite IH. unfold count_exercise. rewrite count_sets_total.
    cbn [total_sets]. rewrite length_app. lia.
Qed.

Lemma count_workouts_total (ws : list Workout) (t : totals) :
  total_sets (fold_left count_workout ws t)
  = total_sets t + Z.of_nat (List.length (all_sets ws)).
Proof.
  revert t. induction ws as [| w ws IH]; intros t; cbn [fold_left].
  - cbn. lia.
  - rewrite IH. unfold count_workout. rewrite count_exercises_total.
    unfold all_sets, exercise_entries. cbn [flat_map].
    rewrite flat_map_app, length_app. lia.
Qed.

(** X7.  The set count of the summary is the number of sets of all exercise
    entries of all kept workouts -- the sets with no weight or no
    repetitions, which add nothing to the volume, are counted too -- and
    that number is what the line "Total sets" shows. *)
Theorem total_sets_counts_every_set :
  forall (days : Z) (all_workouts : list Workout),
    total_sets (summarize all_workouts)
    = Z.of_nat (List.length (all_sets all_workouts))
    /\ nth 3 (summary_lines days all_workouts) EmptyString
       = "Total sets: "
         +++ str_of_Z (Z.of_nat (List.length (all_sets all_workouts))).
Proof.
  intros days all_workouts.
  assert (H : total_sets (summarize all_workouts)
              = Z.of_nat (List.length (all_sets all_workouts))).
  { unfold summarize. rewrite count_workouts_total. cbn [total_sets]. lia. }
  split; [exact H |].
  unfold summary_lines. cbn [app nth]. now rewrite H.
Qed.

Lemma most_frequent_length (counts : dict Z) :
  List.length (most_frequent counts) = Nat.min 10 (List.length counts).
Proof.
  unfold most_frequent. rewrite length_firstn.
  now rewrite (Permutation_length (sorted_perm (fun x => - snd x) counts)).
Qed.

Lemma tally_length (l : list string) :
  List.length (fold_left bump l [])
  = List.length (nodup string_dec l).
Proof.
  rewrite <- (length_map fst).
  apply Permutation_length, NoDup_Permutation.
  - apply tally_nodup.
  - apply NoDup_nodup.
  - intros k. rewrite tally_keys. symmetry. apply nodup_In.
Qed.

(** X8.  The summary has seven lines, one line per kept workout in the order
    the workouts were kept and, when some kept workout has an exercise
    entry, two lines and one per listed title: as many as there are
    distinct titles, ten at most.  Without an exercise entry the listing
    of exercises is left out altogether. *)
Theorem summary_has_a_line_per_workout_and_listed_title :
  forall (days : Z) (all_workouts : list Workout),
    firstn (List.length all_workouts) (skipn 7 (summary_lines days all_workouts))
    = map workout_line all_workouts
    /\ List.length (summary_lines days all_workouts)
       = (7 + List.length all_workouts
          + match exercise_entries all_workouts with
            | [] => 0
            | _ :: _ =>
                2 + Nat.min 10
                      (List.length
                         (nodup string_dec (exercise_titles all_workouts)))
            end)%nat.
Proof.
  intros days all_workouts. unfold summary_lines. split.
  - cbn [app skipn].
    rewrite firstn_app, length_map, Nat.sub_diag. cbn [firstn].
    rewrite app_nil_r. apply firstn_all2. rewrite length_map. lia.
  - cbn [app List.length]. rewrite length_app, length_map.
    unfold frequency_section. rewrite summarize_counts.
    pose proof (tally_length (exercise_titles all_workouts)) as L.
    unfold exercise_titles in *.
    destruct (exercise_entries all_workouts) as [| ex exs].
    + cbn. lia.
    + pose proof (proj2 (tally_keys
                           (map (fun ex => get_or (ex_title ex) "Unknown")
                                (ex :: exs))
                           (get_or (ex_title ex) "Unknown"))
                    (or_introl eq_refl)) as Hin.
      destruct (fold_left bump _ []) as [| item counts].
      * contradiction.
      * cbn [truthy_list]. rewrite length_app, length_map, most_frequent_length.
        rewrite L. cbn [List.length]. lia.
Qed.

(* ------------------------------------------------------------------ *)
(** ** The day count and the cutoff *)

(** X9.  The cutoff is computed before the client is built.  A day count
    [timedelta] refuses (beyond 999999999 either way), or one that takes
    the cutoff before the year 1 or past the year 9999, makes the tool
    raise [OverflowError] with nothing sent, whether or not the key is
    set. *)
Theorem day_count_out_of_range_raises_before_any_request :
  forall (environ : string -> option string)
         (wire : request -> result response) (now : Z)
         (fromisoformat : string -> result datetime)
         (loads : string -> result WorkoutsPage) (days : Z),
    999999999 < Z.abs days
    \/ now - days * (86400 * 1000000) < 0
    \/ datetime_max_wall < now - days * (86400 * 1000000) ->
    exists msg : string,
      run (analyze_recent_workouts environ wire now fromisoformat loads days)
      = (Raise (OverflowError msg), []).
Proof.
  intros environ wire now fromisoformat loads days H.
  assert (Hcut : exists msg, cutoff_of now days = Raise (OverflowError msg)).
  { unfold cutoff_of, timedelta_days, timedelta_max_days.
    destruct (Z.abs days <=? 999999999) eqn:E1; cbn [rbind];
      [| eexists; reflexivity].
    apply Z.leb_le in E1.
    unfold datetime_sub, us_per_day. cbn [wall utcoffset].
    destruct ((0 <=? now - days * (86400 * 1000000))
              && (now - days * (86400 * 1000000) <=? datetime_max_wall))
      eqn:E2; [| eexists; reflexivity].
    apply andb_true_iff in E2 as [E2 E3].
    apply Z.leb_le in E2. apply Z.leb_le in E3. exfalso. lia. }
  destruct Hcut as [msg Hcut]. exists msg.
  exact (analyze_no_cutoff environ wire now fromisoformat loads days _ Hcut).
Qed.

(** A million days back from the sample clock, with a key and a server
    at hand. *)
Lemma day_count_out_of_range_raises_before_any_request_witness :
  exists msg : string,
    run (analyze_recent_workouts env_with_key (paged_wire sample_pages)
           sample_now fromisoformat_basic loads_page 1000000)
    = (Raise (OverflowError msg), []).
Proof.
  apply (day_count_out_of_range_raises_before_any_request env_with_key
           (paged_wire sample_pages) sample_now fromisoformat_basic
           loads_page 1000000).
  right. left. vm_compute. reflexivity.
Defined.

(* ------------------------------------------------------------------ *)
(** ** The [Z] of a [start_time] *)

Lemma append_associative (s t u : string) :
  (s +++ t) +++ u = s +++ (t +++ u).
Proof.
  induction s as [| c s IH]; cbn [String.append];
    [reflexivity | now rewrite IH].
Qed.

Lemma str_replace_append (old : ascii) (new s t : string) :
  str_replace old new (s +++ t)
  = str_replace old new s +++ str_replace old new t.
Proof.
  induction s as [| c s IH]; cbn [String.append str_replace]; [reflexivity |].
  rewrite IH. destruct (Ascii.eqb c old); [| reflexivity].
  now rewrite append_associative.
Qed.

Lemma str_replace_free (old : ascii) (new s : string) :
  free_of old new -> free_of old (str_replace old new s).
Proof.
  unfold free_of. intros Hnew.
  induction s as [| c s IH]; cbn [str_replace]; [intros [] |].
  destruct (Ascii.eqb c old) eqn:E.
  - rewrite list_ascii_of_append. intros H.
    apply in_app_or in H as [H | H]; auto.
  - cbn [list_ascii_of_string]. intros [H | H]; [| auto].
    subst c. now rewrite Ascii.eqb_refl in E.
Qed.

(** X10.  A record stamped [s ++ "Z"] is dealt with as the record stamped
    [s ++ "+00:00"] is, whatever the parser, and the parser is never
    asked about a text with a [Z] in it: two parsers that agree on the
    texts without [Z] give every record the same verdict. *)
Theorem a_trailing_Z_reads_as_the_offset_of_utc :
  forall (fromisoformat : string -> result datetime) (cutoff : datetime),
    (forall (w1 w2 : Workout) (s : string),
        start_time w1 = Some (s +++ "Z") ->
        start_time w2 = Some (s +++ "+00:00") ->
        examine fromisoformat cutoff w1 = examine fromisoformat cutoff w2)
    /\ (forall other : string -> result datetime,
           (forall s : string, free_of "Z" s -> other s = fromisoformat s) ->
           forall w : Workout,
             examine other cutoff w = examine fromisoformat cutoff w).
Proof.
  intros fromisoformat cutoff. split.
  - intros w1 w2 s H1 H2. unfold examine, classify.
    rewrite H1, H2. cbn [get_or].
    rewrite !str_replace_append.
    replace (truthy_str (s +++ "Z")) with true by (now destruct s).
    replace (truthy_str (s +++ "+00:00")) with true by (now destruct s).
    reflexivity.
  - intros other Hsame w. unfold examine, classify.
    rewrite Hsame; [reflexivity |].
    apply str_replace_free. unfold free_of. cbn.
    intros H. repeat (destruct H as [H | H]; [discriminate |]). contradiction.
Qed.

(** The boundary record of the examples, stamped with a [Z]. *)
Lemma a_trailing_Z_reads_as_the_offset_of_utc_witness :
  examine fromisoformat_basic sample_cutoff
    (mk_workout (Some "Pull") (Some "2024-01-13T12:00:00Z") None)
  = examine fromisoformat_basic sample_cutoff (read_workout boundary_doc).
Proof.
  apply (proj1 (a_trailing_Z_reads_as_the_offset_of_utc fromisoformat_basic
                  sample_cutoff)
           _ _ "2024-01-13T12:00:00"); reflexivity.
Defined.

(* ------------------------------------------------------------------ *)
(** ** What the summary is made of *)

Lemma subsequence_nil_l {A : Type} (m : list A) : subsequence [] m.
Proof. induction m; constructor; assumption. Qed.

Lemma subsequence_app {A : Type} (l1 m1 l2 m2 : list A) :
  subsequence l1 m1 -> subsequence l2 m2 ->
  subsequence (l1 ++ l2) (m1 ++ m2).
Proof.
  intros H1 H2. induction H1; cbn [app]; [assumption | |];
    constructor; assumption.
Qed.

Section KeptFacts.

Variable environ : string -> option string.
Variable wire : request -> result response.
Variable fromisoformat : string -> result datetime.
Variable loads : string -> result WorkoutsPage.
Variable cutoff : datetime.

(** A record the loop keeps has a [start_time], and not the empty
    one. *)
Lemma examine_keep_dated (w : Workout) :
  examine fromisoformat cutoff w = Keep ->
  exists s : string, start_time w = Some s /\ s <> EmptyString.
Proof.
  unfold examine. destruct (start_time w) as [s |]; cbn [get_or].
  - destruct s; cbn [truthy_str]; [discriminate |].
    intros _. eexists. split; [reflexivity | discriminate].
  - discriminate.
Qed.

Lemma scan_page_subsequence (ws : list Workout) :
  forall acc : list Workout,
  exists l : list Workout,
    fst (scan_page fromisoformat cutoff ws acc) = acc ++ l
    /\ subsequence l ws
    /\ Forall (fun w => examine fromisoformat cutoff w = Keep) l.
Proof.
  induction ws as [| w ws IH]; intros acc; cbn [scan_page].
  - exists []. rewrite app_nil_r. repeat split; constructor.
  - destruct (examine fromisoformat cutoff w) eqn:E.
    + destruct (IH (acc ++ [w])) as (l & H1 & H2 & H3).
      exists (w :: l). rewrite H1, <- app_assoc. repeat split.
      * now constructor.
      * now constructor.
    + exists []. cbn [fst]. rewrite app_nil_r. repeat split.
      * apply subsequence_nil_l.
      * constructor.
    + destruct (IH acc) as (l & H1 & H2 & H3).
      exists l. repeat split; [assumption | now constructor | assumption].
Qed.

Lemma fetch_pages_subsequence (pages : list Z) :
  forall (acc : list Workout) (log : list request) (kept : list Workout),
    fst (fetch_pages environ wire fromisoformat loads cutoff pages acc log)
    = Ok kept ->
    exists l came : list Workout,
      kept = acc ++ l
      /\ received wire loads
           (snd (fetch_pages environ wire fromisoformat loads cutoff pages
                   acc log))
         = received wire loads log ++ came
      /\ subsequence l came
      /\ Forall (fun w => examine fromisoformat cutoff w = Keep) l.
Proof.
  induction pages as [| page later IH]; intros acc log kept.
  - cbn. intros [= <-]. exists [], []. rewrite !app_nil_r.
    repeat split; constructor.
  - rewrite fetch_pages_turn.
    destruct (get_client environ) as [client | e]; [| discriminate].
    cbn zeta.
    pose proof (received_snoc wire loads log (page_request client page)) as R.
    destruct (exchange wire loads (page_request client page)) as [data | e];
      [| discriminate].
    destruct (scan_page_subsequence (get_or (workouts data) []) acc)
      as (l1 & S1 & S2 & S3).
    destruct (negb (truthy_list (get_or (workouts data) []))).
    { cbn [fst snd]. intros [= <-].
      exists [], (get_or (workouts data) []). rewrite app_nil_r.
      repeat split; [assumption | apply subsequence_nil_l | constructor]. }
    destruct (snd (scan_page fromisoformat cutoff (get_or (workouts data) [])
                     acc)).
    { cbn [fst snd]. intros [= <-].
      exists l1, (get_or (workouts data) []). repeat split; assumption. }
    intros Hk.
    destruct (IH _ _ kept Hk) as (l2 & came & K1 & K2 & K3 & K4).
    exists (l1 ++ l2), (get_or (workouts data) [] ++ came).
    repeat split.
    + now rewrite K1, S1, <- app_assoc.
    + now rewrite K2, R, <- app_assoc.
    + now apply subsequence_app.
    + apply Forall_app. now split.
Qed.

End KeptFacts.

(** X11.  Whatever the server answers, a summary is made of records that
    came back for the requests of the call and of no other: the kept
    workouts are among the records received, each as often as it was
    received at most and in the order they came; each of them is at or
    after the cutoff and bears a [start_time]. *)
Theorem the_summary_is_of_records_received_in_their_order :
  forall (environ : string -> option string)
         (wire : request -> result response) (now : Z)
         (fromisoformat : string -> result datetime)
         (loads : string -> result WorkoutsPage) (days : Z)
         (out : string) (log : list request),
    run (analyze_recent_workouts environ wire now fromisoformat loads days)
    = (Ok out, log) ->
    exists (cutoff : datetime) (kept : list Workout),
      cutoff_of now days = Ok cutoff
      /\ out = render days kept
      /\ subsequence kept (received wire loads log)
      /\ Forall (fun w => examine fromisoformat cutoff w = Keep
                          /\ exists s : string,
                               start_time w = Some s /\ s <> EmptyString)
                kept.
Proof.
  intros environ wire now fromisoformat loads days out log Hrun.
  destruct (cutoff_of now days) as [cutoff | e] eqn:Hcut.
  2:{ rewrite (analyze_no_cutoff environ wire now fromisoformat loads days e
                 Hcut) in Hrun. discriminate. }
  rewrite (analyze_run environ wire now fromisoformat loads days cutoff Hcut)
    in Hrun.
  unfold run in Hrun.
  pose proof (f_equal fst Hrun) as Hout.
  pose proof (f_equal snd Hrun) as Hlog.
  cbn [fst snd] in Hout, Hlog. clear Hrun.
  destruct (fst (fetch_pages environ wire fromisoformat loads cutoff
                   (range 1 6) [] [])) as [kept | e] eqn:Hk;
    [| discriminate].
  assert (Hout' : out = render days kept) by congruence.
  clear Hout. subst out log.
  destruct (fetch_pages_subsequence environ wire fromisoformat loads cutoff
              (range 1 6) [] [] kept Hk) as (l & came & K1 & K2 & K3 & K4).
  cbn [app] in K1. subst l.
  exists cutoff, kept. repeat split.
  - rewrite K2. exact K3.
  - apply Forall_forall. intros w Hw.
    rewrite Forall_forall in K4. specialize (K4 w Hw).
    split; [exact K4 |].
    now apply (examine_keep_dated fromisoformat cutoff).
Qed.

(** The call of the sample server. *)
Lemma the_summary_is_of_records_received_in_their_order_witness :
  exists (cutoff : datetime) (kept : list Workout),
    cutoff_of sample_now 7 = Ok cutoff
    /\ render 7 (map read_workout [fresh_doc; boundary_doc; late_doc])
       = render 7 kept
    /\ subsequence kept
         (received (paged_wire sample_pages) loads_page
            (map (page_request sample_client) [1; 2]))
    /\ Forall (fun w => examine fromisoformat_basic cutoff w = Keep
                        /\ exists s : string,
                             start_time w = Some s /\ s <> EmptyString)
              kept.
Proof.
  apply (the_summary_is_of_records_received_in_their_order env_with_key
           (paged_wire sample_pages) sample_now fromisoformat_basic
           loads_page 7).
  vm_compute. reflexivity.
Defined.

(* ------------------------------------------------------------------ *)
(** ** A [start_time] without an offset *)

(** X12.  The cutoff is an aware [datetime].  A [start_time] that parses to a
    naive one -- a date and a time with no offset and no [Z] -- cannot be
    compared with it: the comparison raises inside the [try], and the
    record is passed over, however recent or old its date.  It is not
    kept and it does not stop the scan. *)
Theorem a_start_time_without_offset_is_passed_over :
  forall (now : Z) (fromisoformat : string -> result datetime)
         (days : Z) (cutoff : datetime)
         (w : Workout) (s : string) (d : datetime),
    cutoff_of now days = Ok cutoff ->
    start_time w = Some s ->
    fromisoformat (str_replace "Z" "+00:00" s) = Ok d ->
    utcoffset d = None ->
    examine fromisoformat cutoff w = Skip
    /\ keeps fromisoformat cutoff w = false
    /\ stops fromisoformat cutoff w = false
    /\ (forall pre post acc : list Workout,
           scan_page fromisoformat cutoff (pre ++ w :: post) acc
           = scan_page fromisoformat cutoff (pre ++ post) acc).
Proof.
  intros now fromisoformat days cutoff w s d Hcut Hw Hp Hd.
  destruct (cutoff_of_aware now days cutoff Hcut) as [Hoff _].
  pose proof (examine_naive fromisoformat cutoff w s d 0 Hw Hp Hd Hoff)
    as Hskip.
  split; [exact Hskip |].
  split; [unfold keeps; now rewrite Hskip |].
  split; [unfold stops; now rewrite Hskip |].
  intros pre post acc. now apply scan_page_skip.
Qed.

(** The fresh record of the examples, stamped without its [Z]. *)
Lemma a_start_time_without_offset_is_passed_over_witness :
  examine fromisoformat_basic sample_cutoff
    (mk_workout (Some "Push") (Some "2024-01-19T09:00:00") None)
  = Skip.
Proof.
  apply (a_start_time_without_offset_is_passed_over sample_now
           fromisoformat_basic 7 sample_cutoff
           (mk_workout (Some "Push") (Some "2024-01-19T09:00:00") None)
           "2024-01-19T09:00:00"
           (mk_datetime (wall_of 2024 1 19 9 0 0) None)).
  - vm_compute; reflexivity.
  - reflexivity.
  - vm_compute; reflexivity.
  - reflexivity.
Defined.

(* ------------------------------------------------------------------ *)
(** ** The Strava server and the coach server *)

Lemma collect_returns {A B : Type} (f : A -> outcome B) (g : A -> B)
  (items : list A) :
  (forall a, In a items -> f a = Returned (g a)) ->
  forall (failure : option exn) (result : list B),
    collect f items failure result
    = match failure with
      | Some e => Raised (Other e)
      | None => Returned (result ++ map g items)
      end.
Proof.
  induction items as [| a items IH]; intros H failure result.
  - cbn. now rewrite app_nil_r.
  - cbn [collect]. rewrite (H a (or_introl eq_refl)).
    rewrite IH by (intros b Hb; apply H; now right).
    destruct failure; [reflexivity |].
    cbn [map]. now rewrite <- app_assoc.
Qed.

Lemma collect_raises {A B : Type} (f : A -> outcome B) (items : list A)
  (P : raised -> Prop) :
  (forall a, In a items ->
     (exists b, f a = Returned b) \/ (exists r, f a = Raised r /\ P r)) ->
  Exists (fun a => exists r, f a = Raised r) items ->
  forall (failure : option exn) (result : list B),
  exists r, collect f items failure result = Raised r /\ P r.
Proof.
  intros Hall Hex. induction Hex as [a items [r Hr] | a items Hex IH];
    intros failure result; cbn [collect].
  - rewrite Hr. exists r. split; [reflexivity |].
    destruct (Hall a (or_introl eq_refl)) as [[b Hb] | (r' & Hr' & HP)];
      congruence.
  - destruct (Hall a (or_introl eq_refl)) as [[b Hb] | (r' & Hr' & HP)].
    + rewrite Hb. apply IH. intros x Hx. apply Hall. now right.
    + rewrite Hr'. now exists r'.
Qed.

Lemma unless_falsy_Q_value (x : option Q) (value : Q -> json) :
  unless_falsy_Q x value
  = Returned match x with
             | Some q => if Qeq_bool q 0 then JNull else value q
             | None => JNull
             end.
Proof.
  unfold unless_falsy_Q, truthy_Q. destruct x as [q |]; [| reflexivity].
  destruct (Qeq_bool q 0); reflexivity.
Qed.

Lemma unless_falsy_Z_value (x : option Z) (value : Z -> json) :
  unless_falsy_Z x value
  = Returned match x with
             | Some n => if n =? 0 then JNull else value n
             | None => JNull
             end.
Proof.
  unfold unless_falsy_Z, truthy_Z. destruct x as [n |]; [| reflexivity].
  destruct (n =? 0); reflexivity.
Qed.

Section StravaServerFacts.

Variable environ : string -> option string.
Variable lib : StravaLibrary.
Variable py : Interpreter.

(** What [activity_entry] returns. *)
Lemma strava_activity_entry_value (a : Activity) :
  exists members : dict json,
    StravaServer.activity_entry py a = Returned (JDict members)
    /\ (dict_lookup members "distance_km" = Some JNull
        <-> none_or_zero_Q (a_distance a))
    /\ (dict_lookup members "duration_min" = Some JNull
        <-> none_or_zero_Z (a_moving_time a))
    /\ (dict_lookup members "elevation_gain_m" = Some JNull
        <-> none_or_zero_Q (a_total_elevation_gain a)).
Proof.
  unfold StravaServer.activity_entry.
  rewrite !unless_falsy_Q_value, !unless_falsy_Z_value. cbn [obind].
  eexists. split; [reflexivity |]. cbn [dict_lookup String.eqb Ascii.eqb
    Bool.eqb]. cbn.
  unfold none_or_zero_Q, none_or_zero_Z.
  repeat split.
  - destruct (a_distance a) as [q |]; [| now left].
    destruct (Qeq_bool q 0) eqn:E; [| discriminate].
    intros _. right. exists q. split; [reflexivity |]. now apply Qeq_bool_iff.
  - intros [-> | (q & -> & Hq)]; [reflexivity |].
    apply Qeq_bool_iff in Hq. now rewrite Hq.
  - destruct (a_moving_time a) as [n |]; [| now left].
    destruct (n =? 0) eqn:E; [| discriminate].
    intros _. right. apply Z.eqb_eq in E. now subst n.
  - intros [-> | ->]; reflexivity.
  - destruct (a_total_elevation_gain a) as [q |]; [| now left].
    destruct (Qeq_bool q 0) eqn:E; [| discriminate].
    intros _. right. exists q. split; [reflexivity |]. now apply Qeq_bool_iff.
  - intros [-> | (q & -> & Hq)]; [reflexivity |].
    apply Qeq_bool_iff in Hq. now rewrite Hq.
Qed.

End StravaServerFacts.



Section CoachServerFacts.

Variable environ : string -> option string.
Variable lib : StravaLibrary.
Variable garmin : garmin_call -> result json.
Variable py : Interpreter.
Variable today : Z.
Variable isoformat : Z -> string.

(** One turn of the loop of [get_garmin_stats], spelled out on the
    log. *)
Lemma garmin_day_run (i : Z) (stats : list json) (log : list coach_call) :
  CoachServer.garmin_day garmin py today isoformat i stats log =
  match date_minus_days today i with
  | Raise e => (Raised (Other e), log)
  | Ok o =>
      let d := isoformat o in
      let stats' := stats ++ [JDict (day_of garmin d)] in
      (Returned (stats', Some (text_content (py_str py (JList stats')))),
       log ++ map (fun kc => Garmin (snd kc)) (readings d))
  end.
Proof.
  unfold CoachServer.garmin_day.
  unfold bind_L at 1. unfold lift_L, of_result.
  destruct (date_minus_days today i) as [o | e]; [| reflexivity].
  cbn zeta. unfold day_of, readings. cbn [flat_map map fst snd].
  unfold CoachServer.attempt, try_L, bind_L, call, unit_L.
  destruct (garmin (GetStatsAndBody (isoformat o)));
    destruct (garmin (GetHrvData (isoformat o)));
    destruct (garmin (GetBodyBattery (isoformat o) (isoformat o)));
    destruct (garmin (GetSleepData (isoformat o)));
    destruct (garmin (GetStressData (isoformat o)));
    destruct (garmin (GetTrainingReadiness (isoformat o)));
    destruct (garmin (GetTrainingLoad (isoformat o)));
    cbn [app]; rewrite <- !app_assoc; reflexivity.
Qed.

End CoachServerFacts.

(** X17.  [get_garmin_stats] logs in first, with the two credentials as the
    environment has them ([None] for one that is unset); when the login
    raises, the tool raises the same and asks for no reading.  Its loop
    ends on a [return]: for any day count of 1 or more the tool asks
    for the seven readings of today alone and reports that one day; for
    a day count of 0 or less the loop body never runs and the tool
    returns [None]. *)
Theorem garmin_stats_report_today_alone :
  forall (environ : string -> option string) (lib : StravaLibrary)
         (garmin : garmin_call -> result json) (py : Interpreter)
         (today : Z) (isoformat : Z -> string) (arguments : dict json)
         (n : Z),
    let login := Login (environ "GARMIN_EMAIL") (environ "GARMIN_PASSWORD") in
    let tool :=
      run_L (CoachServer.call_tool environ lib garmin py today isoformat
               "get_garmin_stats" arguments) in
    dict_get arguments "days" (JInt 7) = JInt n ->
    1 <= today <= date_max_ordinal ->
    (forall e : exn,
        garmin login = Raise e -> tool = (Raised (Other e), [Garmin login]))
    /\ (forall answer : json,
           garmin login = Ok answer ->
           (1 <= n ->
            exists day : dict json,
              tool
              = (Returned (text_content (py_str py (JList [JDict day]))),
                 Garmin login
                   :: map (fun kc => Garmin (snd kc))
                          (readings (isoformat today)))
              /\ dict_lookup day "date" = Some (JStr (isoformat today)))
           /\ (n <= 0 -> tool = (Returned JNull, [Garmin login]))).
Proof.
  intros environ lib garmin py today isoformat arguments n login tool
    Hdays Htoday.
  assert (Htool : tool
                  = match garmin login with
                    | Raise e => (Raised (Other e), [Garmin login])
                    | Ok _ =>
                        match for_L (CoachServer.garmin_day garmin py today
                                       isoformat)
                                    (range 0 n) [] [Garmin login] with
                        | (Returned sr, log) =>
                            (Returned match snd sr with
                                      | Some r => r
                                      | None => JNull
                                      end, log)
                        | (Raised r, log) => (Raised r, log)
                        end
                    end).
  { subst tool. unfold run_L, CoachServer.call_tool.
    change (String.eqb "get_garmin_stats" "get_strava_activities") with false.
    change (String.eqb "get_garmin_stats" "get_garmin_stats") with true.
    cbn iota. fold login. rewrite Hdays.
    unfold bind_L at 1. unfold call at 1. cbn [app].
    destruct (garmin login) as [answer | e]; [| reflexivity].
    unfold bind_L at 1. unfold lift_L, range_of.
    unfold bind_L at 1.
    destruct (for_L _ (range 0 n) [] [Garmin login]) as [[sr | r] log];
      [| reflexivity].
    destruct (snd sr); reflexivity. }
  split.
  - intros e He. now rewrite Htool, He.
  - intros answer Ha. rewrite Htool, Ha. split.
    + intros Hn. rewrite (range_cons 0 n) by lia. cbn [for_L].
      unfold bind_L at 1. rewrite garmin_day_run.
      assert (Hd : date_minus_days today 0 = Ok today).
      { unfold date_minus_days, timedelta_max_days. cbn [Z.abs Z.leb Z.compare].
        rewrite Z.sub_0_r.
        destruct Htoday as [H1 H2].
        apply Z.leb_le in H1. apply Z.leb_le in H2. now rewrite H1, H2. }
      rewrite Hd. cbn zeta. cbn [snd fst app]. unfold unit_L. cbn [snd].
      exists (day_of garmin (isoformat today)). split; reflexivity.
    + intros Hn. unfold range.
      replace (Z.to_nat (n - 0)) with 0%nat by lia. reflexivity.
Qed.

(** The sample account, asked for seven days on 2024-01-20. *)
Lemma garmin_stats_report_today_alone_witness :
  (exists day : dict json,
      run_L (CoachServer.call_tool env_empty (sample_library (mk_stream [] None))
               sample_garmin sample_interpreter sample_today sample_isoformat
               "get_garmin_stats" [])
      = (Returned (text_content
                     (py_str sample_interpreter (JList [JDict day]))),
         Garmin (Login None None)
           :: map (fun kc => Garmin (snd kc)) (readings "2024-01-20"))
      /\ dict_lookup day "date" = Some (JStr "2024-01-20"))
  /\ run_L (CoachServer.call_tool env_empty
              (sample_library (mk_stream [] None))
              locked_garmin sample_interpreter sample_today sample_isoformat
              "get_garmin_stats" [])
     = (Raised (Other (HTTPStatusError 401 "Unauthorized")),
        [Garmin (Login None None)]).
Proof.
  split.
  - destruct (garmin_stats_report_today_alone env_empty
                (sample_library (mk_stream [] None)) sample_garmin
                sample_interpreter sample_today sample_isoformat [] 7
                eq_refl) as [_ H].
    + unfold sample_today, date_max_ordinal. lia.
    + destruct (H JNull eq_refl) as [H1 _]. apply H1. lia.
  - destruct (garmin_stats_report_today_alone env_empty
                (sample_library (mk_stream [] None)) locked_garmin
                sample_interpreter sample_today sample_isoformat [] 7
                eq_refl) as [H _].
    + unfold sample_today, date_max_ordinal. lia.
    + now apply H.
Defined.

(** X18.  Whatever readings fail, [get_garmin_stats] returns: the day it
    reports always has its date, and has a reading under its key exactly
    when the call for it did not raise, with what the call returned. *)
Theorem garmin_readings_that_fail_are_left_out :
  forall (environ : string -> option string) (lib : StravaLibrary)
         (garmin : garmin_call -> result json) (py : Interpreter)
         (today : Z) (isoformat : Z -> string) (arguments : dict json)
         (n : Z) (answer : json),
    dict_get arguments "days" (JInt 7) = JInt n ->
    1 <= n ->
    1 <= today <= date_max_ordinal ->
    garmin (Login (environ "GARMIN_EMAIL") (environ "GARMIN_PASSWORD"))
      = Ok answer ->
    exists day : dict json,
      fst (run_L (CoachServer.call_tool environ lib garmin py today isoformat
                    "get_garmin_stats" arguments))
      = Returned (text_content (py_str py (JList [JDict day])))
      /\ dict_lookup day "date" = Some (JStr (isoformat today))
      /\ (forall (key : string) (c : garmin_call),
             In (key, c) (readings (isoformat today)) ->
             dict_lookup day key
             = match garmin c with
               | Ok v => Some v
               | Raise _ => None
               end)
      /\ (forall key : string,
             In key (map fst day) ->
             key = "date" \/ In key (map fst (readings (isoformat today)))).
Proof.
  intros environ lib garmin py today isoformat arguments n answer
    Hdays Hn Htoday Hlogin.
  exists (day_of garmin (isoformat today)).
  split; [| split; [reflexivity | split]].
  - unfold run_L, CoachServer.call_tool.
    change (String.eqb "get_garmin_stats" "get_strava_activities") with false.
    change (String.eqb "get_garmin_stats" "get_garmin_stats") with true.
    cbn iota. rewrite Hdays.
    unfold bind_L at 1. unfold call at 1. rewrite Hlogin. cbn [app].
    unfold bind_L at 1. unfold lift_L, range_of.
    rewrite (range_cons 0 n) by lia.
    unfold bind_L at 1. cbn [for_L]. unfold bind_L at 1.
    rewrite garmin_day_run.
    assert (Hd : date_minus_days today 0 = Ok today).
    { unfold date_minus_days, timedelta_max_days. cbn [Z.abs Z.leb Z.compare].
      rewrite Z.sub_0_r.
      destruct Htoday as [H1 H2].
      apply Z.leb_le in H1. apply Z.leb_le in H2. now rewrite H1, H2. }
    rewrite Hd. reflexivity.
  - intros key c Hin. unfold day_of, readings in *. cbn [In] in Hin.
    cbn [flat_map fst snd].
    repeat (destruct Hin as [[= <- <-] | Hin];
            [repeat match goal with
                    | |- context [garmin ?c] => destruct (garmin c)
                    end; reflexivity |]).
    contradiction.
  - intros key Hin. unfold day_of in Hin. cbn [map fst] in Hin.
    destruct Hin as [<- | Hin]; [now left | right].
    rewrite flat_map_concat_map, concat_map, map_map, in_concat in Hin.
    destruct Hin as (keys & Hkeys & Hk).
    apply in_map_iff in Hkeys as (kc & <- & Hkc).
    apply in_map_iff. exists kc. split; [| exact Hkc].
    destruct (garmin (snd kc)); cbn in Hk; [| contradiction].
    destruct Hk as [<- | []]. reflexivity.
Qed.

(** The sample account has neither HRV nor training readiness. *)
Lemma garmin_readings_that_fail_are_left_out_witness :
  exists day : dict json,
    fst (run_L (CoachServer.call_tool env_empty
                  (sample_library (mk_stream [] None))
                  sample_garmin sample_interpreter sample_today
                  sample_isoformat "get_garmin_stats" []))
    = Returned (text_content (py_str sample_interpreter (JList [JDict day])))
    /\ dict_lookup day "date" = Some (JStr "2024-01-20")
    /\ dict_lookup day "hrv" = None
    /\ dict_lookup day "training_load" = Some (JInt 0).
Proof.
  destruct (garmin_readings_that_fail_are_left_out env_empty
              (sample_library (mk_stream [] None)) sample_garmin
              sample_interpreter sample_today sample_isoformat [] 7 JNull
              eq_refl) as (day & H1 & H2 & H3 & _).
  - lia.
  - unfold sample_today, date_max_ordinal. lia.
  - reflexivity.
  - exists day. split; [exact H1 |]. split; [exact H2 |]. split.
    + apply (H3 "hrv" (GetHrvData "2024-01-20")). cbn. tauto.
    + apply (H3 "training_load" (GetTrainingLoad "2024-01-20")). cbn. tauto.
Defined.





Lemma map_fst_combine_same_length {A B : Type} (a : list A) :
  forall b : list B,
    List.length a = List.length b -> map fst (combine a b) = a.
Proof.
  induction a as [| x a IH]; intros [| y b] H; cbn in *;
    try reflexivity; try discriminate.
  f_equal. apply IH. now injection H.
Qed.

Lemma enumerate_indices {A : Type} (l : list A) :
  map fst (enumerate l) = range 0 (Z.of_nat (List.length l)).
Proof.
  unfold enumerate. apply map_fst_combine_same_length.
  rewrite range_length. lia.
Qed.

Lemma dict_lookup_snoc {V : Type} (d : dict V) (k : string) (v : V) :
  dict_lookup d k = None -> dict_lookup (d ++ [(k, v)]) k = Some v.
Proof.
  induction d as [| [k' v'] d IH]; cbn [dict_lookup app].
  - intros _. now rewrite String.eqb_refl.
  - destruct (String.eqb k' k); [discriminate | exact IH].
Qed.

(** X16.  The two servers make no call for what they cannot serve.  A tool
    name that is none of the server's falls through every branch: the
    answer is [None], not an error.  [get_strava_activity] and
    [get_strava_streams] without an [activity_id] raise [KeyError]
    before the library is asked anything.  And [get_training_load] of
    the coach server returns its fixed sentence whatever the
    arguments. *)
Theorem tools_that_cannot_be_served_make_no_call :
  forall (environ : string -> option string) (lib : StravaLibrary)
         (garmin : garmin_call -> result json) (py : Interpreter)
         (today : Z) (isoformat : Z -> string) (arguments : dict json),
    (forall name : string,
        ~ In name ["get_strava_activities"; "get_strava_activity";
                   "get_strava_athlete_stats"; "get_strava_streams"] ->
        run_L (StravaServer.call_tool environ lib py name arguments)
        = (Returned JNull, []))
    /\ (forall name : string,
           ~ In name ["get_strava_activities"; "get_garmin_stats";
                      "get_training_load"] ->
           run_L (CoachServer.call_tool environ lib garmin py today isoformat
                    name arguments)
           = (Returned JNull, []))
    /\ (dict_lookup arguments "activity_id" = None ->
        run_L (StravaServer.call_tool environ lib py "get_strava_activity"
                 arguments)
        = (Raised (KeyError "activity_id"), [])
        /\ run_L (StravaServer.call_tool environ lib py "get_strava_streams"
                    arguments)
           = (Raised (KeyError "activity_id"), []))
    /\ run_L (CoachServer.call_tool environ lib garmin py today isoformat
                "get_training_load" arguments)
       = (Returned (text_content training_load_text), []).
Proof.
  intros environ lib garmin py today isoformat arguments.
  split; [| split; [| split]].
  - intros name Hname. cbn [In] in Hname.
    unfold run_L, StravaServer.call_tool.
    repeat match goal with
           | |- context [String.eqb name ?s] =>
               let E := fresh "E" in
               destruct (String.eqb name s) eqn:E;
               [apply String.eqb_eq in E; exfalso; apply Hname; subst name;
                tauto |]
           end.
    reflexivity.
  - intros name Hname. cbn [In] in Hname.
    unfold run_L, CoachServer.call_tool.
    repeat match goal with
           | |- context [String.eqb name ?s] =>
               let E := fresh "E" in
               destruct (String.eqb name s) eqn:E;
               [apply String.eqb_eq in E; exfalso; apply Hname; subst name;
                tauto |]
           end.
    reflexivity.
  - intros Hid. unfold run_L, StravaServer.call_tool.
    change (String.eqb "get_strava_activity" "get_strava_activities")
      with false.
    change (String.eqb "get_strava_activity" "get_strava_activity") with true.
    change (String.eqb "get_strava_streams" "get_strava_activities")
      with false.
    change (String.eqb "get_strava_streams" "get_strava_activity") with false.
    change (String.eqb "get_strava_streams" "get_strava_athlete_stats")
      with false.
    change (String.eqb "get_strava_streams" "get_strava_streams") with true.
    cbn iota. unfold bind_L, lift_L, subscript. rewrite Hid. split; reflexivity.
  - reflexivity.
Qed.

(** A call for a tool of the other server, and one without its id. *)
Lemma tools_that_cannot_be_served_make_no_call_witness :
  run_L (StravaServer.call_tool env_empty (sample_library (mk_stream [] None))
           sample_interpreter "get_garmin_stats" [])
  = (Returned JNull, [])
  /\ run_L (StravaServer.call_tool env_empty
              (sample_library (mk_stream [] None))
              sample_interpreter "get_strava_activity" [("id", JInt 11)])
     = (Raised (KeyError "activity_id"), []).
Proof.
  destruct (tools_that_cannot_be_served_make_no_call env_empty
              (sample_library (mk_stream [] None)) sample_garmin
              sample_interpreter sample_today sample_isoformat [])
    as (H1 & _).
  destruct (tools_that_cannot_be_served_make_no_call env_empty
              (sample_library (mk_stream [] None)) sample_garmin
              sample_interpreter sample_today sample_isoformat
              [("id", JInt 11)])
    as (_ & _ & H3 & _).
  split.
  - apply H1. cbn [In]. intros H.
    repeat (destruct H as [H | H]; [discriminate |]). contradiction.
  - apply H3. reflexivity.
Defined.





(* ------------------------------------------------------------------ *)
(** ** The token bootstrap *)


(** X21.  The reply of the token endpoint is read without a look at its
    status.  A reply that is a dict without [access_token] -- an error
    reply, say -- makes the script raise [KeyError] with nothing
    printed; one with [access_token] and without [refresh_token] makes
    it raise after the access token was printed; one with both has both
    printed, the access token first. *)
Theorem a_reply_without_tokens_raises_key_error :
  forall (environ : string -> option string)
         (parse_qs : string -> dict (string * list string))
         (post_json : string -> dict (option string) -> result json)
         (py_str : json -> string) (path : string)
         (members : dict json),
    let data :=
      [("client_id", Some (get_or (environ "STRAVA_CLIENT_ID") EmptyString));
       ("client_secret",
        Some (get_or (environ "STRAVA_CLIENT_SECRET") EmptyString));
       ("code", option_map fst (dict_lookup (parse_qs path) "code"));
       ("grant_type", Some "authorization_code")] in
    let script :=
      run_L (StravaAuth.main environ parse_qs post_json py_str path) in
    post_json "https://www.strava.com/oauth/token" data = Ok (JDict members) ->
    match dict_lookup members "access_token",
          dict_lookup members "refresh_token" with
    | None, _ =>
        fst script = Raised (KeyError "access_token")
        /\ skipn 3 (snd script) = []
    | Some access, None =>
        fst script = Raised (KeyError "refresh_token")
        /\ skipn 3 (snd script)
           = [StravaAuth.PrintLine ("Access token : " +++ py_str access)]
    | Some access, Some refresh =>
        fst script = Returned tt
        /\ skipn 3 (snd script)
           = [StravaAuth.PrintLine ("Access token : " +++ py_str access);
              StravaAuth.PrintLine ("Refresh token: " +++ py_str refresh)]
    end.
Proof.
  intros environ parse_qs post_json py_str path members data script Hpost.
  subst script.
  unfold run_L, StravaAuth.main, StravaAuth.do_GET, StravaAuth.print,
    StravaAuth.CLIENT_ID, StravaAuth.CLIENT_SECRET, StravaAuth.TOKEN_URL,
    bind_L, call, lift_L.
  cbn [app].
  assert (Hcode : match dict_lookup (parse_qs path) "code" with
                  | Some (first, _) => Some first
                  | None => None
                  end
                  = option_map fst (dict_lookup (parse_qs path) "code")).
  { destruct (dict_lookup (parse_qs path) "code") as [[first rest] |];
      reflexivity. }
  rewrite Hcode. fold data. rewrite Hpost.
  unfold getitem, subscript.
  destruct (dict_lookup members "access_token") as [access |];
    [| split; reflexivity].
  destruct (dict_lookup members "refresh_token") as [refresh |];
    split; reflexivity.
Qed.

(** A request for the icon of the page comes in first, and Strava
    refuses the exchange without a code. *)
Lemma a_reply_without_tokens_raises_key_error_witness :
  fst (run_L (StravaAuth.main env_empty sample_parse_qs refusing_endpoint
                (fun v => json_dumps_ref v 0) "/favicon.ico"))
  = Raised (KeyError "access_token")
  /\ skipn 3 (snd (run_L (StravaAuth.main env_empty sample_parse_qs
                            refusing_endpoint (fun v => json_dumps_ref v 0)
                            "/favicon.ico")))
     = [].
Proof.
  exact (a_reply_without_tokens_raises_key_error env_empty
           sample_parse_qs refusing_endpoint
           (fun v => json_dumps_ref v 0) "/favicon.ico"
           [("message", JStr "Bad Request"); ("errors", JList [])]
           eq_refl).
Defined.
